(** * OculusTinyRoomDXR: descriptor allocator, global vertex store,
      acceleration-structure builds and the VR frame loop

    A shallow embedding of the parts of [Win32_DirectX12AppUtil.h] and
    [Main.cpp] that carry the design logic of the sample: the descriptor
    handle allocator, the global vertex/index store with its per-mesh
    sub-ranges, the bottom-level build loop, the instance-descriptor table
    with its upload buffer, the recording and submission of command lists
    over the frame ring, and the control flow of [MainLoop].

    Conventions.
    - [UINT] is a 32-bit and [UINT64]/[SIZE_T] a 64-bit unsigned integer,
      both carried by [Z] with the wrap-around written out.
    - A [float] is carried by its IEEE-754 binary32 bit pattern: the code
      modelled here only moves floats around and compares them with [==];
      values that the program computes in floating point (camera matrices,
      the animated cube position) enter the model as inputs.
    - A [std::vector] is a list whose last element is [back()].
    - A pointer to a native resource is carried by an integer handle; for a
      buffer the handle is its GPU virtual address.
    - [exit] and undefined behaviour are results of type [outcome]. *)

From Stdlib Require Import ZArith List Lia Bool.
From stdpp Require Import base list.
Import ListNotations.
Open Scope Z_scope.

(** ** Machine integers *)

Definition wrap32 (z : Z) : Z := z mod 2 ^ 32.
Definition wrap64 (z : Z) : Z := z mod 2 ^ 64.

Definition INT_MIN : Z := - 2 ^ 31.
Definition INT_MAX : Z := 2 ^ 31 - 1.

(** [(INT)u] for a [UINT] [u]: two's complement reinterpretation. *)
Definition to_INT (u : Z) : Z :=
  let w := wrap32 u in if w <? 2 ^ 31 then w else w - 2 ^ 32.

(** [(UINT)v.size()]: a [size_t] narrowed to 32 bits. *)
Definition UINT_of_size (n : nat) : Z := wrap32 (Z.of_nat n).

(** ** Results of code that can terminate the process

    [VALIDATE] and [FATALERROR] call [exit(-1)]; [ThrowIfFalse] and
    [ThrowIfFailed] call [exit(1)].  [Undefined] stands for an access
    outside a vector or array, a null or uninitialised pointer that is
    dereferenced, or signed overflow. *)

Inductive outcome (A : Type) : Type :=
| Ok (a : A)
| Exit (code : Z)
| Undefined.

Arguments Ok {A} a.
Arguments Exit {A} code.
Arguments Undefined {A}.

Definition bind {A B : Type} (m : outcome A) (k : A -> outcome B) : outcome B :=
  match m with
  | Ok a => k a
  | Exit c => Exit c
  | Undefined => Undefined
  end.

Notation "x <- m ;; k" := (bind m (fun x => k))
  (at level 100, m at next level, right associativity).

Definition VALIDATE (x : bool) : outcome unit :=
  if x then Ok tt else Exit (-1).

Definition FATALERROR {A : Type} : outcome A := Exit (-1).

Definition ThrowIfFalse (condition : bool) : outcome unit :=
  if condition then Ok tt else Exit 1.

(** [ThrowIfFailed(hr)], with [hr == S_OK] as a boolean. *)
Definition ThrowIfFailed (hr_ok : bool) : outcome unit :=
  if hr_ok then Ok tt else Exit 1.

(** [v[i]] on a vector or array, [i] already converted to [size_t]. *)
Definition vec_at {A : Type} (v : list A) (i : Z) : outcome A :=
  if (0 <=? i) && (i <? Z.of_nat (length v)) then
    match v !! Z.to_nat i with
    | Some a => Ok a
    | None => Undefined
    end
  else Undefined.

(** [v[i] = a]. *)
Definition vec_set {A : Type} (v : list A) (i : Z) (a : A) : outcome (list A) :=
  if (0 <=? i) && (i <? Z.of_nat (length v)) then Ok (<[Z.to_nat i := a]> v)
  else Undefined.

(** An [int] expression: overflow is undefined. *)
Definition int_expr (z : Z) : outcome Z :=
  if (INT_MIN <=? z) && (z <=? INT_MAX) then Ok z else Undefined.

(** A loop [for (x : xs) v.push_back(x)]. *)
Fixpoint push_back_all {A : Type} (v : list A) (xs : list A) : list A :=
  match xs with
  | [] => v
  | x :: xs' => push_back_all (v ++ [x]) xs'
  end.

(** ** Floats as bit patterns *)

Definition float := Z.

Definition float_is_nan (f : float) : bool :=
  (Z.land (Z.shiftr f 23) 255 =? 255) && negb (Z.land f (2 ^ 23 - 1) =? 0).

Definition float_is_zero (f : float) : bool :=
  Z.land f (2 ^ 31 - 1) =? 0.

(** [a == b] on floats: no NaN equals anything, the two zeros are equal. *)
Definition float_eq (a b : float) : bool :=
  negb (float_is_nan a) && negb (float_is_nan b)
  && ((a =? b) || (float_is_zero a && float_is_zero b)).

Definition f_0 : float := 0x00000000.    (* 0.0f *)
Definition f_p5 : float := 0x3F000000.   (* 0.5f *)
Definition f_m5 : float := 0xBF000000.   (* -0.5f *)
Definition f_1 : float := 0x3F800000.    (* 1.0f *)
Definition f_m1 : float := 0xBF800000.   (* -1.0f *)

Record XMFLOAT2 : Type := mkFloat2 { f2_x : float; f2_y : float }.
Record XMFLOAT3 : Type := mkFloat3 { f3_x : float; f3_y : float; f3_z : float }.
Record XMFLOAT4 : Type :=
  mkFloat4 { f4_x : float; f4_y : float; f4_z : float; f4_w : float }.

(** An [XMMATRIX]: four rows [r[0..3]] of four floats. *)
Record XMMATRIX : Type := mkMatrix {
  r0 : XMFLOAT4; r1 : XMFLOAT4; r2 : XMFLOAT4; r3 : XMFLOAT4
}.

Definition XMMatrixTranspose (m : XMMATRIX) : XMMATRIX :=
  {| r0 := mkFloat4 (f4_x (r0 m)) (f4_x (r1 m)) (f4_x (r2 m)) (f4_x (r3 m));
     r1 := mkFloat4 (f4_y (r0 m)) (f4_y (r1 m)) (f4_y (r2 m)) (f4_y (r3 m));
     r2 := mkFloat4 (f4_z (r0 m)) (f4_z (r1 m)) (f4_z (r2 m)) (f4_z (r3 m));
     r3 := mkFloat4 (f4_w (r0 m)) (f4_w (r1 m)) (f4_w (r2 m)) (f4_w (r3 m)) |}.

(** ** The descriptor handle allocator ([struct DescHandleProvider]) *)

Module DescHandle.

(** A [CD3DX12_CPU_DESCRIPTOR_HANDLE] is its [ptr] field, a [SIZE_T]. *)
Definition CPU_DESCRIPTOR_HANDLE := Z.

(** [CD3DX12_CPU_DESCRIPTOR_HANDLE::Offset(INT offsetScaledByIncrementSize)]
    of the d3dx12 helper header:
    [ptr = SIZE_T(INT64(ptr) + INT64(offsetScaledByIncrementSize))]. *)
Definition Offset (ptr : CPU_DESCRIPTOR_HANDLE) (incrementSize : Z)
  : CPU_DESCRIPTOR_HANDLE :=
  wrap64 (ptr + to_INT incrementSize).

Record DescHandleProvider : Type := mkProvider {
  NextAvailableCpuHandle : CPU_DESCRIPTOR_HANDLE;
  IncrementSize : Z;
  CurrentHandleCount : Z;
  MaxHandleCount : Z;
  FreeHandles : list CPU_DESCRIPTOR_HANDLE
}.

(** The constructor: count 0, empty free list, first handle at the heap
    start. *)
Definition init (heapStart incrementSize handleCount : Z) : DescHandleProvider :=
  {| NextAvailableCpuHandle := heapStart;
     IncrementSize := incrementSize;
     CurrentHandleCount := 0;
     MaxHandleCount := handleCount;
     FreeHandles := [] |}.

(** The result of [AllocCpuHandle]: the handle, the value written through
    [pCurrentHandleCount] (if it was written) and the provider afterwards. *)
Record AllocResult : Type := mkAlloc {
  newHandle : CPU_DESCRIPTOR_HANDLE;
  written : option Z;
  after : DescHandleProvider
}.

(** [AllocCpuHandle(pCurrentHandleCount)]; [wantCount] says that the
    pointer argument is not null.  [newHandle{}] starts as 0. *)
Definition AllocCpuHandle (wantCount : bool) (p : DescHandleProvider)
  : outcome AllocResult :=
  if 0 <? Z.of_nat (length (FreeHandles p)) then
    Ok {| newHandle := List.last (FreeHandles p) 0;
          written := None;
          after := {| NextAvailableCpuHandle := NextAvailableCpuHandle p;
                      IncrementSize := IncrementSize p;
                      CurrentHandleCount := CurrentHandleCount p;
                      MaxHandleCount := MaxHandleCount p;
                      FreeHandles := removelast (FreeHandles p) |} |}
  else
    _ <- VALIDATE (CurrentHandleCount p <? MaxHandleCount p) ;;
    Ok {| newHandle := NextAvailableCpuHandle p;
          written := if wantCount then Some (CurrentHandleCount p) else None;
          after := {| NextAvailableCpuHandle :=
                        Offset (NextAvailableCpuHandle p) (IncrementSize p);
                      IncrementSize := IncrementSize p;
                      CurrentHandleCount := wrap32 (CurrentHandleCount p + 1);
                      MaxHandleCount := MaxHandleCount p;
                      FreeHandles := FreeHandles p |} |}.

(** [FreeCpuHandle(handle)]: a [push_back], nothing else. *)
Definition FreeCpuHandle (handle : CPU_DESCRIPTOR_HANDLE) (p : DescHandleProvider)
  : DescHandleProvider :=
  {| NextAvailableCpuHandle := NextAvailableCpuHandle p;
     IncrementSize := IncrementSize p;
     CurrentHandleCount := CurrentHandleCount p;
     MaxHandleCount := MaxHandleCount p;
     FreeHandles := FreeHandles p ++ [handle] |}.

(** The provider with its free list replaced (used to state results). *)
Definition with_free (p : DescHandleProvider) (l : list CPU_DESCRIPTOR_HANDLE)
  : DescHandleProvider :=
  {| NextAvailableCpuHandle := NextAvailableCpuHandle p;
     IncrementSize := IncrementSize p;
     CurrentHandleCount := CurrentHandleCount p;
     MaxHandleCount := MaxHandleCount p;
     FreeHandles := l |}.

(** The provider after a bump of the watermark. *)
Definition bumped (p : DescHandleProvider) : DescHandleProvider :=
  {| NextAvailableCpuHandle := Offset (NextAvailableCpuHandle p) (IncrementSize p);
     IncrementSize := IncrementSize p;
     CurrentHandleCount := wrap32 (CurrentHandleCount p + 1);
     MaxHandleCount := MaxHandleCount p;
     FreeHandles := FreeHandles p |}.

End DescHandle.

(** ** Vertices and the global vertex/index store ([struct VertexBuffer]) *)

Record Vertex : Type := mkVertex {
  position : XMFLOAT3;
  normal : XMFLOAT3;
  uv : XMFLOAT2
}.

(** [Vertex(x, y, z, nx, ny, nz, u, v)]. *)
Definition Vertex_ctor (x y z nx ny nz u v : float) : Vertex :=
  {| position := mkFloat3 x y z; normal := mkFloat3 nx ny nz; uv := mkFloat2 u v |}.

(** [sizeof(Vertex)]: eight floats. *)
Definition sizeof_Vertex : Z := 32.
Definition sizeof_UINT : Z := 4.

(** [Vertex::operator==]. *)
Definition Vertex_eq (a other : Vertex) : bool :=
  float_eq (f3_x (position a)) (f3_x (position other))
  && float_eq (f3_y (position a)) (f3_y (position other))
  && float_eq (f3_z (position a)) (f3_z (position other))
  && float_eq (f3_x (normal a)) (f3_x (normal other))
  && float_eq (f3_y (normal a)) (f3_y (normal other))
  && float_eq (f3_z (normal a)) (f3_z (normal other))
  && float_eq (f2_x (uv a)) (f2_x (uv other))
  && float_eq (f2_y (uv a)) (f2_y (uv other)).

(** A pointer to an [ID3D12Resource]: not yet assigned, or a resource
    given by its handle. *)
Inductive ResourcePtr : Type :=
| NoResource
| Res (handle : Z).

Definition GetGPUVirtualAddress (p : ResourcePtr) : outcome Z :=
  match p with
  | Res h => Ok h
  | NoResource => Undefined
  end.

(** [DirectX12::D3DBuffer]: [resource] is a [ComPtr], null until a buffer
    is created into it. *)
Record D3DBuffer : Type := mkD3DBuffer {
  resource : ResourcePtr;
  cpuDescriptorHandle : Z;
  gpuDescriptorHandle : Z
}.

Record VertexBuffer : Type := mkVertexBuffer {
  indexBuffer : D3DBuffer;
  vertexBuffer : D3DBuffer;
  globalVertices : list Vertex;
  globalIndices : list Z;
  globalStartVBIndices : list (Z * Z);
  globalStartIBIndices : list (Z * Z);
  m_globalBottomLevelAccelerationStructures : list ResourcePtr;
  numVertexBuffers : Z
}.

(** A default-constructed [VertexBuffer]. *)
Definition VertexBuffer_empty : VertexBuffer :=
  {| indexBuffer := mkD3DBuffer NoResource 0 0;
     vertexBuffer := mkD3DBuffer NoResource 0 0;
     globalVertices := [];
     globalIndices := [];
     globalStartVBIndices := [];
     globalStartIBIndices := [];
     m_globalBottomLevelAccelerationStructures := [];
     numVertexBuffers := 0 |}.

(** The index and vertex literals of [AddBoxToGlobal]. *)
Definition box_indices : list Z :=
  [ 0; 2; 1;
    0; 3; 2;
    4; 5; 6;
    4; 6; 7;
    8; 9; 10;
    8; 10; 11;
    12; 14; 13;
    12; 15; 14;
    16; 18; 17;
    16; 19; 18;
    20; 21; 22;
    20; 22; 23 ].

Definition box_vertices : list Vertex :=
  [ (* Back face *)
    Vertex_ctor f_m5 f_m5 f_m5 f_0 f_0 f_m1 f_0 f_0;
    Vertex_ctor f_p5 f_m5 f_m5 f_0 f_0 f_m1 f_1 f_0;
    Vertex_ctor f_p5 f_p5 f_m5 f_0 f_0 f_m1 f_1 f_1;
    Vertex_ctor f_m5 f_p5 f_m5 f_0 f_0 f_m1 f_0 f_1;
    (* Front face *)
    Vertex_ctor f_m5 f_m5 f_p5 f_0 f_0 f_1 f_0 f_0;
    Vertex_ctor f_p5 f_m5 f_p5 f_0 f_0 f_1 f_1 f_0;
    Vertex_ctor f_p5 f_p5 f_p5 f_0 f_0 f_1 f_1 f_1;
    Vertex_ctor f_m5 f_p5 f_p5 f_0 f_0 f_1 f_0 f_1;
    (* Right face *)
    Vertex_ctor f_p5 f_m5 f_m5 f_1 f_0 f_0 f_0 f_0;
    Vertex_ctor f_p5 f_p5 f_m5 f_1 f_0 f_0 f_0 f_1;
    Vertex_ctor f_p5 f_p5 f_p5 f_1 f_0 f_0 f_1 f_1;
    Vertex_ctor f_p5 f_m5 f_p5 f_1 f_0 f_0 f_1 f_0;
    (* Left face *)
    Vertex_ctor f_m5 f_m5 f_m5 f_m1 f_0 f_0 f_0 f_0;
    Vertex_ctor f_m5 f_p5 f_m5 f_m1 f_0 f_0 f_0 f_1;
    Vertex_ctor f_m5 f_p5 f_p5 f_m1 f_0 f_0 f_1 f_1;
    Vertex_ctor f_m5 f_m5 f_p5 f_m1 f_0 f_0 f_1 f_0;
    (* Top face *)
    Vertex_ctor f_m5 f_p5 f_m5 f_0 f_1 f_0 f_0 f_0;
    Vertex_ctor f_p5 f_p5 f_m5 f_0 f_1 f_0 f_1 f_0;
    Vertex_ctor f_p5 f_p5 f_p5 f_0 f_1 f_0 f_1 f_1;
    Vertex_ctor f_m5 f_p5 f_p5 f_0 f_1 f_0 f_0 f_1;
    (* Bottom face *)
    Vertex_ctor f_m5 f_m5 f_m5 f_0 f_m1 f_0 f_0 f_0;
    Vertex_ctor f_p5 f_m5 f_m5 f_0 f_m1 f_0 f_1 f_0;
    Vertex_ctor f_p5 f_m5 f_p5 f_0 f_m1 f_0 f_1 f_1;
    Vertex_ctor f_m5 f_m5 f_p5 f_0 f_m1 f_0 f_0 f_1 ].

(** The tail shared, line for line, by [AddBoxToGlobal],
    [AddVerticeAndIndicesToGlobal] and [AddGlobalObj]: record the start
    positions, push the indices, push the vertices, record the two
    [(first, second)] pairs, count the mesh, return [startIndices]
    ([first] = vertex start, [second] = index start).

    [globalIndices.size() - ibStartIndices.first] is computed in [size_t]
    and stored into a [UINT]. *)
Definition append_to_global (vertices : list Vertex) (indices : list Z)
    (vb : VertexBuffer) : (Z * Z) * VertexBuffer :=
  let startIndices_second := UINT_of_size (length (globalIndices vb)) in
  let startIndices_first := UINT_of_size (length (globalVertices vb)) in
  let ibStartIndices_first := UINT_of_size (length (globalIndices vb)) in
  let globalIndices' := push_back_all (globalIndices vb) indices in
  let vbStartIndices_first := UINT_of_size (length (globalVertices vb)) in
  let globalVertices' := push_back_all (globalVertices vb) vertices in
  let ibStartIndices_second :=
    wrap32 (wrap64 (Z.of_nat (length globalIndices') - ibStartIndices_first)) in
  let vbStartIndices_second :=
    wrap32 (wrap64 (Z.of_nat (length globalVertices') - vbStartIndices_first)) in
  ((startIndices_first, startIndices_second),
   {| indexBuffer := indexBuffer vb;
      vertexBuffer := vertexBuffer vb;
      globalVertices := globalVertices';
      globalIndices := globalIndices';
      globalStartVBIndices :=
        globalStartVBIndices vb ++ [(vbStartIndices_first, vbStartIndices_second)];
      globalStartIBIndices :=
        globalStartIBIndices vb ++ [(ibStartIndices_first, ibStartIndices_second)];
      m_globalBottomLevelAccelerationStructures :=
        m_globalBottomLevelAccelerationStructures vb;
      numVertexBuffers := wrap32 (numVertexBuffers vb + 1) |}).

(** [AddBoxToGlobal()]: the loops run over the first 36 indices and the
    first 24 vertices of the literals, that is, over all of them. *)
Definition AddBoxToGlobal (vb : VertexBuffer) : (Z * Z) * VertexBuffer :=
  append_to_global (take 24 box_vertices) (take 36 box_indices) vb.

(** A loop [for (int i = 0; i < v.size(); i++)] over a vector of [n]
    elements: the counter overflows when [n] exceeds [INT_MAX]. *)
Definition int_counter_loop (n : nat) : outcome unit :=
  if Z.of_nat n <=? INT_MAX then Ok tt else Undefined.

(** [AddVerticeAndIndicesToGlobal(vertices, indices)]. *)
Definition AddVerticeAndIndicesToGlobal (vertices : list Vertex) (indices : list Z)
    (vb : VertexBuffer) : outcome ((Z * Z) * VertexBuffer) :=
  _ <- int_counter_loop (length indices) ;;
  _ <- int_counter_loop (length vertices) ;;
  Ok (append_to_global vertices indices vb).

(** What [tinyobj::ObjReader] hands to [AddGlobalObj]. *)
Module tinyobj.

Record index_t : Type := mkIndex {
  vertex_index : Z;
  normal_index : Z;
  texcoord_index : Z
}.

Record attrib_t : Type := mkAttrib {
  vertices : list float;
  normals : list float;
  texcoords : list float
}.

(** A shape is its [mesh.indices]. *)
Record ObjReader : Type := mkReader {
  GetAttrib : attrib_t;
  GetShapes : list (list index_t)
}.

End tinyobj.

(** [std::unordered_map<Vertex, unsigned int, VertexHash>], as far as
    [AddGlobalObj] uses it: lookups by key equality only. *)
Definition VertexMap := list (Vertex * Z).

Definition map_find (m : VertexMap) (v : Vertex) : option Z :=
  match find (fun kv => Vertex_eq (fst kv) v) m with
  | Some kv => Some (snd kv)
  | None => None
  end.

(** [m.count(v)]. *)
Definition map_count (m : VertexMap) (v : Vertex) : Z :=
  match map_find m v with
  | Some _ => 1
  | None => 0
  end.

(** [m[v]] read: the mapped value, a value-initialised one being inserted
    when no key equals [v]. *)
Definition map_subscript (m : VertexMap) (v : Vertex) : Z * VertexMap :=
  match map_find m v with
  | Some x => (x, m)
  | None => (0, m ++ [(v, 0)])
  end.

Fixpoint map_replace (m : VertexMap) (v : Vertex) (x : Z) : VertexMap :=
  match m with
  | [] => []
  | (k, y) :: m' =>
      if Vertex_eq k v then (k, x) :: m' else (k, y) :: map_replace m' v x
  end.

(** [m[v] = x]. *)
Definition map_assign (m : VertexMap) (v : Vertex) (x : Z) : VertexMap :=
  match map_find m v with
  | Some _ => map_replace m v x
  | None => m ++ [(v, x)]
  end.

(** The vertex assembled for one [index_t] of a face. *)
Definition obj_vertex (attrib : tinyobj.attrib_t) (index : tinyobj.index_t)
  : outcome Vertex :=
  i0 <- int_expr (3 * tinyobj.vertex_index index + 0) ;;
  px <- vec_at (tinyobj.vertices attrib) i0 ;;
  i1 <- int_expr (3 * tinyobj.vertex_index index + 1) ;;
  py <- vec_at (tinyobj.vertices attrib) i1 ;;
  i2 <- int_expr (3 * tinyobj.vertex_index index + 2) ;;
  pz <- vec_at (tinyobj.vertices attrib) i2 ;;
  n <- (if 0 <=? tinyobj.normal_index index then
          j0 <- int_expr (3 * tinyobj.normal_index index + 0) ;;
          nx <- vec_at (tinyobj.normals attrib) j0 ;;
          j1 <- int_expr (3 * tinyobj.normal_index index + 1) ;;
          ny <- vec_at (tinyobj.normals attrib) j1 ;;
          j2 <- int_expr (3 * tinyobj.normal_index index + 2) ;;
          nz <- vec_at (tinyobj.normals attrib) j2 ;;
          Ok (mkFloat3 nx ny nz)
        else Ok (mkFloat3 f_0 f_0 f_0)) ;;
  t <- (if 0 <=? tinyobj.texcoord_index index then
          k0 <- int_expr (2 * tinyobj.texcoord_index index + 0) ;;
          u <- vec_at (tinyobj.texcoords attrib) k0 ;;
          k1 <- int_expr (2 * tinyobj.texcoord_index index + 1) ;;
          v <- vec_at (tinyobj.texcoords attrib) k1 ;;
          Ok (mkFloat2 u v)
        else Ok (mkFloat2 f_0 f_0)) ;;
  Ok {| position := mkFloat3 px py pz; normal := n; uv := t |}.

(** The locals of the import loop. *)
Record ObjLoop : Type := mkObjLoop {
  uniqueVertices : VertexMap;
  obj_vertices : list Vertex;
  obj_indices : list Z
}.

(** The body of the loop over [shape.mesh.indices]. *)
Definition obj_step (attrib : tinyobj.attrib_t) (st : ObjLoop)
    (index : tinyobj.index_t) : outcome ObjLoop :=
  vertex <- obj_vertex attrib index ;;
  let st1 :=
    if map_count (uniqueVertices st) vertex =? 0 then
      {| uniqueVertices :=
           map_assign (uniqueVertices st) vertex
                      (UINT_of_size (length (obj_vertices st)));
         obj_vertices := obj_vertices st ++ [vertex];
         obj_indices := obj_indices st |}
    else st in
  let '(x, m) := map_subscript (uniqueVertices st1) vertex in
  Ok {| uniqueVertices := m;
        obj_vertices := obj_vertices st1;
        obj_indices := obj_indices st1 ++ [x] |}.

Fixpoint obj_face_loop (attrib : tinyobj.attrib_t) (st : ObjLoop)
    (indices : list tinyobj.index_t) : outcome ObjLoop :=
  match indices with
  | [] => Ok st
  | index :: rest =>
      st' <- obj_step attrib st index ;;
      obj_face_loop attrib st' rest
  end.

Fixpoint obj_shape_loop (attrib : tinyobj.attrib_t) (st : ObjLoop)
    (shapes : list (list tinyobj.index_t)) : outcome ObjLoop :=
  match shapes with
  | [] => Ok st
  | shape :: rest =>
      st' <- obj_face_loop attrib st shape ;;
      obj_shape_loop attrib st' rest
  end.

(** [AddGlobalObj(filename)]: [parsed] is what [reader.ParseFromFile] gave,
    [None] when it returned false. *)
Definition AddGlobalObj (parsed : option tinyobj.ObjReader) (vb : VertexBuffer)
  : outcome ((Z * Z) * VertexBuffer) :=
  match parsed with
  | None => Exit 1
  | Some reader =>
      st <- obj_shape_loop (tinyobj.GetAttrib reader)
              {| uniqueVertices := []; obj_vertices := []; obj_indices := [] |}
              (tinyobj.GetShapes reader) ;;
      _ <- int_counter_loop (length (obj_indices st)) ;;
      _ <- int_counter_loop (length (obj_vertices st)) ;;
      Ok (append_to_global (obj_vertices st) (obj_indices st) vb)
  end.

(** A call that appends a mesh to the store. *)
Inductive AppendCall : Type :=
| CallAddBoxToGlobal
| CallAddVerticeAndIndicesToGlobal (vertices : list Vertex) (indices : list Z)
| CallAddGlobalObj (parsed : option tinyobj.ObjReader).

Definition run_call (c : AppendCall) (vb : VertexBuffer)
  : outcome ((Z * Z) * VertexBuffer) :=
  match c with
  | CallAddBoxToGlobal => Ok (AddBoxToGlobal vb)
  | CallAddVerticeAndIndicesToGlobal vs is_ =>
      AddVerticeAndIndicesToGlobal vs is_ vb
  | CallAddGlobalObj parsed => AddGlobalObj parsed vb
  end.

(** A sequence of calls; the returned pairs are collected in call order. *)
Fixpoint run_calls (cs : list AppendCall) (vb : VertexBuffer)
  : outcome (list (Z * Z) * VertexBuffer) :=
  match cs with
  | [] => Ok ([], vb)
  | c :: rest =>
      r <- run_call c vb ;;
      rs <- run_calls rest (snd r) ;;
      Ok (fst r :: fst rs, snd rs)
  end.

(** ** The device singleton ([struct DirectX12], [DIRECTX]) *)

Inductive DrawContext : Type :=
| DrawContext_EyeRenderLeft
| DrawContext_EyeRenderRight
| DrawContext_Final.

Definition DrawContext_Count : Z := 3.

(** The enumerator as an array index. *)
Definition DrawContext_index (c : DrawContext) : Z :=
  match c with
  | DrawContext_EyeRenderLeft => 0
  | DrawContext_EyeRenderRight => 1
  | DrawContext_Final => 2
  end.

Definition DrawContext_eqb (a b : DrawContext) : bool :=
  DrawContext_index a =? DrawContext_index b.

(** An array indexed by [DrawContext]. *)
Record per_context (A : Type) : Type := mkPerContext {
  at_left : A;
  at_right : A;
  at_final : A
}.

Arguments mkPerContext {A} _ _ _.
Arguments at_left {A} _.
Arguments at_right {A} _.
Arguments at_final {A} _.

Definition ctx_get {A : Type} (a : per_context A) (c : DrawContext) : A :=
  match c with
  | DrawContext_EyeRenderLeft => at_left a
  | DrawContext_EyeRenderRight => at_right a
  | DrawContext_Final => at_final a
  end.

Definition ctx_set {A : Type} (a : per_context A) (c : DrawContext) (x : A)
  : per_context A :=
  match c with
  | DrawContext_EyeRenderLeft => mkPerContext x (at_right a) (at_final a)
  | DrawContext_EyeRenderRight => mkPerContext (at_left a) x (at_final a)
  | DrawContext_Final => mkPerContext (at_left a) (at_right a) x
  end.

Inductive D3D12_RESOURCE_STATES : Type :=
| D3D12_RESOURCE_STATE_PRESENT
| D3D12_RESOURCE_STATE_RENDER_TARGET
| D3D12_RESOURCE_STATE_COPY_DEST
| D3D12_RESOURCE_STATE_COPY_SOURCE
| D3D12_RESOURCE_STATE_PIXEL_SHADER_RESOURCE
| D3D12_RESOURCE_STATE_DEPTH_WRITE
| D3D12_RESOURCE_STATE_UNORDERED_ACCESS
| D3D12_RESOURCE_STATE_RAYTRACING_ACCELERATION_STRUCTURE.

Inductive D3D12_RESOURCE_BARRIER : Type :=
| Transition (pResource : ResourcePtr) (StateBefore StateAfter : D3D12_RESOURCE_STATES)
| UAV (pResource : ResourcePtr).

Inductive D3D12_RAYTRACING_GEOMETRY_TYPE : Type :=
| D3D12_RAYTRACING_GEOMETRY_TYPE_TRIANGLES
| D3D12_RAYTRACING_GEOMETRY_TYPE_PROCEDURAL_PRIMITIVE_AABBS.

Inductive D3D12_RAYTRACING_GEOMETRY_FLAGS : Type :=
| D3D12_RAYTRACING_GEOMETRY_FLAG_NONE
| D3D12_RAYTRACING_GEOMETRY_FLAG_OPAQUE.

Inductive DXGI_FORMAT : Type :=
| DXGI_FORMAT_UNKNOWN
| DXGI_FORMAT_R32_UINT
| DXGI_FORMAT_R32G32B32_FLOAT.

(** [D3D12_RAYTRACING_GEOMETRY_DESC] with its [Triangles] member. *)
Record D3D12_RAYTRACING_GEOMETRY_DESC : Type := mkGeometryDesc {
  Type_ : D3D12_RAYTRACING_GEOMETRY_TYPE;
  Flags : D3D12_RAYTRACING_GEOMETRY_FLAGS;
  Transform3x4 : Z;
  IndexFormat : DXGI_FORMAT;
  VertexFormat : DXGI_FORMAT;
  IndexCount : Z;
  VertexCount : Z;
  IndexBuffer : Z;
  VertexBuffer_StartAddress : Z;
  VertexBuffer_StrideInBytes : Z
}.

(** [D3D12_BUILD_RAYTRACING_ACCELERATION_STRUCTURE_INPUTS]; both kinds are
    built with [PREFER_FAST_TRACE] and the array layout. *)
Inductive ACCELERATION_STRUCTURE_INPUTS : Type :=
| BOTTOM_LEVEL (NumDescs : Z) (pGeometryDescs : list D3D12_RAYTRACING_GEOMETRY_DESC)
| TOP_LEVEL (NumDescs : Z) (InstanceDescs : Z).

Record PREBUILD_INFO : Type := mkPrebuild {
  ResultDataMaxSizeInBytes : Z;
  ScratchDataSizeInBytes : Z
}.

(** [D3D12_BUILD_RAYTRACING_ACCELERATION_STRUCTURE_DESC]. *)
Record BUILD_DESC : Type := mkBuildDesc {
  bd_Inputs : ACCELERATION_STRUCTURE_INPUTS;
  bd_ScratchAccelerationStructureData : Z;
  bd_DestAccelerationStructureData : Z
}.

(** The slots of the global root signature. *)
Inductive GlobalRootSignatureParams : Type :=
| OutputViewSlot
| OutputDepthSlot
| AccelerationStructureSlot
| SceneConstantSlot
| VertexBufferSlot
| TextureSlot.

(** What a command list records. *)
Inductive Command : Type :=
| ResourceBarrier (barriers : list D3D12_RESOURCE_BARRIER)
| BuildRaytracingAccelerationStructure (desc : BUILD_DESC)
| SetDescriptorHeaps (heap : Z)
| SetComputeRootSignature
| SetComputeRootConstantBufferView (slot : GlobalRootSignatureParams) (address : Z)
| SetComputeRootDescriptorTable (slot : GlobalRootSignatureParams) (handle : Z)
| SetComputeRootShaderResourceView (slot : GlobalRootSignatureParams) (address : Z)
| SetPipelineState1
| DispatchRays (Width Height Depth : Z)
| CopyResource (dst src : ResourcePtr)
| CopyTextureRegion (dst src : ResourcePtr)
| RSSetViewports
| RSSetScissorRects.

(** Native calls whose [HRESULT] the code checks or that can fail. *)
Inductive NativeCall : Type :=
| CommandAllocator_Reset
| CommandList_Reset
| CommandList_Close
| CommandQueue_Signal
| SwapChain_Present.

(** The device and the driver, as far as their answers matter: they are
    asked in order, [n] being the number of native calls made before. *)
Record Device : Type := mkDevice {
  GetRaytracingAccelerationStructurePrebuildInfo :
    ACCELERATION_STRUCTURE_INPUTS -> PREBUILD_INFO;
  CreateCommittedResource : nat -> Z -> option Z;
  hr_ok : nat -> NativeCall -> bool;
  (** the back buffer index after the given number of presents *)
  GetCurrentBackBufferIndex : nat -> Z
}.

(** The two texture swap chains of the eye texture of an eye
    ([pEyeRenderTexture[eye]->TextureChain] and [->DepthTextureChain]). *)
Inductive ovrTextureSwapChain : Type :=
| TextureChain (eye : Z)
| DepthTextureChain (eye : Z).

(** Calls into the VR runtime that the frame loop makes: those that act
    on the session or whose result is assigned to [result].  The queries
    whose answers the loop only reads ([ovr_GetSessionStatus],
    [ovr_GetRenderDesc], [ovr_GetEyePoses],
    [ovr_GetTextureSwapChainCurrentIndex], [ovr_GetMirrorTextureBufferDX])
    come in through the inputs of a frame. *)
Inductive OvrCall : Type :=
| ovr_RecenterTrackingOrigin
| ovr_WaitToBeginFrame
| ovr_BeginFrame
| ovr_GetInputState
| ovr_CommitTextureSwapChain (chain : ovrTextureSwapChain)
| ovr_EndFrame.

(** What the process did to the outside, in program order: the command
    queue receives the [ExecuteCommandLists] and [Signal] entries in this
    order. *)
Inductive Event : Type :=
| EvCreateResource (size : Z) (state : D3D12_RESOURCE_STATES) (handle : Z)
| EvExecuteCommandLists (slot : Z) (ctx : DrawContext) (commands : list Command)
| EvSignal (slot : Z) (value : Z)
| EvWaitForSingleObject (slot : Z)
| EvPresent
| EvRelease (handle : Z)
| EvOvr (call : OvrCall).

Definition is_EvPresent (e : Event) : bool :=
  match e with
  | EvPresent => true
  | _ => false
  end.

(** How many times the swap chain was presented. *)
Definition presents (t : list Event) : nat := length (filter is_EvPresent t).

Record SwapChainFrameResources : Type := mkFrameResources {
  CommandLists : per_context (list Command);
  CommandListSubmitted : per_context bool;
  SwapChainBuffer : ResourcePtr;
  PresentFenceValue : Z;
  PresentFenceWaitValue : Z
}.

(** The members of [DirectX12] that are set once by [InitDevice]. *)
Record DeviceObjects : Type := mkDeviceObjects {
  eyeWidth : Z;
  eyeHeight : Z;
  CbvSrvHeap : Z;
  m_raytracingOutputs : list ResourcePtr;
  m_raytracingDepthOutputs : list ResourcePtr;
  m_raytracingOutputResourceUAVGpuDescriptors : list Z;
  m_raytracingDepthOutputResourceUAVGpuDescriptors : list Z;
  texArrayGpuHandle : Z
}.

Definition SwapChainNumFrames : Z := 4.

Record DirectX12 : Type := mkDirectX12 {
  objects : DeviceObjects;
  SwapChainFrameIndex : Z;
  ActiveContext : DrawContext;
  ActiveEyeIndex : Z;
  PerFrameResources : list SwapChainFrameResources;
  NativeCalls : nat;
  Trace : list Event
}.

(** Code that works on [DIRECTX]. *)
Definition DX (A : Type) : Type := DirectX12 -> outcome (A * DirectX12).

Definition ret {A : Type} (a : A) : DX A := fun s => Ok (a, s).

Definition dx_bind {A B : Type} (m : DX A) (k : A -> DX B) : DX B :=
  fun s =>
    match m s with
    | Ok (a, s') => k a s'
    | Exit c => Exit c
    | Undefined => Undefined
    end.

Notation "x <~ m ;; k" := (dx_bind m (fun x => k))
  (at level 100, m at next level, right associativity).

(** A pure result inside [DX]. *)
Definition lift {A : Type} (o : outcome A) : DX A :=
  fun s =>
    match o with
    | Ok a => Ok (a, s)
    | Exit c => Exit c
    | Undefined => Undefined
    end.

Definition get : DX DirectX12 := fun s => Ok (s, s).

Definition emit (e : Event) : DX unit :=
  fun s => Ok (tt, {| objects := objects s;
                      SwapChainFrameIndex := SwapChainFrameIndex s;
                      ActiveContext := ActiveContext s;
                      ActiveEyeIndex := ActiveEyeIndex s;
                      PerFrameResources := PerFrameResources s;
                      NativeCalls := NativeCalls s;
                      Trace := Trace s ++ [e] |}).

Section WithDevice.

Variable dev : Device.

(** One checked native call: its [HRESULT] is success or not. *)
Definition native (c : NativeCall) : DX bool :=
  fun s => Ok (hr_ok dev (NativeCalls s) c,
               {| objects := objects s;
                  SwapChainFrameIndex := SwapChainFrameIndex s;
                  ActiveContext := ActiveContext s;
                  ActiveEyeIndex := ActiveEyeIndex s;
                  PerFrameResources := PerFrameResources s;
                  NativeCalls := S (NativeCalls s);
                  Trace := Trace s |}).

(** [Device->CreateCommittedResource] for a buffer of the given size: the
    handle of the new resource, or failure. *)
Definition Device_CreateCommittedResource (size : Z) : DX (option Z) :=
  fun s => Ok (CreateCommittedResource dev (NativeCalls s) size,
               {| objects := objects s;
                  SwapChainFrameIndex := SwapChainFrameIndex s;
                  ActiveContext := ActiveContext s;
                  ActiveEyeIndex := ActiveEyeIndex s;
                  PerFrameResources := PerFrameResources s;
                  NativeCalls := S (NativeCalls s);
                  Trace := Trace s |}).

(** [SwapChain->GetCurrentBackBufferIndex()]. *)
Definition SwapChain_GetCurrentBackBufferIndex : DX Z :=
  fun s => Ok (GetCurrentBackBufferIndex dev (presents (Trace s)),
               {| objects := objects s;
                  SwapChainFrameIndex := SwapChainFrameIndex s;
                  ActiveContext := ActiveContext s;
                  ActiveEyeIndex := ActiveEyeIndex s;
                  PerFrameResources := PerFrameResources s;
                  NativeCalls := S (NativeCalls s);
                  Trace := Trace s |}).

(** [CurrentFrameResources()]. *)
Definition CurrentFrameResources : DX SwapChainFrameResources :=
  fun s =>
    bind (vec_at (PerFrameResources s) (SwapChainFrameIndex s))
         (fun fr => Ok (fr, s)).

(** Assignment through the reference [CurrentFrameResources()] gave. *)
Definition set_CurrentFrameResources (fr : SwapChainFrameResources) : DX unit :=
  fun s =>
    bind (vec_set (PerFrameResources s) (SwapChainFrameIndex s) fr)
         (fun frs => Ok (tt, {| objects := objects s;
                                SwapChainFrameIndex := SwapChainFrameIndex s;
                                ActiveContext := ActiveContext s;
                                ActiveEyeIndex := ActiveEyeIndex s;
                                PerFrameResources := frs;
                                NativeCalls := NativeCalls s;
                                Trace := Trace s |})).

Definition with_CommandLists (fr : SwapChainFrameResources)
    (l : per_context (list Command)) : SwapChainFrameResources :=
  {| CommandLists := l;
     CommandListSubmitted := CommandListSubmitted fr;
     SwapChainBuffer := SwapChainBuffer fr;
     PresentFenceValue := PresentFenceValue fr;
     PresentFenceWaitValue := PresentFenceWaitValue fr |}.

Definition with_CommandListSubmitted (fr : SwapChainFrameResources)
    (b : per_context bool) : SwapChainFrameResources :=
  {| CommandLists := CommandLists fr;
     CommandListSubmitted := b;
     SwapChainBuffer := SwapChainBuffer fr;
     PresentFenceValue := PresentFenceValue fr;
     PresentFenceWaitValue := PresentFenceWaitValue fr |}.

Definition with_fence (fr : SwapChainFrameResources) (value waitValue : Z)
  : SwapChainFrameResources :=
  {| CommandLists := CommandLists fr;
     CommandListSubmitted := CommandListSubmitted fr;
     SwapChainBuffer := SwapChainBuffer fr;
     PresentFenceValue := value;
     PresentFenceWaitValue := waitValue |}.

(** A call on [CurrentFrameResources().CommandLists[context]] (or on the
    [m_dxrCommandList[context]] interface of the same list) that records
    one command. *)
Definition record (context : DrawContext) (c : Command) : DX unit :=
  fr <~ CurrentFrameResources ;;
  set_CurrentFrameResources
    (with_CommandLists fr
       (ctx_set (CommandLists fr) context (ctx_get (CommandLists fr) context ++ [c]))).

(** [CommandLists[context]->Reset(allocator, nullptr)]: empties the list
    when it succeeds. *)
Definition CommandList_Reset_call (context : DrawContext) : DX bool :=
  ok <~ native CommandList_Reset ;;
  if ok then
    fr <~ CurrentFrameResources ;;
    _ <~ set_CurrentFrameResources
           (with_CommandLists fr (ctx_set (CommandLists fr) context [])) ;;
    ret true
  else ret false.

Definition SetActiveContext (context : DrawContext) : DX unit :=
  fun s => Ok (tt, {| objects := objects s;
                      SwapChainFrameIndex := SwapChainFrameIndex s;
                      ActiveContext := context;
                      ActiveEyeIndex := ActiveEyeIndex s;
                      PerFrameResources := PerFrameResources s;
                      NativeCalls := NativeCalls s;
                      Trace := Trace s |}).

Definition SetActiveEye (eye : Z) : DX unit :=
  fun s => Ok (tt, {| objects := objects s;
                      SwapChainFrameIndex := SwapChainFrameIndex s;
                      ActiveContext := ActiveContext s;
                      ActiveEyeIndex := eye;
                      PerFrameResources := PerFrameResources s;
                      NativeCalls := NativeCalls s;
                      Trace := Trace s |}).

Definition set_SwapChainFrameIndex (i : Z) : DX unit :=
  fun s => Ok (tt, {| objects := objects s;
                      SwapChainFrameIndex := i;
                      ActiveContext := ActiveContext s;
                      ActiveEyeIndex := ActiveEyeIndex s;
                      PerFrameResources := PerFrameResources s;
                      NativeCalls := NativeCalls s;
                      Trace := Trace s |}).

(** [AllocateUAVBuffer]: the new resource, or [exit(1)]. *)
Definition AllocateUAVBuffer (bufferSize : Z)
    (initialResourceState : D3D12_RESOURCE_STATES) : DX ResourcePtr :=
  created <~ Device_CreateCommittedResource bufferSize ;;
  match created with
  | Some h =>
      _ <~ emit (EvCreateResource bufferSize initialResourceState h) ;;
      ret (Res h)
  | None => lift (Exit 1)
  end.

(** [InitCommandList(context)]. *)
Definition InitCommandList (context : DrawContext) : DX unit :=
  fr <~ CurrentFrameResources ;;
  if ctx_get (CommandListSubmitted fr) context then
    hr <~ native CommandAllocator_Reset ;;
    _ <~ lift (VALIDATE hr) ;;
    hr <~ CommandList_Reset_call context ;;
    _ <~ lift (VALIDATE hr) ;;
    s <~ get ;;
    _ <~ record context (SetDescriptorHeaps (CbvSrvHeap (objects s))) ;;
    fr <~ CurrentFrameResources ;;
    set_CurrentFrameResources
      (with_CommandListSubmitted fr
         (ctx_set (CommandListSubmitted fr) context false))
  else ret tt.

(** [InitFrame(finalContextUsed)]. *)
Definition InitFrame (finalContextUsed : bool) : DX unit :=
  _ <~ InitCommandList DrawContext_EyeRenderLeft ;;
  _ <~ InitCommandList DrawContext_EyeRenderRight ;;
  _ <~ (if finalContextUsed then InitCommandList DrawContext_Final else ret tt) ;;
  currFrameRes <~ CurrentFrameResources ;;
  if finalContextUsed then
    record DrawContext_Final
      (ResourceBarrier [Transition (SwapChainBuffer currFrameRes)
                          D3D12_RESOURCE_STATE_PRESENT
                          D3D12_RESOURCE_STATE_RENDER_TARGET])
  else ret tt.

(** The first block of [WaitForPreviousFrame] and of [WaitForGpu]: signal
    the fence of the current slot with its next value. *)
Definition signal_fence : DX unit :=
  currFrameRes <~ CurrentFrameResources ;;
  s <~ get ;;
  let waitValue := PresentFenceValue currFrameRes in
  hr <~ native CommandQueue_Signal ;;
  _ <~ lift (VALIDATE hr) ;;
  _ <~ emit (EvSignal (SwapChainFrameIndex s) waitValue) ;;
  _ <~ set_CurrentFrameResources
         (with_fence currFrameRes (wrap64 (PresentFenceValue currFrameRes + 1))
                     waitValue) ;;
  lift (VALIDATE hr).

(** [WaitForPreviousFrame()]; a wait value of [-1], as a [UINT64], means
    that the slot was never kicked off. *)
Definition WaitForPreviousFrame : DX unit :=
  _ <~ signal_fence ;;
  s <~ get ;;
  _ <~ set_SwapChainFrameIndex
         (wrap32 (SwapChainFrameIndex s + 1) mod SwapChainNumFrames) ;;
  currFrameRes <~ CurrentFrameResources ;;
  s <~ get ;;
  _ <~ (if negb (PresentFenceWaitValue currFrameRes =? wrap64 (-1)) then
          emit (EvWaitForSingleObject (SwapChainFrameIndex s))
        else ret tt) ;;
  s <~ get ;;
  backBuffer <~ SwapChain_GetCurrentBackBufferIndex ;;
  lift (VALIDATE (SwapChainFrameIndex s =? backBuffer)).

(** [WaitForGpu()]. *)
Definition WaitForGpu : DX unit :=
  _ <~ signal_fence ;;
  s <~ get ;;
  emit (EvWaitForSingleObject (SwapChainFrameIndex s)).

(** [SubmitCommandList(context)]. *)
Definition SubmitCommandList (context : DrawContext) : DX unit :=
  hr <~ native CommandList_Close ;;
  _ <~ lift (VALIDATE hr) ;;
  currFrameRes <~ CurrentFrameResources ;;
  s <~ get ;;
  _ <~ emit (EvExecuteCommandLists (SwapChainFrameIndex s) context
               (ctx_get (CommandLists currFrameRes) context)) ;;
  set_CurrentFrameResources
    (with_CommandListSubmitted currFrameRes
       (ctx_set (CommandListSubmitted currFrameRes) context true)).

(** [SubmitCommandListAndPresent(finalContextUsed)]. *)
Definition SubmitCommandListAndPresent (finalContextUsed : bool) : DX unit :=
  _ <~ (if finalContextUsed then
          currFrameRes <~ CurrentFrameResources ;;
          s <~ get ;;
          _ <~ lift (VALIDATE (DrawContext_eqb (ActiveContext s) DrawContext_Final)) ;;
          _ <~ record (ActiveContext s)
                 (ResourceBarrier [Transition (SwapChainBuffer currFrameRes)
                                     D3D12_RESOURCE_STATE_COPY_DEST
                                     D3D12_RESOURCE_STATE_PRESENT]) ;;
          _ <~ SubmitCommandList DrawContext_Final ;;
          hr <~ native SwapChain_Present ;;
          _ <~ lift (VALIDATE hr) ;;
          _ <~ emit EvPresent ;;
          WaitForPreviousFrame
        else ret tt) ;;
  InitFrame finalContextUsed.

End WithDevice.

(** ** The bottom-level build ([InitGlobalBottomLevelAccelerationObject]) *)

Section BottomLevel.

Variable dev : Device.

Definition with_BLAS (vb : VertexBuffer) (l : list ResourcePtr) : VertexBuffer :=
  {| indexBuffer := indexBuffer vb;
     vertexBuffer := vertexBuffer vb;
     globalVertices := globalVertices vb;
     globalIndices := globalIndices vb;
     globalStartVBIndices := globalStartVBIndices vb;
     globalStartIBIndices := globalStartIBIndices vb;
     m_globalBottomLevelAccelerationStructures := l;
     numVertexBuffers := numVertexBuffers vb |}.

(** The [geometryDesc] that iteration [i] fills in.  Addresses are
    [UINT64]; [sizeof(UINT) * first] is computed in [size_t]. *)
Definition blas_geometryDesc (vb : VertexBuffer) (i : Z)
  : outcome D3D12_RAYTRACING_GEOMETRY_DESC :=
  ibBase <- GetGPUVirtualAddress (resource (indexBuffer vb)) ;;
  ib <- vec_at (globalStartIBIndices vb) i ;;
  vbRange <- vec_at (globalStartVBIndices vb) i ;;
  vbBase <- GetGPUVirtualAddress (resource (vertexBuffer vb)) ;;
  Ok {| Type_ := D3D12_RAYTRACING_GEOMETRY_TYPE_TRIANGLES;
        Flags := D3D12_RAYTRACING_GEOMETRY_FLAG_OPAQUE;
        Transform3x4 := 0;
        IndexFormat := DXGI_FORMAT_R32_UINT;
        VertexFormat := DXGI_FORMAT_R32G32B32_FLOAT;
        IndexCount := snd ib;
        VertexCount := snd vbRange;
        IndexBuffer := wrap64 (ibBase + wrap64 (sizeof_UINT * fst ib));
        VertexBuffer_StartAddress :=
          wrap64 (vbBase + wrap64 (sizeof_Vertex * fst vbRange));
        VertexBuffer_StrideInBytes := sizeof_Vertex |}.

(** [scratchResource->Release()]. *)
Definition Release_resource (p : ResourcePtr) : DX unit :=
  match p with
  | Res h => emit (EvRelease h)
  | NoResource => lift Undefined
  end.

(** The body of the loop, for counter [i].  The pushed [dummyResource] is
    an uninitialised pointer. *)
Definition blas_iteration (i : Z) (vb : VertexBuffer) : DX VertexBuffer :=
  _ <~ CommandList_Reset_call dev DrawContext_Final ;;
  let pushed := m_globalBottomLevelAccelerationStructures vb ++ [NoResource] in
  geometryDesc <~ lift (blas_geometryDesc vb i) ;;
  let bottomLevelInputs := BOTTOM_LEVEL 1 [geometryDesc] in
  let bottomLevelPrebuildInfo :=
    GetRaytracingAccelerationStructurePrebuildInfo dev bottomLevelInputs in
  _ <~ lift (ThrowIfFalse (0 <? ResultDataMaxSizeInBytes bottomLevelPrebuildInfo)) ;;
  scratchResource <~ AllocateUAVBuffer dev
                       (ScratchDataSizeInBytes bottomLevelPrebuildInfo)
                       D3D12_RESOURCE_STATE_UNORDERED_ACCESS ;;
  _ <~ lift (vec_at pushed i) ;;
  built <~ AllocateUAVBuffer dev
             (ResultDataMaxSizeInBytes bottomLevelPrebuildInfo)
             D3D12_RESOURCE_STATE_RAYTRACING_ACCELERATION_STRUCTURE ;;
  structures <~ lift (vec_set pushed i built) ;;
  scratchAddress <~ lift (GetGPUVirtualAddress scratchResource) ;;
  ith <~ lift (vec_at structures i) ;;
  destAddress <~ lift (GetGPUVirtualAddress ith) ;;
  _ <~ record DrawContext_Final
         (BuildRaytracingAccelerationStructure
            {| bd_Inputs := bottomLevelInputs;
               bd_ScratchAccelerationStructureData := scratchAddress;
               bd_DestAccelerationStructureData := destAddress |}) ;;
  _ <~ record DrawContext_Final (ResourceBarrier [UAV ith]) ;;
  _ <~ SubmitCommandList dev DrawContext_Final ;;
  _ <~ WaitForGpu dev ;;
  _ <~ Release_resource scratchResource ;;
  ret (with_BLAS vb structures).

(** [for (int i = 0; i < globalStartIBIndices.size(); i++)], with [n]
    iterations still to run. *)
Fixpoint blas_loop (n : nat) (i : Z) (vb : VertexBuffer) : DX VertexBuffer :=
  match n with
  | O => ret vb
  | S n' =>
      vb' <~ blas_iteration i vb ;;
      blas_loop n' (i + 1) vb'
  end.

Definition InitGlobalBottomLevelAccelerationObject (vb : VertexBuffer)
  : DX VertexBuffer :=
  _ <~ lift (int_counter_loop (length (globalStartIBIndices vb))) ;;
  blas_loop (length (globalStartIBIndices vb)) 0 vb.

End BottomLevel.

(** ** The scene: instance table, TLAS update and ray dispatch
       ([struct Scene]) *)

Definition MAX_INSTANCES : Z := 400.
Definition MAX_VBS : Z := 400.
Definition MAX_TEXTURES : Z := 60.

Record TextureData : Type := mkTextureData {
  width : Z;
  height : Z;
  td_padding : XMFLOAT2
}.

Record InstanceData : Type := mkInstanceData {
  textureId : Z;
  vertexBufferId : Z;
  id_uv : XMFLOAT2;
  color : XMFLOAT4
}.

Record Light : Type := mkLight {
  light_position : XMFLOAT4;
  light_color : XMFLOAT3;
  intensity : float
}.

Record VertexBufferData : Type := mkVertexBufferData {
  vertexOffset : Z;
  indexOffset : Z;
  vbd_padding : XMFLOAT2
}.

Record SceneConstantBuffer : Type := mkSceneCB {
  cb_projectionToWorld : XMMATRIX;
  cb_eyePosition : XMFLOAT4;
  cb_instanceData : list InstanceData;
  cb_lights : list Light;
  cb_vertexBufferDatas : list VertexBufferData;
  cb_textureResources : list TextureData
}.

(** [sizeof(SceneConstantBuffer)]: 64 + 16 + 400 * 32 + 4 * 32 + 400 * 16
    + 60 * 16 bytes, rounded up to the alignment of 256. *)
Definition sizeof_SceneConstantBuffer : Z := 20480.

(** [D3D12_RAYTRACING_INSTANCE_DESC] of the native header: a 3x4 float
    transform, two 32-bit words of bit fields (24 + 8 bits each) and a
    64-bit address; 64 bytes. *)
Record D3D12_RAYTRACING_INSTANCE_DESC : Type := mkInstanceDesc {
  Transform_0 : XMFLOAT4;
  Transform_1 : XMFLOAT4;
  Transform_2 : XMFLOAT4;
  InstanceID : Z;
  InstanceMask : Z;
  InstanceContributionToHitGroupIndex : Z;
  InstanceFlags : Z;
  AccelerationStructure : Z
}.

Definition sizeof_INSTANCE_DESC : Z := 64.

(** The [n] low bytes of [z], least significant first. *)
Fixpoint le_bytes (n : nat) (z : Z) : list Z :=
  match n with
  | O => []
  | S n' => Z.land z 255 :: le_bytes n' (Z.shiftr z 8)
  end.

Definition XMFLOAT4_bytes (v : XMFLOAT4) : list Z :=
  le_bytes 4 (f4_x v) ++ le_bytes 4 (f4_y v)
  ++ le_bytes 4 (f4_z v) ++ le_bytes 4 (f4_w v).

(** The object representation of one instance descriptor. *)
Definition INSTANCE_DESC_bytes (d : D3D12_RAYTRACING_INSTANCE_DESC) : list Z :=
  XMFLOAT4_bytes (Transform_0 d) ++ XMFLOAT4_bytes (Transform_1 d)
  ++ XMFLOAT4_bytes (Transform_2 d)
  ++ le_bytes 4 (Z.lor (Z.land (InstanceID d) (2 ^ 24 - 1))
                       (Z.shiftl (Z.land (InstanceMask d) 255) 24))
  ++ le_bytes 4 (Z.lor (Z.land (InstanceContributionToHitGroupIndex d) (2 ^ 24 - 1))
                       (Z.shiftl (Z.land (InstanceFlags d) 255) 24))
  ++ le_bytes 8 (AccelerationStructure d).

(** The bytes of an array of instance descriptors. *)
Definition array_bytes (a : list D3D12_RAYTRACING_INSTANCE_DESC) : list Z :=
  concat (map INSTANCE_DESC_bytes a).

(** [memcpy(dst, src, n)] on the bytes (or elements) behind the two
    pointers: reading or writing past either end is undefined. *)
Definition memcpy {A : Type} (dst src : list A) (n : Z) : outcome (list A) :=
  if (0 <=? n) && (n <=? Z.of_nat (length src)) && (n <=? Z.of_nat (length dst))
  then Ok (take (Z.to_nat n) src ++ drop (Z.to_nat n) dst)
  else Undefined.

Record Scene : Type := mkScene {
  m_mappedConstantData : list (list SceneConstantBuffer);
  m_perFrameConstants : list ResourcePtr;
  m_sceneCB : list (list SceneConstantBuffer);
  instanceData : list InstanceData;
  numInstances : Z;
  lights : list Light;
  vertexBufferDatas : list VertexBufferData;
  textureResources : list TextureData;
  globalVertexBuffer : VertexBuffer;
  instanceDescs : ResourcePtr;
  (** the memory of the upload buffer behind [instanceDescs] *)
  instanceDescs_memory : list Z;
  instanceDescsArray : list D3D12_RAYTRACING_INSTANCE_DESC;
  ScratchAccelerationStructureData : ResourcePtr;
  m_topLevelAccelerationStructure : ResourcePtr
}.

Definition with_instanceDescsArray (sc : Scene)
    (a : list D3D12_RAYTRACING_INSTANCE_DESC) : Scene :=
  {| m_mappedConstantData := m_mappedConstantData sc;
     m_perFrameConstants := m_perFrameConstants sc;
     m_sceneCB := m_sceneCB sc;
     instanceData := instanceData sc;
     numInstances := numInstances sc;
     lights := lights sc;
     vertexBufferDatas := vertexBufferDatas sc;
     textureResources := textureResources sc;
     globalVertexBuffer := globalVertexBuffer sc;
     instanceDescs := instanceDescs sc;
     instanceDescs_memory := instanceDescs_memory sc;
     instanceDescsArray := a;
     ScratchAccelerationStructureData := ScratchAccelerationStructureData sc;
     m_topLevelAccelerationStructure := m_topLevelAccelerationStructure sc |}.

Definition with_instanceDescs_memory (sc : Scene) (m : list Z) : Scene :=
  {| m_mappedConstantData := m_mappedConstantData sc;
     m_perFrameConstants := m_perFrameConstants sc;
     m_sceneCB := m_sceneCB sc;
     instanceData := instanceData sc;
     numInstances := numInstances sc;
     lights := lights sc;
     vertexBufferDatas := vertexBufferDatas sc;
     textureResources := textureResources sc;
     globalVertexBuffer := globalVertexBuffer sc;
     instanceDescs := instanceDescs sc;
     instanceDescs_memory := m;
     instanceDescsArray := instanceDescsArray sc;
     ScratchAccelerationStructureData := ScratchAccelerationStructureData sc;
     m_topLevelAccelerationStructure := m_topLevelAccelerationStructure sc |}.

Definition with_constants (sc : Scene)
    (cb mapped : list (list SceneConstantBuffer)) : Scene :=
  {| m_mappedConstantData := mapped;
     m_perFrameConstants := m_perFrameConstants sc;
     m_sceneCB := cb;
     instanceData := instanceData sc;
     numInstances := numInstances sc;
     lights := lights sc;
     vertexBufferDatas := vertexBufferDatas sc;
     textureResources := textureResources sc;
     globalVertexBuffer := globalVertexBuffer sc;
     instanceDescs := instanceDescs sc;
     instanceDescs_memory := instanceDescs_memory sc;
     instanceDescsArray := instanceDescsArray sc;
     ScratchAccelerationStructureData := ScratchAccelerationStructureData sc;
     m_topLevelAccelerationStructure := m_topLevelAccelerationStructure sc |}.

Definition with_Transform (d : D3D12_RAYTRACING_INSTANCE_DESC)
    (t0 t1 t2 : XMFLOAT4) : D3D12_RAYTRACING_INSTANCE_DESC :=
  {| Transform_0 := t0;
     Transform_1 := t1;
     Transform_2 := t2;
     InstanceID := InstanceID d;
     InstanceMask := InstanceMask d;
     InstanceContributionToHitGroupIndex := InstanceContributionToHitGroupIndex d;
     InstanceFlags := InstanceFlags d;
     AccelerationStructure := AccelerationStructure d |}.

Definition set_w (v : XMFLOAT4) (w : float) : XMFLOAT4 :=
  mkFloat4 (f4_x v) (f4_y v) (f4_z v) w.

(** [UpdateInstancePosition(instanceIndex, position)]: the last column of
    the three rows. *)
Definition UpdateInstancePosition (instanceIndex : Z) (position : XMFLOAT3)
    (sc : Scene) : outcome Scene :=
  d <- vec_at (instanceDescsArray sc) instanceIndex ;;
  a <- vec_set (instanceDescsArray sc) instanceIndex
         (with_Transform d
            (set_w (Transform_0 d) (f3_x position))
            (set_w (Transform_1 d) (f3_y position))
            (set_w (Transform_2 d) (f3_z position))) ;;
  Ok (with_instanceDescsArray sc a).

(** [UpdateInstanceTransform(instanceIndex, transformMatrix)]: the first
    three rows of the transposed matrix are copied into the entry. *)
Definition UpdateInstanceTransform (instanceIndex : Z) (transformMatrix : XMMATRIX)
    (sc : Scene) : outcome Scene :=
  let transformMatrix := XMMatrixTranspose transformMatrix in
  d <- vec_at (instanceDescsArray sc) instanceIndex ;;
  a <- vec_set (instanceDescsArray sc) instanceIndex
         (with_Transform d (r0 transformMatrix) (r1 transformMatrix)
                         (r2 transformMatrix)) ;;
  Ok (with_instanceDescsArray sc a).

(** [UpdateInstanceDescs()]: [UpdateUploadBuffer] maps the buffer and copies
    [numInstances * sizeof(D3D12_RAYTRACING_INSTANCE_DESC)] bytes of the
    array into it. *)
Definition UpdateInstanceDescs (sc : Scene) : outcome Scene :=
  _ <- GetGPUVirtualAddress (instanceDescs sc) ;;
  m <- memcpy (instanceDescs_memory sc) (array_bytes (instanceDescsArray sc))
         (wrap64 (numInstances sc * sizeof_INSTANCE_DESC)) ;;
  Ok (with_instanceDescs_memory sc m).

(** [UpdateTLAS()]: a full top-level build and a UAV barrier, both on the
    [DrawContext_Final] list of the current frame slot. *)
Definition UpdateTLAS (sc : Scene) : DX unit :=
  instances <~ lift (GetGPUVirtualAddress (instanceDescs sc)) ;;
  let topLevelInputs := TOP_LEVEL (numInstances sc) instances in
  dest <~ lift (GetGPUVirtualAddress (m_topLevelAccelerationStructure sc)) ;;
  scratch <~ lift (GetGPUVirtualAddress (ScratchAccelerationStructureData sc)) ;;
  _ <~ record DrawContext_Final
         (BuildRaytracingAccelerationStructure
            {| bd_Inputs := topLevelInputs;
               bd_ScratchAccelerationStructureData := scratch;
               bd_DestAccelerationStructureData := dest |}) ;;
  record DrawContext_Final (ResourceBarrier [UAV (m_topLevelAccelerationStructure sc)]).

Definition with_texture0 (l : list TextureData) (w h : Z) : outcome (list TextureData) :=
  t <- vec_at l 0 ;;
  vec_set l 0 {| width := w; height := h; td_padding := td_padding t |}.

(** The scene constant buffer of the active slot as [DoRaytracing] leaves
    it. *)
Definition fill_sceneCB (sc : Scene) (cb : SceneConstantBuffer)
    (projectionToWorld : XMMATRIX) (eyePos : XMFLOAT4) : outcome SceneConstantBuffer :=
  tex0 <- with_texture0 (cb_textureResources cb) 256 256 ;;
  inst <- memcpy (cb_instanceData cb) (instanceData sc) (numInstances sc) ;;
  lts <- memcpy (cb_lights cb) (lights sc) 4 ;;
  vbds <- memcpy (cb_vertexBufferDatas cb) (vertexBufferDatas sc) MAX_VBS ;;
  texs <- memcpy tex0 (textureResources sc) MAX_TEXTURES ;;
  Ok {| cb_projectionToWorld := projectionToWorld;
        cb_eyePosition := eyePos;
        cb_instanceData := inst;
        cb_lights := lts;
        cb_vertexBufferDatas := vbds;
        cb_textureResources := texs |}.

(** [DoRaytracing(projectionToWorld, eyePos)]: every command goes to the
    list of [DIRECTX.ActiveContext]. *)
Definition DoRaytracing (projectionToWorld : XMMATRIX) (eyePos : XMFLOAT4)
    (sc : Scene) : DX Scene :=
  s <~ get ;;
  let active := ActiveContext s in
  _ <~ CurrentFrameResources ;;
  _ <~ record active SetComputeRootSignature ;;
  row <~ lift (vec_at (m_sceneCB sc) (DrawContext_index active)) ;;
  cb <~ lift (vec_at row (SwapChainFrameIndex s)) ;;
  cb' <~ lift (fill_sceneCB sc cb projectionToWorld eyePos) ;;
  row' <~ lift (vec_set row (SwapChainFrameIndex s) cb') ;;
  sceneCB' <~ lift (vec_set (m_sceneCB sc) (DrawContext_index active) row') ;;
  mrow <~ lift (vec_at (m_mappedConstantData sc) (DrawContext_index active)) ;;
  mrow' <~ lift (vec_set mrow (SwapChainFrameIndex s) cb') ;;
  mapped' <~ lift (vec_set (m_mappedConstantData sc) (DrawContext_index active) mrow') ;;
  constants <~ lift (vec_at (m_perFrameConstants sc) (DrawContext_index active)) ;;
  base <~ lift (GetGPUVirtualAddress constants) ;;
  let cbGpuAddress :=
    wrap64 (base + wrap64 (SwapChainFrameIndex s * sizeof_SceneConstantBuffer)) in
  _ <~ record active (SetComputeRootConstantBufferView SceneConstantSlot cbGpuAddress) ;;
  _ <~ record active (SetDescriptorHeaps (CbvSrvHeap (objects s))) ;;
  outputView <~ lift (vec_at (m_raytracingOutputResourceUAVGpuDescriptors (objects s))
                             (DrawContext_index active)) ;;
  _ <~ record active (SetComputeRootDescriptorTable OutputViewSlot outputView) ;;
  outputDepth <~ lift (vec_at (m_raytracingDepthOutputResourceUAVGpuDescriptors (objects s))
                              (DrawContext_index active)) ;;
  _ <~ record active (SetComputeRootDescriptorTable OutputDepthSlot outputDepth) ;;
  _ <~ record active
         (SetComputeRootDescriptorTable VertexBufferSlot
            (gpuDescriptorHandle (indexBuffer (globalVertexBuffer sc)))) ;;
  _ <~ record active
         (SetComputeRootDescriptorTable TextureSlot (texArrayGpuHandle (objects s))) ;;
  tlas <~ lift (GetGPUVirtualAddress (m_topLevelAccelerationStructure sc)) ;;
  _ <~ record active (SetComputeRootShaderResourceView AccelerationStructureSlot tlas) ;;
  _ <~ record active SetPipelineState1 ;;
  _ <~ record active (DispatchRays (eyeWidth (objects s)) (eyeHeight (objects s)) 1) ;;
  ret (with_constants sc sceneCB' mapped').

(** [DIRECTX.CopyRaytracingOutputToBackbuffer(renderTarget, depthTarget)]. *)
Definition CopyRaytracingOutputToBackbuffer (renderTarget depthTarget : ResourcePtr)
  : DX unit :=
  s <~ get ;;
  let active := ActiveContext s in
  _ <~ CurrentFrameResources ;;
  output <~ lift (vec_at (m_raytracingOutputs (objects s)) (DrawContext_index active)) ;;
  depthOutput <~ lift (vec_at (m_raytracingDepthOutputs (objects s))
                              (DrawContext_index active)) ;;
  _ <~ record active
         (ResourceBarrier
            [ Transition renderTarget D3D12_RESOURCE_STATE_RENDER_TARGET
                         D3D12_RESOURCE_STATE_COPY_DEST;
              Transition depthTarget D3D12_RESOURCE_STATE_DEPTH_WRITE
                         D3D12_RESOURCE_STATE_COPY_DEST;
              Transition output D3D12_RESOURCE_STATE_UNORDERED_ACCESS
                         D3D12_RESOURCE_STATE_COPY_SOURCE;
              Transition depthOutput D3D12_RESOURCE_STATE_UNORDERED_ACCESS
                         D3D12_RESOURCE_STATE_COPY_SOURCE ]) ;;
  _ <~ record active (CopyResource renderTarget output) ;;
  _ <~ record active (CopyResource depthTarget depthOutput) ;;
  record active
    (ResourceBarrier
       [ Transition renderTarget D3D12_RESOURCE_STATE_COPY_DEST
                    D3D12_RESOURCE_STATE_RENDER_TARGET;
         Transition depthTarget D3D12_RESOURCE_STATE_COPY_DEST
                    D3D12_RESOURCE_STATE_DEPTH_WRITE;
         Transition output D3D12_RESOURCE_STATE_COPY_SOURCE
                    D3D12_RESOURCE_STATE_UNORDERED_ACCESS;
         Transition depthOutput D3D12_RESOURCE_STATE_COPY_SOURCE
                    D3D12_RESOURCE_STATE_UNORDERED_ACCESS ]).

(** [DIRECTX.SetViewport]. *)
Definition SetViewport : DX unit :=
  s <~ get ;;
  _ <~ record (ActiveContext s) RSSetViewports ;;
  record (ActiveContext s) RSSetScissorRects.

(** ** The frame loop ([MainLoop] of [Main.cpp]) *)

(** From the VR runtime's headers: a result is a success when it is not
    negative, and [ovrError_DisplayLost] is -6000. *)
Definition ovrResult := Z.
Definition OVR_SUCCESS (result : ovrResult) : bool := 0 <=? result.
Definition ovrError_DisplayLost : ovrResult := -6000.

Record ovrSessionStatus : Type := mkSessionStatus {
  IsVisible : bool;
  ShouldQuit : bool;
  ShouldRecenter : bool;
  HasInputFocus : bool
}.

(** What one eye pass of one frame takes from outside: the current
    textures of the eye's swap chains ([GetD3DDepthResource()] may be
    null), whether the eye texture has a depth chain
    ([DepthTextureChain] is not null), and the camera data that the loop
    computes in floating point. *)
Record EyeInput : Type := mkEyeInput {
  GetD3DColorResource : ResourcePtr;
  GetD3DDepthResource : ResourcePtr;
  has_DepthTextureChain : bool;
  projectionToWorld : XMMATRIX;
  eyePos : XMFLOAT4
}.

(** One iteration of [while (DIRECTX.HandleMessages())] whose test was
    true: what the runtime answers during it. *)
Record FrameInput : Type := mkFrameInput {
  sessionStatus : ovrSessionStatus;
  r_WaitToBeginFrame : ovrResult;
  r_BeginFrame : ovrResult;
  r_GetInputState : ovrResult;
  r_EndFrame : ovrResult;
  (** [XMFLOAT3(9 * sin(cubeClock), 3, 9 * cos(cubeClock += 0.015f))] *)
  cubePosition : XMFLOAT3;
  leftEye : EyeInput;
  rightEye : EyeInput;
  mirrorTexRes : ResourcePtr
}.

(** What the set-up part of [MainLoop] gets from outside. *)
Record Setup : Type := mkSetup {
  r_ovr_Create : ovrResult;
  (** [DIRECTX.InitDevice(...)]: its result and [DIRECTX] after it *)
  InitDevice : outcome (bool * DirectX12);
  (** [pEyeRenderTexture[eye]->Init(...)], for eye 0 and 1 *)
  EyeTexture_Init : Z -> outcome bool;
  (** whether [pEyeRenderTexture[eye]->TextureChain] is not null *)
  EyeTexture_TextureChain : Z -> bool;
  r_ovr_CreateMirrorTexture : ovrResult;
  (** the textures, [new Scene(false)] and the camera *)
  make_scene : DX Scene;
  (** the loop of [DIRECTX.CopyTextureSubresource] calls *)
  copy_textures : DX unit
}.

Definition drawMirror : bool := true.

(** The locals of [MainLoop] that the loop changes. *)
Record Locals : Type := mkLocals {
  retryCreate : bool;
  result : ovrResult;
  frameIndex : Z;
  roomScene : Scene
}.

Definition with_result (l : Locals) (r : ovrResult) : Locals :=
  {| retryCreate := retryCreate l;
     result := r;
     frameIndex := frameIndex l;
     roomScene := roomScene l |}.

Definition with_roomScene (l : Locals) (sc : Scene) : Locals :=
  {| retryCreate := retryCreate l;
     result := result l;
     frameIndex := frameIndex l;
     roomScene := sc |}.

(** How an iteration ends: at the end of the body, at [break], or at
    [goto Done]. *)
Inductive Control : Type :=
| NextIteration
| Break
| GotoDone.

Definition is_null (p : ResourcePtr) : bool :=
  match p with
  | NoResource => true
  | Res _ => false
  end.

Section Loop.

Variable dev : Device.

(** [OculusEyeTexture::Commit()] of the eye texture of [eye]: the colour
    chain is committed, then the depth chain if there is one. *)
Definition Commit (eye : Z) (inp : EyeInput) : DX unit :=
  _ <~ emit (EvOvr (ovr_CommitTextureSwapChain (TextureChain eye))) ;;
  if has_DepthTextureChain inp then
    emit (EvOvr (ovr_CommitTextureSwapChain (DepthTextureChain eye)))
  else ret tt.

(** The body of [for (int eye = 0; eye < 2; ++eye)] that renders the scene
    to the eye buffers. *)
Definition render_eye (eye : Z) (inp : EyeInput) (sc : Scene) : DX Scene :=
  _ <~ SetActiveContext
         (if eye =? 0 then DrawContext_EyeRenderLeft else DrawContext_EyeRenderRight) ;;
  _ <~ SetActiveEye eye ;;
  s <~ get ;;
  _ <~ record (ActiveContext s)
         (ResourceBarrier [Transition (GetD3DColorResource inp)
                             D3D12_RESOURCE_STATE_PIXEL_SHADER_RESOURCE
                             D3D12_RESOURCE_STATE_RENDER_TARGET]) ;;
  _ <~ (if negb (is_null (GetD3DDepthResource inp)) then
          record (ActiveContext s)
            (ResourceBarrier [Transition (GetD3DDepthResource inp)
                                D3D12_RESOURCE_STATE_PIXEL_SHADER_RESOURCE
                                D3D12_RESOURCE_STATE_DEPTH_WRITE])
        else ret tt) ;;
  sc' <~ DoRaytracing (projectionToWorld inp) (eyePos inp) sc ;;
  _ <~ CopyRaytracingOutputToBackbuffer (GetD3DColorResource inp)
         (GetD3DDepthResource inp) ;;
  _ <~ record (ActiveContext s)
         (ResourceBarrier [Transition (GetD3DColorResource inp)
                             D3D12_RESOURCE_STATE_RENDER_TARGET
                             D3D12_RESOURCE_STATE_PIXEL_SHADER_RESOURCE]) ;;
  _ <~ (if negb (is_null (GetD3DDepthResource inp)) then
          record (ActiveContext s)
            (ResourceBarrier [Transition (GetD3DDepthResource inp)
                                D3D12_RESOURCE_STATE_DEPTH_WRITE
                                D3D12_RESOURCE_STATE_PIXEL_SHADER_RESOURCE])
        else ret tt) ;;
  _ <~ SubmitCommandList dev (ActiveContext s) ;;
  _ <~ Commit eye inp ;;
  ret sc'.

(** The block under [if (sessionStatus.IsVisible)]. *)
Definition visible_frame (fi : FrameInput) (l : Locals) : DX (Control * Locals) :=
  _ <~ emit (EvOvr ovr_WaitToBeginFrame) ;;
  let l := with_result l (r_WaitToBeginFrame fi) in
  _ <~ emit (EvOvr ovr_BeginFrame) ;;
  let l := with_result l (r_BeginFrame fi) in
  _ <~ emit (EvOvr ovr_GetInputState) ;;
  let l := with_result l (r_GetInputState fi) in
  sc <~ (if HasInputFocus (sessionStatus fi) then
           lift (UpdateInstancePosition 0 (cubePosition fi) (roomScene l))
         else ret (roomScene l)) ;;
  sc <~ lift (UpdateInstanceDescs sc) ;;
  _ <~ UpdateTLAS sc ;;
  sc <~ render_eye 0 (leftEye fi) sc ;;
  sc <~ render_eye 1 (rightEye fi) sc ;;
  let l := with_roomScene l sc in
  _ <~ emit (EvOvr ovr_EndFrame) ;;
  let l := with_result l (r_EndFrame fi) in
  if negb (OVR_SUCCESS (result l)) then ret (GotoDone, l)
  else ret (NextIteration,
            {| retryCreate := retryCreate l;
               result := result l;
               frameIndex := frameIndex l + 1;
               roomScene := roomScene l |}).

(** The block under [if (drawMirror)]. *)
Definition mirror_blit (fi : FrameInput) : DX unit :=
  _ <~ SetActiveContext DrawContext_Final ;;
  _ <~ SetViewport ;;
  fr <~ CurrentFrameResources ;;
  s <~ get ;;
  _ <~ record (ActiveContext s)
         (ResourceBarrier
            [ Transition (SwapChainBuffer fr) D3D12_RESOURCE_STATE_RENDER_TARGET
                         D3D12_RESOURCE_STATE_COPY_DEST;
              Transition (mirrorTexRes fi) D3D12_RESOURCE_STATE_RENDER_TARGET
                         D3D12_RESOURCE_STATE_COPY_SOURCE ]) ;;
  _ <~ record (ActiveContext s) (CopyTextureRegion (SwapChainBuffer fr) (mirrorTexRes fi)) ;;
  record (ActiveContext s)
    (ResourceBarrier [Transition (mirrorTexRes fi) D3D12_RESOURCE_STATE_COPY_SOURCE
                        D3D12_RESOURCE_STATE_RENDER_TARGET]).

(** The body of the main loop. *)
Definition iteration (fi : FrameInput) (l : Locals) : DX (Control * Locals) :=
  if ShouldQuit (sessionStatus fi) then
    ret (Break, {| retryCreate := false;
                   result := result l;
                   frameIndex := frameIndex l;
                   roomScene := roomScene l |})
  else
    _ <~ (if ShouldRecenter (sessionStatus fi) then
            emit (EvOvr ovr_RecenterTrackingOrigin)
          else ret tt) ;;
    r <~ (if IsVisible (sessionStatus fi) then visible_frame fi l
          else ret (NextIteration, l)) ;;
    match fst r with
    | GotoDone => ret r
    | _ =>
        _ <~ (if drawMirror then mirror_blit fi else ret tt) ;;
        _ <~ SubmitCommandListAndPresent dev drawMirror ;;
        ret (NextIteration, snd r)
    end.

(** [while (DIRECTX.HandleMessages())]: the test is true once per element
    of [frames], then false. *)
Fixpoint main_loop (frames : list FrameInput) (l : Locals) : DX Locals :=
  match frames with
  | [] => ret l
  | fi :: rest =>
      r <~ iteration fi l ;;
      match fst r with
      | NextIteration => main_loop rest (snd r)
      | Break | GotoDone => ret (snd r)
      end
  end.

(** What follows the label [Done]: the releases, then the return value. *)
Definition Done (retryCreate : bool) (result : ovrResult) : bool :=
  retryCreate || (result =? ovrError_DisplayLost).

(** [Done] reached from the loop, with the locals as they are then. *)
Definition Done_with (l : Locals) : bool := Done (retryCreate l) (result l).

(** A failed set-up step after the device is up: [if (retryCreate) goto
    Done; FATALERROR(...)]. *)
Definition retry_or_fatal (retryCreate : bool) (result : ovrResult) : outcome bool :=
  if retryCreate then Ok (Done retryCreate result) else FATALERROR.

(** The eye buffer of one eye is made: [Some] is the way out of
    [MainLoop] when it failed. *)
Definition make_eye_buffer (env : Setup) (retryCreate : bool) (result : ovrResult)
    (eye : Z) : outcome (option (outcome bool)) :=
  ok <- EyeTexture_Init env eye ;;
  if negb ok then Ok (Some (retry_or_fatal retryCreate result))
  else if negb (EyeTexture_TextureChain env eye) then
    Ok (Some (retry_or_fatal retryCreate result))
  else Ok None.

(** [MainLoop(retryCreate)]. *)
Definition MainLoop (retryCreate : bool) (env : Setup) (frames : list FrameInput)
  : outcome bool :=
  let result := r_ovr_Create env in
  if negb (OVR_SUCCESS result) then Ok retryCreate
  else
    d <- InitDevice env ;;
    if negb (fst d) then Ok (Done retryCreate result)
    else
      e0 <- make_eye_buffer env retryCreate result 0 ;;
      match e0 with
      | Some out => out
      | None =>
          e1 <- make_eye_buffer env retryCreate result 1 ;;
          match e1 with
          | Some out => out
          | None =>
              let result := r_ovr_CreateMirrorTexture env in
              if negb (OVR_SUCCESS result) then retry_or_fatal retryCreate result
              else
                r <- (sc <~ make_scene env ;;
                      _ <~ InitFrame dev drawMirror ;;
                      _ <~ copy_textures env ;;
                      main_loop frames
                        {| retryCreate := retryCreate;
                           result := result;
                           frameIndex := 0;
                           roomScene := sc |}) (snd d) ;;
                Ok (Done_with (fst r))
          end
      end.

End Loop.

(** ** Notions used to state the properties *)





(** What a call appended to the global index array, and how many vertices
    it appended. *)
Definition appended_indices (before after_ : VertexBuffer) : list Z :=
  drop (length (globalIndices before)) (globalIndices after_).

Definition appended_vertices (before after_ : VertexBuffer) : list Vertex :=
  drop (length (globalVertices before)) (globalVertices after_).

(** An index value is local to a mesh of [count] vertices. *)
Definition mesh_local (count : nat) (i : Z) : Prop :=
  0 <= i < Z.of_nat count.


(** A small OBJ file: a unit square of four positions, no normals and no
    texture coordinates, as two triangles that share two corners. *)
Definition example_obj : tinyobj.ObjReader :=
  {| tinyobj.GetAttrib :=
       {| tinyobj.vertices := [ f_0; f_0; f_0;  f_1; f_0; f_0;
                                f_1; f_1; f_0;  f_0; f_1; f_0 ];
          tinyobj.normals := [];
          tinyobj.texcoords := [] |};
     tinyobj.GetShapes :=
       [ [ tinyobj.mkIndex 0 (-1) (-1); tinyobj.mkIndex 1 (-1) (-1);
           tinyobj.mkIndex 2 (-1) (-1);
           tinyobj.mkIndex 0 (-1) (-1); tinyobj.mkIndex 2 (-1) (-1);
           tinyobj.mkIndex 3 (-1) (-1) ] ] |}.

(** A run of three appends: the box, one triangle, the square. *)
Definition example_calls : list AppendCall :=
  [ CallAddBoxToGlobal;
    CallAddVerticeAndIndicesToGlobal
      [ Vertex_ctor f_0 f_0 f_0 f_0 f_0 f_1 f_0 f_0;
        Vertex_ctor f_1 f_0 f_0 f_0 f_0 f_1 f_1 f_0;
        Vertex_ctor f_0 f_1 f_0 f_0 f_0 f_1 f_0 f_1 ]
      [ 0; 1; 2 ];
    CallAddGlobalObj (Some example_obj) ].

Definition example_run : list (Z * Z) * VertexBuffer :=
  Eval vm_compute in
    match run_calls example_calls VertexBuffer_empty with
    | Ok r => r
    | _ => ([], VertexBuffer_empty)
    end.

(** A device on which every native call succeeds, every buffer can be
    created and every prebuild query reports a positive result size. *)
Record device_ok (dev : Device) : Prop := mkDeviceOk {
  prebuild_positive :
    forall inputs,
      0 < ResultDataMaxSizeInBytes
            (GetRaytracingAccelerationStructurePrebuildInfo dev inputs);
  create_succeeds : forall n size, is_Some (CreateCommittedResource dev n size);
  calls_succeed : forall n c, hr_ok dev n c = true
}.

(** The geometry descriptor that refers to exactly one sub-range of the
    global store: index data at the index buffer's base plus 4 bytes per
    index of the offset, vertex data at the vertex buffer's base plus
    [sizeof(Vertex)] bytes per vertex of the offset, with the sub-range's
    counts. *)
Definition subrange_geometry (ibBase vbBase : Z) (ranges : (Z * Z) * (Z * Z))
  : D3D12_RAYTRACING_GEOMETRY_DESC :=
  let ib := fst ranges in
  let vbRange := snd ranges in
  {| Type_ := D3D12_RAYTRACING_GEOMETRY_TYPE_TRIANGLES;
     Flags := D3D12_RAYTRACING_GEOMETRY_FLAG_OPAQUE;
     Transform3x4 := 0;
     IndexFormat := DXGI_FORMAT_R32_UINT;
     VertexFormat := DXGI_FORMAT_R32G32B32_FLOAT;
     IndexCount := snd ib;
     VertexCount := snd vbRange;
     IndexBuffer := ibBase + 4 * fst ib;
     VertexBuffer_StartAddress := vbBase + sizeof_Vertex * fst vbRange;
     VertexBuffer_StrideInBytes := sizeof_Vertex |}.

(** The value of a fence counter ([UINT64 PresentFenceValue]) after [i]
    increments, from [v]. *)
Fixpoint fence_after (v : Z) (i : nat) : Z :=
  match i with
  | O => v
  | S i => fence_after (wrap64 (v + 1)) i
  end.

(** What one bottom-level build leaves in the trace: the scratch and the
    result buffer are created, one command list that holds the build of
    [desc] into the result buffer (and the UAV barrier on it) is executed,
    the fence is signalled with [fenceValue] and waited for, and only then
    is the scratch buffer released. *)
Definition blas_block (slot : Z) (fenceValue : Z)
    (desc : D3D12_RAYTRACING_GEOMETRY_DESC)
    (built : ResourcePtr) (events : list Event) : Prop :=
  exists scratchSize resultSize scratch result,
    built = Res result
    /\ events =
       [ EvCreateResource scratchSize D3D12_RESOURCE_STATE_UNORDERED_ACCESS scratch;
         EvCreateResource resultSize
           D3D12_RESOURCE_STATE_RAYTRACING_ACCELERATION_STRUCTURE result;
         EvExecuteCommandLists slot DrawContext_Final
           [ BuildRaytracingAccelerationStructure
               {| bd_Inputs := BOTTOM_LEVEL 1 [desc];
                  bd_ScratchAccelerationStructureData := scratch;
                  bd_DestAccelerationStructureData := result |};
             ResourceBarrier [UAV (Res result)] ];
         EvSignal slot fenceValue;
         EvWaitForSingleObject slot;
         EvRelease scratch ].

(** The sub-range fits the address space behind a buffer at [base] with
    elements of [size] bytes. *)
Definition addressable (base size : Z) (r : Z * Z) : Prop :=
  0 <= fst r /\ base + size * fst r < 2 ^ 64.

(** [DIRECTX] with the current frame slot singled out: the slots before
    it, the slot, the slots after it. *)
Definition at_slot (o : DeviceObjects) (pre : list SwapChainFrameResources)
    (fr : SwapChainFrameResources) (post : list SwapChainFrameResources)
    (active : DrawContext) (eye : Z) (n : nat) (t : list Event) : DirectX12 :=
  {| objects := o;
     SwapChainFrameIndex := Z.of_nat (length pre);
     ActiveContext := active;
     ActiveEyeIndex := eye;
     PerFrameResources := pre ++ fr :: post;
     NativeCalls := n;
     Trace := t |}.

(** One command more on the list of a context. *)
Definition recorded (fr : SwapChainFrameResources) (context : DrawContext)
    (cs : list Command) : SwapChainFrameResources :=
  with_CommandLists fr
    (ctx_set (CommandLists fr) context (ctx_get (CommandLists fr) context ++ cs)).

(** The list of a context emptied by a successful [Reset]. *)
Definition cleared (fr : SwapChainFrameResources) (context : DrawContext)
  : SwapChainFrameResources :=
  with_CommandLists fr (ctx_set (CommandLists fr) context []).

(** The flag of a context after its list was submitted. *)
Definition submitted (fr : SwapChainFrameResources) (context : DrawContext)
  : SwapChainFrameResources :=
  with_CommandListSubmitted fr (ctx_set (CommandListSubmitted fr) context true).

Definition unsubmitted (fr : SwapChainFrameResources) (context : DrawContext)
  : SwapChainFrameResources :=
  with_CommandListSubmitted fr (ctx_set (CommandListSubmitted fr) context false).

(** The fence of the slot after one more signal. *)
Definition signalled (fr : SwapChainFrameResources) : SwapChainFrameResources :=
  with_fence fr (wrap64 (PresentFenceValue fr + 1)) (PresentFenceValue fr).



(** The values of the deduplication map and the indices collected so far
    are below the number of vertices collected so far. *)
Definition obj_inv (st : ObjLoop) : Prop :=
  Forall (fun kv => mesh_local (length (obj_vertices st)) (snd kv)) (uniqueVertices st)
  /\ Forall (mesh_local (length (obj_vertices st))) (obj_indices st).

(** *** A device and a state to run the code on

    A device on which everything succeeds: every prebuild query reports a
    result of 4096 and a scratch size of 1024 bytes, the buffer created by
    the [n]-th native call lies at [0x100000 + 0x10000 * n], and the back
    buffer index follows the number of presents. *)
Definition example_device : Device :=
  {| GetRaytracingAccelerationStructurePrebuildInfo :=
       fun _ => {| ResultDataMaxSizeInBytes := 4096; ScratchDataSizeInBytes := 1024 |};
     CreateCommittedResource := fun n _ => Some (0x100000 + 0x10000 * Z.of_nat n);
     hr_ok := fun _ _ => true;
     GetCurrentBackBufferIndex := fun p => Z.of_nat p mod 4 |}.

(** A frame slot as [InitDevice] leaves it: lists created and closed, the
    fence never signalled. *)
Definition example_slot (buffer : Z) : SwapChainFrameResources :=
  {| CommandLists := mkPerContext [] [] [];
     CommandListSubmitted := mkPerContext true true true;
     SwapChainBuffer := Res buffer;
     PresentFenceValue := 0;
     PresentFenceWaitValue := wrap64 (-1) |}.

Definition example_objects : DeviceObjects :=
  {| eyeWidth := 1024;
     eyeHeight := 768;
     CbvSrvHeap := 0x500;
     m_raytracingOutputs := [Res 0x600; Res 0x601];
     m_raytracingDepthOutputs := [Res 0x610; Res 0x611];
     m_raytracingOutputResourceUAVGpuDescriptors := [0x700; 0x701];
     m_raytracingDepthOutputResourceUAVGpuDescriptors := [0x710; 0x711];
     texArrayGpuHandle := 0x720 |}.

(** [DIRECTX] after [InitDevice]: slot 0 of 4 is current. *)
Definition example_directx : DirectX12 :=
  at_slot example_objects [] (example_slot 0x900)
          [example_slot 0x901; example_slot 0x902; example_slot 0x903]
          DrawContext_Final 0 0 [].

(** The store of [example_run] with its two upload buffers in place. *)
Definition example_store : VertexBuffer :=
  {| indexBuffer := mkD3DBuffer (Res 0x20000) 0x300 0x400;
     vertexBuffer := mkD3DBuffer (Res 0x30000) 0x308 0x408;
     globalVertices := globalVertices (snd example_run);
     globalIndices := globalIndices (snd example_run);
     globalStartVBIndices := globalStartVBIndices (snd example_run);
     globalStartIBIndices := globalStartIBIndices (snd example_run);
     m_globalBottomLevelAccelerationStructures := [];
     numVertexBuffers := numVertexBuffers (snd example_run) |}.

(** The bottom-level build ends the process. *)
Definition build_rejected (dev : Device) (vb : VertexBuffer) (s : DirectX12) : Prop :=
  exists code, InitGlobalBottomLevelAccelerationObject dev vb s = Exit code.

(** A device on which the prebuild query reports a result size of zero. *)
Definition example_device_zero : Device :=
  {| GetRaytracingAccelerationStructurePrebuildInfo :=
       fun _ => {| ResultDataMaxSizeInBytes := 0; ScratchDataSizeInBytes := 0 |};
     CreateCommittedResource := CreateCommittedResource example_device;
     hr_ok := hr_ok example_device;
     GetCurrentBackBufferIndex := GetCurrentBackBufferIndex example_device |}.

(** The 64 bytes of entry [j] of an instance-descriptor buffer. *)
Definition entry_bytes (j : nat) (memory : list Z) : list Z :=
  take 64 (drop (64 * j) memory).

(** One commit of the instance descriptors followed by one TLAS
    rebuild, as the frame loop calls them. *)
Definition commit_and_rebuild (sc : Scene) : DX Scene :=
  sc' <~ lift (UpdateInstanceDescs sc) ;;
  _ <~ UpdateTLAS sc' ;;
  ret sc'.

Fixpoint commit_and_rebuild_times (n : nat) (sc : Scene) : DX Scene :=
  match n with
  | O => ret sc
  | S n' =>
      sc' <~ commit_and_rebuild sc ;;
      commit_and_rebuild_times n' sc'
  end.

Definition example_instance (id : Z) (blas : Z) : D3D12_RAYTRACING_INSTANCE_DESC :=
  {| Transform_0 := mkFloat4 f_1 f_0 f_0 f_0;
     Transform_1 := mkFloat4 f_0 f_1 f_0 f_0;
     Transform_2 := mkFloat4 f_0 f_0 f_1 f_0;
     InstanceID := id;
     InstanceMask := 255;
     InstanceContributionToHitGroupIndex := 0;
     InstanceFlags := 0;
     AccelerationStructure := blas |}.

Definition example_constants : SceneConstantBuffer :=
  {| cb_projectionToWorld :=
       mkMatrix (mkFloat4 f_1 f_0 f_0 f_0) (mkFloat4 f_0 f_1 f_0 f_0)
                (mkFloat4 f_0 f_0 f_1 f_0) (mkFloat4 f_0 f_0 f_0 f_1);
     cb_eyePosition := mkFloat4 f_0 f_0 f_0 f_0;
     cb_instanceData :=
       replicate 400 (mkInstanceData 0 0 (mkFloat2 f_1 f_1) (mkFloat4 f_1 f_1 f_1 f_1));
     cb_lights :=
       replicate 4 (mkLight (mkFloat4 f_0 f_1 f_0 f_0) (mkFloat3 f_1 f_1 f_1) f_1);
     cb_vertexBufferDatas := replicate 400 (mkVertexBufferData 0 0 (mkFloat2 f_0 f_0));
     cb_textureResources := replicate 60 (mkTextureData 256 256 (mkFloat2 f_0 f_0)) |}.

(** A scene of three instances over [example_store]; the upload buffer
    behind [instanceDescs] has room for the three descriptors. *)
Definition example_scene : Scene :=
  {| m_mappedConstantData :=
       [replicate 4 example_constants; replicate 4 example_constants];
     m_perFrameConstants := [Res 0x50000; Res 0x60000];
     m_sceneCB := [replicate 4 example_constants; replicate 4 example_constants];
     instanceData := cb_instanceData example_constants;
     numInstances := 3;
     lights := cb_lights example_constants;
     vertexBufferDatas := cb_vertexBufferDatas example_constants;
     textureResources := cb_textureResources example_constants;
     globalVertexBuffer := example_store;
     instanceDescs := Res 0x40000;
     instanceDescs_memory := replicate 192 0;
     instanceDescsArray :=
       [example_instance 0 0x110000; example_instance 1 0x130000;
        example_instance 2 0x150000];
     ScratchAccelerationStructureData := Res 0x70000;
     m_topLevelAccelerationStructure := Res 0x80000 |}.

(** A matrix that moves by (0.5, 1, -1). *)
Definition example_matrix : XMMATRIX :=
  mkMatrix (mkFloat4 f_1 f_0 f_0 f_0) (mkFloat4 f_0 f_1 f_0 f_0)
           (mkFloat4 f_0 f_0 f_1 f_0) (mkFloat4 f_p5 f_1 f_m1 f_1).

(** [example_scene] after a commit, after the transform of instance 1 was
    then overwritten, and after a second commit. *)
Definition example_scene_committed : Scene :=
  Eval vm_compute in
    match UpdateInstanceDescs example_scene with
    | Ok sc => sc
    | _ => example_scene
    end.

Definition example_scene_moved : Scene :=
  Eval vm_compute in
    match UpdateInstanceTransform 1 example_matrix example_scene_committed with
    | Ok sc => sc
    | _ => example_scene
    end.

Definition example_scene_recommitted : Scene :=
  Eval vm_compute in
    match UpdateInstanceDescs example_scene_moved with
    | Ok sc => sc
    | _ => example_scene
    end.

(** *** The command queue as the trace shows it *)

(** The command lists that the queue was given, in order: the frame slot,
    the context and the commands of each. *)
Fixpoint submissions (t : list Event) : list (Z * DrawContext * list Command) :=
  match t with
  | [] => []
  | EvExecuteCommandLists slot ctx commands :: rest =>
      (slot, ctx, commands) :: submissions rest
  | _ :: rest => submissions rest
  end.

Definition is_DispatchRays (c : Command) : bool :=
  match c with
  | DispatchRays _ _ _ => true
  | _ => false
  end.

(** A build of a top-level acceleration structure. *)
Definition is_TLAS_build (c : Command) : bool :=
  match c with
  | BuildRaytracingAccelerationStructure desc =>
      match bd_Inputs desc with
      | TOP_LEVEL _ _ => true
      | BOTTOM_LEVEL _ _ => false
      end
  | _ => false
  end.

(** The commands that the queue executes, in execution order. *)
Definition executed (t : list Event) : list Command :=
  concat (map snd (submissions t)).

(** Every ray dispatch in the sequence comes after a TLAS build
    ([seen] says that one came before the sequence). *)
Fixpoint rebuild_precedes_dispatches (seen : bool) (commands : list Command) : bool :=
  match commands with
  | [] => true
  | c :: rest =>
      if is_DispatchRays c then seen && rebuild_precedes_dispatches seen rest
      else rebuild_precedes_dispatches (seen || is_TLAS_build c) rest
  end.

(** The command list holds a TLAS build and a ray dispatch. *)
Definition holds_rebuild_and_dispatch (commands : list Command) : bool :=
  existsb is_TLAS_build commands && existsb is_DispatchRays commands.

(** The events from position [n] of the trace on. *)
Definition events_since (n : nat) (t : list Event) : list Event := drop n t.

(** The draw context of an eye pass. *)
Definition eye_context (eye : Z) : DrawContext :=
  if eye =? 0 then DrawContext_EyeRenderLeft else DrawContext_EyeRenderRight.

(** The runtime calls of [Commit()], in program order. *)
Definition Commit_events (eye : Z) (inp : EyeInput) : list Event :=
  EvOvr (ovr_CommitTextureSwapChain (TextureChain eye))
  :: (if has_DepthTextureChain inp
      then [EvOvr (ovr_CommitTextureSwapChain (DepthTextureChain eye))]
      else []).

(** An action that gives no command list to the queue. *)
Definition quiet {A : Type} (m : DX A) : Prop :=
  forall s x s', m s = Ok (x, s') -> submissions (Trace s') = submissions (Trace s).

(** *** Frames to run the loop on *)

Definition example_eye (color depth : Z) : EyeInput :=
  {| GetD3DColorResource := Res color;
     GetD3DDepthResource := Res depth;
     has_DepthTextureChain := true;
     projectionToWorld :=
       mkMatrix (mkFloat4 f_1 f_0 f_0 f_0) (mkFloat4 f_0 f_1 f_0 f_0)
                (mkFloat4 f_0 f_0 f_1 f_0) (mkFloat4 f_0 f_0 f_0 f_1);
     eyePos := mkFloat4 f_0 f_1 f_0 f_1 |}.

(** A frame in which the session is visible and has the input focus, and
    the runtime answers [result] to [ovr_EndFrame]. *)
Definition example_frame (result : ovrResult) : FrameInput :=
  {| sessionStatus :=
       {| IsVisible := true; ShouldQuit := false;
          ShouldRecenter := false; HasInputFocus := true |};
     r_WaitToBeginFrame := 0;
     r_BeginFrame := 0;
     r_GetInputState := 0;
     r_EndFrame := result;
     cubePosition := mkFloat3 f_p5 f_1 f_m1;
     leftEye := example_eye 0xA00 0xA10;
     rightEye := example_eye 0xA01 0xA11;
     mirrorTexRes := Res 0xB00 |}.

(** A frame in which the runtime asks the application to quit. *)
Definition example_quit_frame : FrameInput :=
  {| sessionStatus :=
       {| IsVisible := true; ShouldQuit := true;
          ShouldRecenter := false; HasInputFocus := true |};
     r_WaitToBeginFrame := 0;
     r_BeginFrame := 0;
     r_GetInputState := 0;
     r_EndFrame := 0;
     cubePosition := mkFloat3 f_p5 f_1 f_m1;
     leftEye := example_eye 0xA00 0xA10;
     rightEye := example_eye 0xA01 0xA11;
     mirrorTexRes := Res 0xB00 |}.

Definition example_locals : Locals :=
  {| retryCreate := true; result := 0; frameIndex := 0; roomScene := example_scene |}.

(** [DIRECTX] at the head of the first iteration: [example_directx] after
    [InitFrame(drawMirror)]. *)
Definition example_ready : DirectX12 :=
  Eval vm_compute in
    match InitFrame example_device drawMirror example_directx with
    | Ok r => snd r
    | _ => example_directx
    end.

(** The current slot of [example_ready]. *)
Definition example_ready_slot : SwapChainFrameResources :=
  Eval vm_compute in
    match vec_at (PerFrameResources example_ready) (SwapChainFrameIndex example_ready) with
    | Ok fr => fr
    | _ => example_slot 0x900
    end.

(** What each command list given to the queue holds: its context,
    whether a TLAS build is on it, whether a ray dispatch is on it. *)
Definition submission_summary (t : list Event) : list (DrawContext * bool * bool) :=
  map (fun sub => (snd (fst sub),
                   existsb is_TLAS_build (snd sub),
                   existsb is_DispatchRays (snd sub)))
      (submissions t).

(** Why [MainLoop] came to its end. *)
Inductive ExitCause : Type :=
| SetupFailed
| QuitRequested
| FrameSubmitFailed (r : ovrResult)
| WindowClosed.

(** The end of the loop, read off the answers of the runtime: a quit
    request, a failed [ovr_EndFrame] in a visible frame, or no iteration
    left because [HandleMessages()] was false. *)
Fixpoint loop_exit (frames : list FrameInput) : ExitCause :=
  match frames with
  | [] => WindowClosed
  | fi :: rest =>
      if ShouldQuit (sessionStatus fi) then QuitRequested
      else if IsVisible (sessionStatus fi) && negb (OVR_SUCCESS (r_EndFrame fi))
           then FrameSubmitFailed (r_EndFrame fi)
           else loop_exit rest
  end.

Definition eye_buffer_made (env : Setup) (eye : Z) : bool :=
  match EyeTexture_Init env eye with
  | Ok true => EyeTexture_TextureChain env eye
  | _ => false
  end.

(** Every set-up step before the loop succeeded. *)
Definition setup_done (env : Setup) : bool :=
  OVR_SUCCESS (r_ovr_Create env)
  && match InitDevice env with
     | Ok (true, _) => true
     | _ => false
     end
  && eye_buffer_made env 0
  && eye_buffer_made env 1
  && OVR_SUCCESS (r_ovr_CreateMirrorTexture env).

Definition exit_cause (env : Setup) (frames : list FrameInput) : ExitCause :=
  if setup_done env then loop_exit frames else SetupFailed.

(** What [MainLoop] returns for each way of leaving. *)
Definition retry_signal (retryCreate : bool) (cause : ExitCause) : bool :=
  match cause with
  | SetupFailed => retryCreate
  | QuitRequested => false
  | FrameSubmitFailed r => retryCreate || (r =? ovrError_DisplayLost)
  | WindowClosed => retryCreate
  end.

(** A set-up in which every step succeeds. *)
Definition example_setup : Setup :=
  {| r_ovr_Create := 0;
     InitDevice := Ok (true, example_directx);
     EyeTexture_Init := fun _ => Ok true;
     EyeTexture_TextureChain := fun _ => true;
     r_ovr_CreateMirrorTexture := 0;
     make_scene := ret example_scene;
     copy_textures := ret tt |}.

(** *** A run that leaves the 32-bit range of the offsets *)


(** ** More of the descriptor handle allocator *)

(** The heap behind a provider ([DescHeap]), as far as the provider uses
    it: its two start handles. *)
Record DescriptorHeap : Type := mkHeap {
  CPUDescriptorHandleForHeapStart : Z;
  GPUDescriptorHandleForHeapStart : Z
}.

(** [GpuHandleFromCpuHandle(cpuHandle)]: the difference of the two
    [SIZE_T] is converted to [int], and
    [CD3DX12_GPU_DESCRIPTOR_HANDLE(other, offsetScaledByIncrementSize)] of
    the d3dx12 helper header sets
    [ptr = UINT64(INT64(other.ptr) + INT64(offsetScaledByIncrementSize))]. *)
Definition GpuHandleFromCpuHandle (heap : DescriptorHeap) (cpuHandle : Z) : Z :=
  let offset := to_INT (wrap64 (cpuHandle - CPUDescriptorHandleForHeapStart heap)) in
  wrap64 (GPUDescriptorHandleForHeapStart heap + offset).

(** A call on a provider. *)
Inductive HandleCall : Type :=
| CallAllocCpuHandle
| CallFreeCpuHandle (handle : Z).

(** A sequence of calls; the handles that the allocations returned are
    collected in call order. *)
Fixpoint run_handle_calls (cs : list HandleCall) (p : DescHandle.DescHandleProvider)
  : outcome (list Z * DescHandle.DescHandleProvider) :=
  match cs with
  | [] => Ok ([], p)
  | CallAllocCpuHandle :: rest =>
      r <- DescHandle.AllocCpuHandle false p ;;
      rs <- run_handle_calls rest (DescHandle.after r) ;;
      Ok (DescHandle.newHandle r :: fst rs, snd rs)
  | CallFreeCpuHandle h :: rest =>
      run_handle_calls rest (DescHandle.FreeCpuHandle h p)
  end.

Definition is_alloc (c : HandleCall) : bool :=
  match c with
  | CallAllocCpuHandle => true
  | CallFreeCpuHandle _ => false
  end.

(** The handles that a sequence of calls frees, in call order. *)
Fixpoint freed_handles (cs : list HandleCall) : list Z :=
  match cs with
  | [] => []
  | CallAllocCpuHandle :: rest => freed_handles rest
  | CallFreeCpuHandle h :: rest => h :: freed_handles rest
  end.

(** The [k]-th handle above the watermark of [p]. *)
Definition handle_above (p : DescHandle.DescHandleProvider) (k : Z) : Z :=
  wrap64 (DescHandle.NextAvailableCpuHandle p + k * to_INT (DescHandle.IncrementSize p)).

(** The counters of a provider are [UINT]s and the watermark is within
    the capacity. *)
Definition provider_ok (p : DescHandle.DescHandleProvider) : Prop :=
  0 <= DescHandle.CurrentHandleCount p <= DescHandle.MaxHandleCount p
  /\ DescHandle.MaxHandleCount p < 2 ^ 32
  /\ 0 <= DescHandle.NextAvailableCpuHandle p < 2 ^ 64.

(** The number of allocations and of frees in a sequence of calls. *)
Definition allocations (cs : list HandleCall) : Z :=
  Z.of_nat (length (List.filter is_alloc cs)).

Definition frees (cs : list HandleCall) : Z := Z.of_nat (length (freed_handles cs)).

(** The watermark moved by [k] handles. *)
Definition bumps (p p' : DescHandle.DescHandleProvider) : Z :=
  DescHandle.CurrentHandleCount p' - DescHandle.CurrentHandleCount p.

(** A heap of two handles, and a run of calls on it: allocate, free a
    handle that was never allocated, allocate twice. *)
Definition example_provider : DescHandle.DescHandleProvider :=
  DescHandle.init 1000 8 2.

Definition example_handle_calls : list HandleCall :=
  [CallAllocCpuHandle; CallFreeCpuHandle 77; CallAllocCpuHandle; CallAllocCpuHandle].

(** ** More of the OBJ import *)

(** No two vertices of the list compare equal with [operator==]. *)
Definition pairwise_distinct (vs : list Vertex) : Prop :=
  forall (i j : nat) (a b : Vertex),
    (i < j)%nat -> vs !! i = Some a -> vs !! j = Some b -> Vertex_eq a b = false.

(** The index [x] recorded for a corner of a face leads back to the
    vertex [v] of that corner: the vertex stored at [x] compares equal to
    [v]. *)
Definition leads_back_to (vs : list Vertex) (x : Z) (v : Vertex) : Prop :=
  exists w, 0 <= x /\ vs !! Z.to_nat x = Some w /\ Vertex_eq w v = true.

(** What the import loop keeps between its locals. *)
Record obj_dedup_inv (st : ObjLoop) : Prop := mkObjDedupInv {
  (** a key that equals itself is mapped to the place of an equal vertex *)
  keys_lead_back :
    forall k x, (k, x) ∈ uniqueVertices st -> Vertex_eq k k = true ->
                leads_back_to (obj_vertices st) x k;
  (** a vertex that equals itself has an equal key *)
  vertices_have_keys :
    forall w, w ∈ obj_vertices st -> Vertex_eq w w = true ->
              exists x, map_find (uniqueVertices st) w = Some x;
  vertices_distinct : pairwise_distinct (obj_vertices st)
}.

(** What the import records for one corner of a face: the corner has a
    vertex, and if that vertex equals itself the recorded index leads
    back to it. *)
Definition corner_recorded (attrib : tinyobj.attrib_t) (vs : list Vertex)
    (index : tinyobj.index_t) (x : Z) : Prop :=
  exists v, obj_vertex attrib index = Ok v
            /\ (Vertex_eq v v = true -> leads_back_to vs x v).

(** One of the eight floats of the vertex is a NaN. *)
Definition has_nan (v : Vertex) : bool :=
  float_is_nan (f3_x (position v)) || float_is_nan (f3_y (position v))
  || float_is_nan (f3_z (position v)) || float_is_nan (f3_x (normal v))
  || float_is_nan (f3_y (normal v)) || float_is_nan (f3_z (normal v))
  || float_is_nan (f2_x (uv v)) || float_is_nan (f2_y (uv v)).

(** The quiet NaN with payload 0. *)
Definition f_nan : float := 0x7FC00000.

(** An OBJ file whose first position has a NaN coordinate: one triangle
    that names this position at two of its corners. *)
Definition example_obj_nan : tinyobj.ObjReader :=
  {| tinyobj.GetAttrib :=
       {| tinyobj.vertices := [ f_nan; f_0; f_0;  f_1; f_0; f_0 ];
          tinyobj.normals := [];
          tinyobj.texcoords := [] |};
     tinyobj.GetShapes :=
       [ [ tinyobj.mkIndex 1 (-1) (-1); tinyobj.mkIndex 0 (-1) (-1);
           tinyobj.mkIndex 0 (-1) (-1) ] ] |}.

(** The store after the square of [example_obj] was imported into the
    empty store. *)
Definition example_obj_store : VertexBuffer :=
  Eval vm_compute in
    match AddGlobalObj (Some example_obj) VertexBuffer_empty with
    | Ok x => snd x
    | _ => VertexBuffer_empty
    end.

(** ** More of the frame loop *)

(** An action that leaves a quantity [f] of [DIRECTX] as it is. *)
Definition keeps {A B : Type} (f : DirectX12 -> B) (m : DX A) : Prop :=
  forall s x s', m s = Ok (x, s') -> f s' = f s.

(** The number of presents so far. *)
Definition presented (s : DirectX12) : nat := presents (Trace s).

(** How many frames of the run reach [frameIndex++]: the visible ones
    whose [ovr_EndFrame] succeeded, up to the frame that ends the loop. *)
Fixpoint frames_submitted (frames : list FrameInput) : Z :=
  match frames with
  | [] => 0
  | fi :: rest =>
      if ShouldQuit (sessionStatus fi) then 0
      else if IsVisible (sessionStatus fi) then
             if OVR_SUCCESS (r_EndFrame fi) then 1 + frames_submitted rest else 0
           else frames_submitted rest
  end.

(** How many iterations of the run reach the end of the loop body. *)
Fixpoint iterations_completed (frames : list FrameInput) : nat :=
  match frames with
  | [] => 0
  | fi :: rest =>
      if ShouldQuit (sessionStatus fi) then 0
      else if IsVisible (sessionStatus fi) && negb (OVR_SUCCESS (r_EndFrame fi)) then 0
           else S (iterations_completed rest)
  end.

(** A set-up step after [InitDevice] fails (an eye texture, its texture
    chain or the mirror texture), every step before it having returned. *)
Definition late_setup_failure (env : Setup) : bool :=
  OVR_SUCCESS (r_ovr_Create env)
  && match InitDevice env with
     | Ok (true, _) => true
     | _ => false
     end
  && match EyeTexture_Init env 0 with
     | Ok ok0 =>
         if ok0 && EyeTexture_TextureChain env 0 then
           match EyeTexture_Init env 1 with
           | Ok ok1 =>
               if ok1 && EyeTexture_TextureChain env 1
               then negb (OVR_SUCCESS (r_ovr_CreateMirrorTexture env))
               else true
           | _ => false
           end
         else true
     | _ => false
     end.

(** A frame in which the session is not visible. *)
Definition example_hidden_frame : FrameInput :=
  {| sessionStatus :=
       {| IsVisible := false; ShouldQuit := false;
          ShouldRecenter := false; HasInputFocus := false |};
     r_WaitToBeginFrame := 0;
     r_BeginFrame := 0;
     r_GetInputState := 0;
     r_EndFrame := 0;
     cubePosition := mkFloat3 f_p5 f_1 f_m1;
     leftEye := example_eye 0xA00 0xA10;
     rightEye := example_eye 0xA01 0xA11;
     mirrorTexRes := Res 0xB00 |}.

(** A set-up in which the texture of the right eye cannot be made. *)
Definition example_setup_no_eye : Setup :=
  {| r_ovr_Create := 0;
     InitDevice := Ok (true, example_directx);
     EyeTexture_Init := fun eye => Ok (eye =? 0);
     EyeTexture_TextureChain := fun _ => true;
     r_ovr_CreateMirrorTexture := 0;
     make_scene := ret example_scene;
     copy_textures := ret tt |}.

(** ** More of the frame ring *)

(** The list of a context as [InitCommandList] leaves it: restarted with
    the descriptor heaps bound when it had been submitted, untouched when
    it had not. *)
Definition restarted (o : DeviceObjects) (fr : SwapChainFrameResources)
    (context : DrawContext) : SwapChainFrameResources :=
  if ctx_get (CommandListSubmitted fr) context then
    unsubmitted (recorded (cleared fr context) context
                   [SetDescriptorHeaps (CbvSrvHeap o)]) context
  else fr.

(** A slot whose eye lists were submitted and whose final list was not,
    as the first frame of [MainLoop] can leave it. *)
Definition example_mixed_slot : SwapChainFrameResources :=
  {| CommandLists :=
       mkPerContext [SetComputeRootSignature] [SetComputeRootSignature]
                    [RSSetViewports; RSSetScissorRects];
     CommandListSubmitted := mkPerContext true true false;
     SwapChainBuffer := Res 0x900;
     PresentFenceValue := 1;
     PresentFenceWaitValue := 0 |}.

(** [DIRECTX] after [InitFrame(true)] on [example_mixed_slot]. *)
Definition example_mixed_after : DirectX12 :=
  Eval vm_compute in
    match InitFrame example_device true
            (at_slot example_objects [] example_mixed_slot
               [example_slot 0x901; example_slot 0x902; example_slot 0x903]
               DrawContext_Final 0 7 []) with
    | Ok x => snd x
    | _ => example_directx
    end.


(** ** More of the scene *)

(** The constant buffer of a context and a frame slot in one of the
    two-dimensional tables of the scene. *)
Definition constants_at (table : list (list SceneConstantBuffer)) (context slot : nat)
  : option SceneConstantBuffer :=
  table !! context ≫= (fun row => row !! slot).

(** The matrix with its translation row replaced. *)
Definition with_translation (M : XMMATRIX) (position : XMFLOAT3) : XMMATRIX :=
  {| r0 := r0 M; r1 := r1 M; r2 := r2 M;
     r3 := mkFloat4 (f3_x position) (f3_y position) (f3_z position) (f4_w (r3 M)) |}.

(** ** More of the bottom-level build and of the buffer views *)

(** A device that cannot create the buffer asked for by its second
    native call, and answers like [example_device] otherwise. *)
Definition example_device_no_scratch : Device :=
  {| GetRaytracingAccelerationStructurePrebuildInfo :=
       GetRaytracingAccelerationStructurePrebuildInfo example_device;
     CreateCommittedResource :=
       fun n size => if (n =? 1)%nat then None
                     else CreateCommittedResource example_device n size;
     hr_ok := hr_ok example_device;
     GetCurrentBackBufferIndex := GetCurrentBackBufferIndex example_device |}.

(** The formats of a buffer view ([srvDesc.Format]); they live in a
    name space of their own beside the formats of the geometry
    descriptors. *)
Module SRV.

Inductive FORMAT : Type :=
| DXGI_FORMAT_R32_TYPELESS
| DXGI_FORMAT_UNKNOWN.

End SRV.

(** The flag of a buffer view ([srvDesc.Buffer.Flags]). *)

Inductive D3D12_BUFFER_SRV_FLAGS : Type :=
| D3D12_BUFFER_SRV_FLAG_NONE
| D3D12_BUFFER_SRV_FLAG_RAW.

(** The [D3D12_SHADER_RESOURCE_VIEW_DESC] of a buffer, as far as
    [CreateBufferSRV] fills it in. *)
Record BUFFER_SRV_DESC : Type := mkBufferSRV {
  srv_Format : SRV.FORMAT;
  srv_NumElements : Z;
  srv_Flags : D3D12_BUFFER_SRV_FLAGS;
  srv_StructureByteStride : Z
}.

(** What [CreateBufferSRV] leaves: the [descriptorIndex] that it
    returns, the buffer with its two handles, the view created
    ([CreateShaderResourceView(resource, &srvDesc, handle)]) and the
    provider. *)
Record BufferSRVResult : Type := mkBufferSRVResult {
  descriptorIndex : Z;
  srv_buffer : D3DBuffer;
  srv_created : ResourcePtr * BUFFER_SRV_DESC * Z;
  srv_provider : DescHandle.DescHandleProvider
}.

(** [CreateBufferSRV(buffer, numElements, elementSize)] on the provider
    of the CBV/SRV heap.  The local [UINT descriptorIndex] has no
    initialiser: [indeterminate] is the value it holds when
    [AllocCpuHandle] does not write through the pointer, which it does
    only when it moves the watermark. *)
Definition CreateBufferSRV (heap : DescriptorHeap) (buffer : D3DBuffer)
    (numElements elementSize : Z) (indeterminate : Z)
    (p : DescHandle.DescHandleProvider)
  : outcome BufferSRVResult :=
  let srvDesc :=
    if elementSize =? 0 then
      {| srv_Format := SRV.DXGI_FORMAT_R32_TYPELESS;
         srv_NumElements := numElements;
         srv_Flags := D3D12_BUFFER_SRV_FLAG_RAW;
         srv_StructureByteStride := 0 |}
    else
      {| srv_Format := SRV.DXGI_FORMAT_UNKNOWN;
         srv_NumElements := numElements;
         srv_Flags := D3D12_BUFFER_SRV_FLAG_NONE;
         srv_StructureByteStride := elementSize |} in
  r <- DescHandle.AllocCpuHandle true p ;;
  Ok {| descriptorIndex := match DescHandle.written r with
                           | Some count => count
                           | None => indeterminate
                           end;
        srv_buffer :=
          {| resource := resource buffer;
             cpuDescriptorHandle := DescHandle.newHandle r;
             gpuDescriptorHandle :=
               GpuHandleFromCpuHandle heap (DescHandle.newHandle r) |};
        srv_created := (resource buffer, srvDesc, DescHandle.newHandle r);
        srv_provider := DescHandle.after r |}.

(** The store with its two buffers replaced. *)
Definition with_buffers (vb : VertexBuffer) (ib vbuf : D3DBuffer) : VertexBuffer :=
  {| indexBuffer := ib;
     vertexBuffer := vbuf;
     globalVertices := globalVertices vb;
     globalIndices := globalIndices vb;
     globalStartVBIndices := globalStartVBIndices vb;
     globalStartIBIndices := globalStartIBIndices vb;
     m_globalBottomLevelAccelerationStructures :=
       m_globalBottomLevelAccelerationStructures vb;
     numVertexBuffers := numVertexBuffers vb |}.

(** The second half of [InitGlobalVertexBuffers()], after the two upload
    buffers were made: the view of the index buffer, the view of the
    vertex buffer, and the check that their descriptor indices follow
    each other.  [indeterminateIB] and [indeterminateVB] are what the
    uninitialised local of the first and of the second [CreateBufferSRV]
    call holds. *)
Definition InitGlobalVertexBuffers_views (heap : DescriptorHeap) (vb : VertexBuffer)
    (indeterminateIB indeterminateVB : Z) (p : DescHandle.DescHandleProvider)
  : outcome (VertexBuffer * list (ResourcePtr * BUFFER_SRV_DESC * Z)
             * DescHandle.DescHandleProvider) :=
  ib <- CreateBufferSRV heap (indexBuffer vb)
          (UINT_of_size (length (globalIndices vb))) 0 indeterminateIB p ;;
  vbuf <- CreateBufferSRV heap (vertexBuffer vb)
            (UINT_of_size (length (globalVertices vb))) sizeof_Vertex
            indeterminateVB (srv_provider ib) ;;
  let descriptorIndexIB := descriptorIndex ib in
  let descriptorIndexVB := descriptorIndex vbuf in
  _ <- ThrowIfFalse (descriptorIndexVB =? wrap32 (descriptorIndexIB + 1)) ;;
  Ok (with_buffers vb (srv_buffer ib) (srv_buffer vbuf),
      [srv_created ib; srv_created vbuf],
      srv_provider vbuf).
(** * Properties *)

(** ** Machine integers and results *)

Lemma wrap32_small z : 0 <= z < 2 ^ 32 -> wrap32 z = z.
Proof. intros H. unfold wrap32. now apply Z.mod_small. Qed.

Lemma wrap64_small z : 0 <= z < 2 ^ 64 -> wrap64 z = z.
Proof. intros H. unfold wrap64. now apply Z.mod_small. Qed.

Lemma wrap64_idem z : wrap64 (wrap64 z) = wrap64 z.
Proof. unfold wrap64. apply Z.mod_mod. lia. Qed.

Lemma wrap64_add_l a b : wrap64 (wrap64 a + b) = wrap64 (a + b).
Proof. unfold wrap64. rewrite Zplus_mod_idemp_l. reflexivity. Qed.

Lemma wrap64_range z : 0 <= wrap64 z < 2 ^ 64.
Proof. unfold wrap64. apply Z.mod_pos_bound. lia. Qed.

Lemma wrap32_range z : 0 <= wrap32 z < 2 ^ 32.
Proof. unfold wrap32. apply Z.mod_pos_bound. lia. Qed.

Lemma wrap32_le z : 0 <= z -> wrap32 z <= z.
Proof. intros H. unfold wrap32. apply Z.mod_le; lia. Qed.


Lemma UINT_of_size_small (n : nat) :
  Z.of_nat n < 2 ^ 32 -> UINT_of_size n = Z.of_nat n.
Proof. intros H. unfold UINT_of_size. apply wrap32_small. lia. Qed.

Lemma UINT_of_size_le (n : nat) : 0 <= UINT_of_size n <= Z.of_nat n.
Proof.
  unfold UINT_of_size. split; [apply wrap32_range | apply wrap32_le; lia].
Qed.

Lemma bind_Ok_inv {A B : Type} (m : outcome A) (k : A -> outcome B) (b : B) :
  bind m k = Ok b -> exists a, m = Ok a /\ k a = Ok b.
Proof. destruct m; simpl; intros H; try discriminate. eauto. Qed.

Lemma Ok_inj {A : Type} (a b : A) : Ok a = Ok b -> a = b.
Proof. intros H. now injection H. Qed.

Lemma push_back_all_app {A : Type} (xs v : list A) :
  push_back_all v xs = v ++ xs.
Proof.
  revert v. induction xs as [|x xs IH]; intros v; simpl.
  - now rewrite app_nil_r.
  - rewrite IH, <- app_assoc. reflexivity.
Qed.

Lemma vec_at_Ok {A : Type} (v : list A) (i : Z) (a : A) :
  vec_at v i = Ok a <-> 0 <= i /\ v !! Z.to_nat i = Some a.
Proof.
  unfold vec_at. split.
  - destruct ((0 <=? i) && (i <? Z.of_nat (length v))) eqn:E; [|discriminate].
    apply andb_true_iff in E as [H0 _]. apply Z.leb_le in H0.
    destruct (v !! Z.to_nat i); intros H; inversion H; subst; auto.
  - intros [H0 Hl]. pose proof (lookup_lt_Some _ _ _ Hl) as Hlt.
    replace ((0 <=? i) && (i <? Z.of_nat (length v))) with true.
    + now rewrite Hl.
    + symmetry. apply andb_true_iff. split; [apply Z.leb_le | apply Z.ltb_lt]; lia.
Qed.

Lemma vec_at_nat {A : Type} (v : list A) (n : nat) (a : A) :
  v !! n = Some a -> vec_at v (Z.of_nat n) = Ok a.
Proof.
  intros H. apply vec_at_Ok. rewrite Nat2Z.id. split; [lia | assumption].
Qed.

Lemma vec_set_Ok {A : Type} (v : list A) (i : Z) (a : A) (v' : list A) :
  vec_set v i a = Ok v' <->
  0 <= i < Z.of_nat (length v) /\ v' = <[Z.to_nat i := a]> v.
Proof.
  unfold vec_set. split.
  - destruct ((0 <=? i) && (i <? Z.of_nat (length v))) eqn:E; [|discriminate].
    apply andb_true_iff in E as [H0 H1].
    apply Z.leb_le in H0. apply Z.ltb_lt in H1.
    intros H; inversion H; subst. auto.
  - intros [[H0 H1] ->].
    replace ((0 <=? i) && (i <? Z.of_nat (length v))) with true; [reflexivity|].
    symmetry. apply andb_true_iff. split; [apply Z.leb_le | apply Z.ltb_lt]; lia.
Qed.

(** ** The descriptor handle allocator *)

Section DescHandleFacts.

Import DescHandle.

Lemma with_free_same p : with_free p (FreeHandles p) = p.
Proof. destruct p; reflexivity. Qed.

Lemma length_snoc_pos {A : Type} (l : list A) (a : A) :
  (0 <? Z.of_nat (length (l ++ [a]))) = true.
Proof. rewrite length_app. simpl. apply Z.ltb_lt. lia. Qed.

(** Allocation with a non-empty free list pops its back; the counters are
    not looked at. *)
Lemma alloc_from_free_list w p l h :
  FreeHandles p = l ++ [h] ->
  AllocCpuHandle w p
  = Ok {| newHandle := h; written := None; after := with_free p l |}.
Proof.
  intros E. unfold AllocCpuHandle, with_free. rewrite E.
  rewrite length_snoc_pos, last_last, removelast_last. reflexivity.
Qed.

Lemma alloc_empty_bump w p :
  FreeHandles p = [] ->
  CurrentHandleCount p < MaxHandleCount p ->
  AllocCpuHandle w p
  = Ok {| newHandle := NextAvailableCpuHandle p;
          written := if w then Some (CurrentHandleCount p) else None;
          after := bumped p |}.
Proof.
  intros E Hlt. unfold AllocCpuHandle, bumped. rewrite E. simpl.
  apply Z.ltb_lt in Hlt. rewrite Hlt. reflexivity.
Qed.

Lemma alloc_empty_full w p :
  FreeHandles p = [] ->
  MaxHandleCount p <= CurrentHandleCount p ->
  AllocCpuHandle w p = Exit (-1).
Proof.
  intros E Hge. unfold AllocCpuHandle. rewrite E. simpl.
  apply Z.ltb_ge in Hge. rewrite Hge. reflexivity.
Qed.

Lemma free_then_alloc w p h :
  AllocCpuHandle w (FreeCpuHandle h p)
  = Ok {| newHandle := h; written := None; after := p |}.
Proof.
  rewrite (alloc_from_free_list w (FreeCpuHandle h p) (FreeHandles p) h)
    by reflexivity.
  unfold with_free, FreeCpuHandle. simpl. destruct p; reflexivity.
Qed.

End DescHandleFacts.

(** C3.  Freeing a handle and allocating next returns that handle (and the
    provider is as it was before the free); an allocation takes the back
    of the free list when there is one, otherwise it returns the watermark
    handle and bumps the watermark; with an empty free list and the count
    at (or above) the capacity it ends the process with [exit(-1)]. *)
Theorem C3_alloc_free_roundtrip_and_capacity :
  forall (p : DescHandle.DescHandleProvider)
         (h : DescHandle.CPU_DESCRIPTOR_HANDLE) (w : bool),
    DescHandle.AllocCpuHandle w (DescHandle.FreeCpuHandle h p)
    = Ok {| DescHandle.newHandle := h;
            DescHandle.written := None;
            DescHandle.after := p |}
    /\ (forall l x,
          DescHandle.FreeHandles p = l ++ [x] ->
          DescHandle.AllocCpuHandle w p
          = Ok {| DescHandle.newHandle := x;
                  DescHandle.written := None;
                  DescHandle.after := DescHandle.with_free p l |})
    /\ (DescHandle.FreeHandles p = [] ->
        DescHandle.CurrentHandleCount p < DescHandle.MaxHandleCount p ->
        DescHandle.AllocCpuHandle w p
        = Ok {| DescHandle.newHandle := DescHandle.NextAvailableCpuHandle p;
                DescHandle.written :=
                  if w then Some (DescHandle.CurrentHandleCount p) else None;
                DescHandle.after := DescHandle.bumped p |})
    /\ (DescHandle.FreeHandles p = [] ->
        DescHandle.MaxHandleCount p <= DescHandle.CurrentHandleCount p ->
        DescHandle.AllocCpuHandle w p = Exit (-1)).
Proof.
  intros p h w. repeat split.
  - apply free_then_alloc.
  - intros l x E. now apply alloc_from_free_list.
  - intros E Hlt. now apply alloc_empty_bump.
  - intros E Hge. now apply alloc_empty_full.
Qed.

(** A heap of two handles of size 8 at address 1000: one in use, then
    full, then with both handles on the free list. *)
Lemma C3_witness :
  DescHandle.AllocCpuHandle false
    (DescHandle.mkProvider 1016 8 2 2 [1000; 1008])
  = Ok {| DescHandle.newHandle := 1008;
          DescHandle.written := None;
          DescHandle.after := DescHandle.mkProvider 1016 8 2 2 [1000] |}
  /\ DescHandle.AllocCpuHandle true (DescHandle.mkProvider 1008 8 1 2 [])
     = Ok {| DescHandle.newHandle := 1008;
             DescHandle.written := Some 1;
             DescHandle.after := DescHandle.mkProvider 1016 8 2 2 [] |}
  /\ DescHandle.AllocCpuHandle true (DescHandle.mkProvider 1016 8 2 2 [])
     = Exit (-1).
Proof.
  split; [|split].
  - apply (proj1 (proj2 (C3_alloc_free_roundtrip_and_capacity
                           (DescHandle.mkProvider 1016 8 2 2 [1000; 1008]) 0 false))
             [1000] 1008).
    reflexivity.
  - apply (proj1 (proj2 (proj2 (C3_alloc_free_roundtrip_and_capacity
                                  (DescHandle.mkProvider 1008 8 1 2 []) 0 true)))).
    + reflexivity.
    + simpl. lia.
  - apply (proj2 (proj2 (proj2 (C3_alloc_free_roundtrip_and_capacity
                                  (DescHandle.mkProvider 1016 8 2 2 []) 0 true)))).
    + reflexivity.
    + simpl. lia.
Defined.

(** C9.  [FreeCpuHandle] pushes whatever handle it is given; after the
    same handle was freed twice, the next two allocations both return it;
    and an allocation that is served from the free list succeeds without
    a look at the capacity, also when the count has reached it. *)
Theorem C9_free_is_unchecked :
  forall (p : DescHandle.DescHandleProvider)
         (h : DescHandle.CPU_DESCRIPTOR_HANDLE) (w1 w2 : bool),
    DescHandle.FreeHandles (DescHandle.FreeCpuHandle h p)
    = DescHandle.FreeHandles p ++ [h]
    /\ DescHandle.AllocCpuHandle w1
         (DescHandle.FreeCpuHandle h (DescHandle.FreeCpuHandle h p))
       = Ok {| DescHandle.newHandle := h;
               DescHandle.written := None;
               DescHandle.after := DescHandle.FreeCpuHandle h p |}
    /\ DescHandle.AllocCpuHandle w2 (DescHandle.FreeCpuHandle h p)
       = Ok {| DescHandle.newHandle := h;
               DescHandle.written := None;
               DescHandle.after := p |}
    /\ (DescHandle.MaxHandleCount p <= DescHandle.CurrentHandleCount p ->
        forall l x,
          DescHandle.FreeHandles p = l ++ [x] ->
          DescHandle.AllocCpuHandle w1 p
          = Ok {| DescHandle.newHandle := x;
                  DescHandle.written := None;
                  DescHandle.after := DescHandle.with_free p l |}).
Proof.
  intros p h w1 w2. repeat split.
  - apply free_then_alloc.
  - apply free_then_alloc.
  - intros _ l x E. now apply alloc_from_free_list.
Qed.

(** A full heap (count 2 of 2) whose free list holds the handle 1000
    twice and a handle, 4242, that the heap never gave out. *)
Lemma C9_witness :
  DescHandle.AllocCpuHandle false
    (DescHandle.mkProvider 1016 8 2 2 [1000; 1000; 4242])
  = Ok {| DescHandle.newHandle := 4242;
          DescHandle.written := None;
          DescHandle.after := DescHandle.mkProvider 1016 8 2 2 [1000; 1000] |}.
Proof.
  apply (proj2 (proj2 (proj2 (C9_free_is_unchecked
                                (DescHandle.mkProvider 1016 8 2 2 [1000; 1000; 4242])
                                0 false false)))).
  - simpl. lia.
  - reflexivity.
Defined.

(** ** The global vertex/index store *)







(** *** What one append does *)

Section Append.

Variables (vertices : list Vertex) (indices : list Z) (vb : VertexBuffer).

Let vb' := snd (append_to_global vertices indices vb).

Lemma append_globalIndices : globalIndices vb' = globalIndices vb ++ indices.
Proof. unfold vb', append_to_global. simpl. apply push_back_all_app. Qed.

Lemma append_globalVertices : globalVertices vb' = globalVertices vb ++ vertices.
Proof. unfold vb', append_to_global. simpl. apply push_back_all_app. Qed.







Lemma append_IB_length :
  length (globalStartIBIndices vb') = S (length (globalStartIBIndices vb)).
Proof. unfold vb', append_to_global. simpl. rewrite length_app. simpl. lia. Qed.

Lemma append_VB_length :
  length (globalStartVBIndices vb') = S (length (globalStartVBIndices vb)).
Proof. unfold vb', append_to_global. simpl. rewrite length_app. simpl. lia. Qed.

Lemma append_appended_indices : appended_indices vb vb' = indices.
Proof.
  unfold appended_indices. rewrite append_globalIndices. apply drop_app_length.
Qed.

Lemma append_appended_vertices : appended_vertices vb vb' = vertices.
Proof.
  unfold appended_vertices. rewrite append_globalVertices. apply drop_app_length.
Qed.

End Append.

(** Every call is an [append_to_global] of some mesh. *)
Lemma run_call_is_append (c : AppendCall) (vb : VertexBuffer) r vb' :
  run_call c vb = Ok (r, vb') ->
  exists vertices indices, (r, vb') = append_to_global vertices indices vb.
Proof.
  destruct c as [|vs is_|parsed]; unfold run_call.
  - intros H. apply Ok_inj in H. unfold AddBoxToGlobal in H.
    exists (take 24 box_vertices), (take 36 box_indices). symmetry. exact H.
  - unfold AddVerticeAndIndicesToGlobal. intros H.
    apply bind_Ok_inv in H as (_ & _ & H).
    apply bind_Ok_inv in H as (_ & _ & H).
    apply Ok_inj in H. exists vs, is_. symmetry. exact H.
  - unfold AddGlobalObj. destruct parsed as [reader|]; [|discriminate].
    intros H. apply bind_Ok_inv in H as (st & _ & H).
    apply bind_Ok_inv in H as (_ & _ & H).
    apply bind_Ok_inv in H as (_ & _ & H).
    apply Ok_inj in H. exists (obj_vertices st), (obj_indices st).
    symmetry. exact H.
Qed.















(** ** Appends beyond the range of a [UINT] *)

Section Overflow.

Variable big : list Z.
Hypothesis big_length : Z.of_nat (length big) = INT_MAX.



End Overflow.


(** *** Index values are local to their mesh *)

Lemma box_indices_local : Forall (mesh_local 24) (take 36 box_indices).
Proof.
  unfold mesh_local. simpl. repeat constructor; lia.
Qed.

Lemma map_find_Some (m : VertexMap) (v : Vertex) (x : Z) :
  map_find m v = Some x -> exists k, (k, x) ∈ m.
Proof.
  unfold map_find. destruct (find _ m) as [[k y]|] eqn:E; [|discriminate].
  intros H. inversion H; subst. apply find_some in E as [Hin _].
  exists k. now apply list_elem_of_In.
Qed.

Lemma map_count_zero (m : VertexMap) (v : Vertex) :
  (map_count m v =? 0) = true -> map_find m v = None.
Proof.
  unfold map_count. destruct (map_find m v); [discriminate | reflexivity].
Qed.

Lemma map_count_nonzero (m : VertexMap) (v : Vertex) :
  (map_count m v =? 0) = false -> exists x, map_find m v = Some x.
Proof.
  unfold map_count. destruct (map_find m v); [eauto | discriminate].
Qed.

Lemma mesh_local_mono (n m : nat) (i : Z) :
  (n <= m)%nat -> mesh_local n i -> mesh_local m i.
Proof. unfold mesh_local. lia. Qed.

Lemma obj_step_inv attrib st index st' :
  obj_step attrib st index = Ok st' -> obj_inv st -> obj_inv st'.
Proof.
  unfold obj_step. intros H [Hm Hi].
  apply bind_Ok_inv in H as (vertex & _ & H).
  destruct (map_count (uniqueVertices st) vertex =? 0) eqn:Ec; simpl in H.
  - (* a new vertex *)
    apply map_count_zero in Ec.
    unfold map_assign in H. rewrite Ec in H.
    set (n := length (obj_vertices st)) in *.
    assert (Hnew : mesh_local (S n) (UINT_of_size n)).
    { unfold mesh_local. pose proof (UINT_of_size_le n). lia. }
    assert (Hm1 : Forall (fun kv => mesh_local (S n) (snd kv))
                    (uniqueVertices st ++ [(vertex, UINT_of_size n)])).
    { apply Forall_app. split.
      - eapply Forall_impl; [exact Hm|]. intros kv. apply mesh_local_mono. lia.
      - apply Forall_singleton. exact Hnew. }
    assert (Hi1 : Forall (mesh_local (S n)) (obj_indices st)).
    { eapply Forall_impl; [exact Hi|]. intros i. apply mesh_local_mono. lia. }
    unfold map_subscript in H.
    destruct (map_find (uniqueVertices st ++ [(vertex, UINT_of_size n)]) vertex)
      as [x|] eqn:Ef;
      apply Ok_inj in H; subst st'; unfold obj_inv; simpl; rewrite length_app; simpl;
      replace (length (obj_vertices st) + 1)%nat with (S n) by (unfold n; lia).
    + split; [assumption|]. apply Forall_app. split; [assumption|].
      apply Forall_singleton.
      apply map_find_Some in Ef as [k Hin].
      rewrite Forall_forall in Hm1. exact (Hm1 _ Hin).
    + split.
      * apply Forall_app. split; [assumption|]. apply Forall_singleton.
        unfold mesh_local. simpl. lia.
      * apply Forall_app. split; [assumption|]. apply Forall_singleton.
        unfold mesh_local. simpl. lia.
  - (* a vertex seen before *)
    apply map_count_nonzero in Ec as [x Ef].
    unfold map_subscript in H. rewrite Ef in H. apply Ok_inj in H. subst st'.
    unfold obj_inv; simpl. split; [assumption|].
    apply Forall_app. split; [assumption|]. apply Forall_singleton.
    apply map_find_Some in Ef as [k Hin].
    rewrite Forall_forall in Hm. exact (Hm _ Hin).
Qed.

Lemma obj_face_loop_inv attrib indices : forall st st',
  obj_face_loop attrib st indices = Ok st' -> obj_inv st -> obj_inv st'.
Proof.
  induction indices as [|index rest IH]; intros st st' H Hinv; simpl in H.
  - inversion H; subst. assumption.
  - apply bind_Ok_inv in H as (st1 & Hs & H).
    eapply IH; [eassumption|]. eapply obj_step_inv; eassumption.
Qed.

Lemma obj_shape_loop_inv attrib shapes : forall st st',
  obj_shape_loop attrib st shapes = Ok st' -> obj_inv st -> obj_inv st'.
Proof.
  induction shapes as [|shape rest IH]; intros st st' H Hinv; simpl in H.
  - inversion H; subst. assumption.
  - apply bind_Ok_inv in H as (st1 & Hs & H).
    eapply IH; [eassumption|]. eapply obj_face_loop_inv; eassumption.
Qed.

Lemma AddGlobalObj_is_append parsed vb r vb' :
  AddGlobalObj parsed vb = Ok (r, vb') ->
  exists vertices indices,
    (r, vb') = append_to_global vertices indices vb
    /\ Forall (mesh_local (length vertices)) indices.
Proof.
  unfold AddGlobalObj. destruct parsed as [reader|]; [|discriminate].
  intros H. apply bind_Ok_inv in H as (st & Hloop & H).
  apply bind_Ok_inv in H as (_ & _ & H).
  apply bind_Ok_inv in H as (_ & _ & H).
  apply Ok_inj in H. exists (obj_vertices st), (obj_indices st).
  split; [symmetry; exact H|].
  apply obj_shape_loop_inv in Hloop as [_ Hi]; [assumption|].
  split; constructor.
Qed.

(** The indices that an append wrote address, after the mesh's vertex
    offset is added, vertices that the same append wrote. *)
Lemma appended_in_own_range vertices indices vb :
  let vb' := snd (append_to_global vertices indices vb) in
  Forall (mesh_local (length vertices)) indices ->
  Forall (fun i =>
            mesh_local (length (appended_vertices vb vb')) i
            /\ globalVertices vb' !! (length (globalVertices vb) + Z.to_nat i)%nat
               = appended_vertices vb vb' !! Z.to_nat i
            /\ is_Some (appended_vertices vb vb' !! Z.to_nat i))
         (appended_indices vb vb').
Proof.
  intros vb' H. subst vb'.
  rewrite append_appended_indices, append_appended_vertices, append_globalVertices.
  eapply Forall_impl; [exact H|]. intros i Hi. split; [assumption|]. split.
  - rewrite lookup_app_r by lia. f_equal. lia.
  - apply lookup_lt_is_Some. unfold mesh_local in Hi. lia.
Qed.

(** C10.  Every index value that [AddBoxToGlobal] or [AddGlobalObj] writes
    into the global index array is at least 0 and below the number of
    vertices the same call appended, so that the vertex found at the
    mesh's vertex offset plus the index is one of the mesh's own. *)
Theorem C10_indices_are_mesh_local :
  forall (vb : VertexBuffer),
    (forall r vb',
        AddBoxToGlobal vb = (r, vb') ->
        Forall (fun i =>
                  mesh_local (length (appended_vertices vb vb')) i
                  /\ globalVertices vb' !! (length (globalVertices vb) + Z.to_nat i)%nat
                     = appended_vertices vb vb' !! Z.to_nat i
                  /\ is_Some (appended_vertices vb vb' !! Z.to_nat i))
               (appended_indices vb vb'))
    /\ (forall parsed r vb',
           AddGlobalObj parsed vb = Ok (r, vb') ->
           Forall (fun i =>
                     mesh_local (length (appended_vertices vb vb')) i
                     /\ globalVertices vb' !! (length (globalVertices vb) + Z.to_nat i)%nat
                        = appended_vertices vb vb' !! Z.to_nat i
                     /\ is_Some (appended_vertices vb vb' !! Z.to_nat i))
                  (appended_indices vb vb')).
Proof.
  intros vb. split.
  - intros r vb' H. unfold AddBoxToGlobal in H.
    replace vb' with (snd (append_to_global (take 24 box_vertices)
                                            (take 36 box_indices) vb))
      by now rewrite H.
    apply appended_in_own_range. exact box_indices_local.
  - intros parsed r vb' H.
    apply AddGlobalObj_is_append in H as (vs & is_ & E & Hloc).
    replace vb' with (snd (append_to_global vs is_ vb)) by now rewrite <- E.
    now apply appended_in_own_range.
Qed.

(** The square of [example_obj] appended after the box: the six indices
    written are 0, 1, 2, 0, 2, 3, each below its four vertices. *)
Lemma C10_witness :
  appended_indices (snd (AddBoxToGlobal VertexBuffer_empty))
    (snd (append_to_global
            [ Vertex_ctor f_0 f_0 f_0 f_0 f_0 f_0 f_0 f_0;
              Vertex_ctor f_1 f_0 f_0 f_0 f_0 f_0 f_0 f_0;
              Vertex_ctor f_1 f_1 f_0 f_0 f_0 f_0 f_0 f_0;
              Vertex_ctor f_0 f_1 f_0 f_0 f_0 f_0 f_0 f_0 ]
            [0; 1; 2; 0; 2; 3]
            (snd (AddBoxToGlobal VertexBuffer_empty))))
  = [0; 1; 2; 0; 2; 3]
  /\ Forall (fun i => mesh_local 4 i)
       (appended_indices (snd (AddBoxToGlobal VertexBuffer_empty))
          (snd (append_to_global
                  [ Vertex_ctor f_0 f_0 f_0 f_0 f_0 f_0 f_0 f_0;
                    Vertex_ctor f_1 f_0 f_0 f_0 f_0 f_0 f_0 f_0;
                    Vertex_ctor f_1 f_1 f_0 f_0 f_0 f_0 f_0 f_0;
                    Vertex_ctor f_0 f_1 f_0 f_0 f_0 f_0 f_0 f_0 ]
                  [0; 1; 2; 0; 2; 3]
                  (snd (AddBoxToGlobal VertexBuffer_empty))))).
Proof.
  split; [vm_compute; reflexivity|].
  eapply Forall_impl.
  - apply (proj2 (C10_indices_are_mesh_local (snd (AddBoxToGlobal VertexBuffer_empty)))
             (Some example_obj) (24, 36)).
    vm_compute. reflexivity.
  - intros i (Hi & _). exact Hi.
Defined.

(** ** Running code on [DIRECTX] *)

Lemma dx_bind_Ok_inv {A B : Type} (m : DX A) (k : A -> DX B) s b s' :
  dx_bind m k s = Ok (b, s') ->
  exists a s1, m s = Ok (a, s1) /\ k a s1 = Ok (b, s').
Proof.
  unfold dx_bind. destruct (m s) as [[a s1]| |]; intros H; try discriminate. eauto.
Qed.

Lemma lift_Ok_inv {A : Type} (o : outcome A) s a s' :
  lift o s = Ok (a, s') -> o = Ok a /\ s' = s.
Proof.
  unfold lift. destruct o; intros H; inversion H; subst. auto.
Qed.

Lemma vec_at_mid {A : Type} (pre post : list A) (x : A) :
  vec_at (pre ++ x :: post) (Z.of_nat (length pre)) = Ok x.
Proof.
  apply vec_at_Ok. rewrite Nat2Z.id. split; [lia|].
  rewrite lookup_app_r by lia. now rewrite Nat.sub_diag.
Qed.

Lemma vec_set_mid {A : Type} (pre post : list A) (x y : A) :
  vec_set (pre ++ x :: post) (Z.of_nat (length pre)) y = Ok (pre ++ y :: post).
Proof.
  apply vec_set_Ok. rewrite Nat2Z.id, length_app. simpl. split; [lia|].
  rewrite insert_app_r_alt by lia. now rewrite Nat.sub_diag.
Qed.

Lemma vec_at_split {A : Type} (v : list A) (i : Z) (x : A) :
  vec_at v i = Ok x ->
  exists pre post, v = pre ++ x :: post /\ i = Z.of_nat (length pre).
Proof.
  intros H. apply vec_at_Ok in H as [H0 Hl].
  exists (take (Z.to_nat i) v), (drop (S (Z.to_nat i)) v). split.
  - symmetry. now apply take_drop_middle.
  - rewrite length_take. apply lookup_lt_Some in Hl. lia.
Qed.

Lemma vec_at_snoc {A : Type} (v : list A) (x : A) :
  vec_at (v ++ [x]) (Z.of_nat (length v)) = Ok x.
Proof. apply vec_at_mid. Qed.

Lemma vec_set_snoc {A : Type} (v : list A) (x y : A) :
  vec_set (v ++ [x]) (Z.of_nat (length v)) y = Ok (v ++ [y]).
Proof. apply vec_set_mid. Qed.

#[global] Arguments vec_at : simpl never.
#[global] Arguments vec_set : simpl never.
#[global] Arguments wrap32 : simpl never.
#[global] Arguments wrap64 : simpl never.
#[global] Arguments memcpy : simpl never.
#[global] Arguments Z.mul : simpl never.
#[global] Arguments Z.add : simpl never.
#[global] Arguments Z.ltb : simpl never.
#[global] Arguments Z.leb : simpl never.
#[global] Arguments Z.eqb : simpl never.

Lemma recorded_nil fr context : recorded fr context [] = fr.
Proof.
  unfold recorded, with_CommandLists. destruct fr as [[l r f] sub b v w].
  destruct context; simpl; rewrite app_nil_r; reflexivity.
Qed.

Lemma recorded_app fr context cs1 cs2 :
  recorded (recorded fr context cs1) context cs2 = recorded fr context (cs1 ++ cs2).
Proof.
  unfold recorded, with_CommandLists. destruct fr as [[l r f] sub b v w].
  destruct context; simpl; rewrite app_assoc; reflexivity.
Qed.

Lemma CurrentFrameResources_at o pre fr post active eye n t :
  CurrentFrameResources (at_slot o pre fr post active eye n t)
  = Ok (fr, at_slot o pre fr post active eye n t).
Proof.
  unfold CurrentFrameResources, at_slot. simpl. now rewrite vec_at_mid.
Qed.

Lemma set_CurrentFrameResources_at o pre fr post active eye n t fr' :
  set_CurrentFrameResources fr' (at_slot o pre fr post active eye n t)
  = Ok (tt, at_slot o pre fr' post active eye n t).
Proof.
  unfold set_CurrentFrameResources, at_slot. simpl. now rewrite vec_set_mid.
Qed.

Lemma record_at context c o pre fr post active eye n t :
  record context c (at_slot o pre fr post active eye n t)
  = Ok (tt, at_slot o pre (recorded fr context [c]) post active eye n t).
Proof.
  unfold record, dx_bind. rewrite CurrentFrameResources_at.
  now rewrite set_CurrentFrameResources_at.
Qed.

Lemma emit_at e o pre fr post active eye n t :
  emit e (at_slot o pre fr post active eye n t)
  = Ok (tt, at_slot o pre fr post active eye n (t ++ [e])).
Proof. reflexivity. Qed.

Lemma get_at o pre fr post active eye n t :
  get (at_slot o pre fr post active eye n t)
  = Ok (at_slot o pre fr post active eye n t, at_slot o pre fr post active eye n t).
Proof. reflexivity. Qed.

Lemma native_at dev c o pre fr post active eye n t :
  native dev c (at_slot o pre fr post active eye n t)
  = Ok (hr_ok dev n c, at_slot o pre fr post active eye (S n) t).
Proof. reflexivity. Qed.

Lemma SetActiveContext_at c o pre fr post active eye n t :
  SetActiveContext c (at_slot o pre fr post active eye n t)
  = Ok (tt, at_slot o pre fr post c eye n t).
Proof. reflexivity. Qed.

Lemma SetActiveEye_at e o pre fr post active eye n t :
  SetActiveEye e (at_slot o pre fr post active eye n t)
  = Ok (tt, at_slot o pre fr post active e n t).
Proof. reflexivity. Qed.

Lemma lift_at {A : Type} (a : A) s : lift (Ok a) s = Ok (a, s).
Proof. reflexivity. Qed.

Lemma ret_at {A : Type} (a : A) s : ret a s = Ok (a, s).
Proof. reflexivity. Qed.

(** A state in which the current slot exists is of the form [at_slot]. *)
Lemma at_slot_intro s fr :
  vec_at (PerFrameResources s) (SwapChainFrameIndex s) = Ok fr ->
  exists pre post,
    s = at_slot (objects s) pre fr post (ActiveContext s) (ActiveEyeIndex s)
                (NativeCalls s) (Trace s).
Proof.
  intros H. apply vec_at_split in H as (pre & post & E1 & E2).
  exists pre, post. destruct s; simpl in *. subst. reflexivity.
Qed.

Ltac dx_simpl :=
  repeat first
    [ rewrite CurrentFrameResources_at
    | rewrite set_CurrentFrameResources_at
    | rewrite record_at
    | rewrite emit_at
    | rewrite get_at
    | rewrite native_at
    | rewrite SetActiveContext_at
    | rewrite SetActiveEye_at
    | rewrite lift_at
    | rewrite ret_at
    | progress cbv beta iota ].

(** Unfold the binds one after the other and run the primitives. *)
Ltac dx := repeat first [ progress dx_simpl | unfold dx_bind at 1 ].

Section Primitives.

Variable dev : Device.

Lemma Device_CreateCommittedResource_at size o pre fr post active eye n t :
  Device_CreateCommittedResource dev size (at_slot o pre fr post active eye n t)
  = Ok (CreateCommittedResource dev n size, at_slot o pre fr post active eye (S n) t).
Proof. reflexivity. Qed.

Lemma AllocateUAVBuffer_at size st o pre fr post active eye n t :
  AllocateUAVBuffer dev size st (at_slot o pre fr post active eye n t)
  = match CreateCommittedResource dev n size with
    | Some h => Ok (Res h, at_slot o pre fr post active eye (S n)
                             (t ++ [EvCreateResource size st h]))
    | None => Exit 1
    end.
Proof.
  unfold AllocateUAVBuffer. unfold dx_bind at 1.
  rewrite Device_CreateCommittedResource_at.
  destruct (CreateCommittedResource dev n size); [|reflexivity]. dx. reflexivity.
Qed.

Lemma CommandList_Reset_call_at context o pre fr post active eye n t :
  CommandList_Reset_call dev context (at_slot o pre fr post active eye n t)
  = if hr_ok dev n CommandList_Reset
    then Ok (true, at_slot o pre (cleared fr context) post active eye (S n) t)
    else Ok (false, at_slot o pre fr post active eye (S n) t).
Proof.
  unfold CommandList_Reset_call. dx.
  destruct (hr_ok dev n CommandList_Reset); dx; reflexivity.
Qed.

Lemma SubmitCommandList_at context o pre fr post active eye n t :
  SubmitCommandList dev context (at_slot o pre fr post active eye n t)
  = if hr_ok dev n CommandList_Close
    then Ok (tt, at_slot o pre (submitted fr context) post active eye (S n)
                   (t ++ [EvExecuteCommandLists (Z.of_nat (length pre)) context
                            (ctx_get (CommandLists fr) context)]))
    else Exit (-1).
Proof.
  unfold SubmitCommandList. dx.
  destruct (hr_ok dev n CommandList_Close); unfold VALIDATE; dx; reflexivity.
Qed.

Lemma signal_fence_at o pre fr post active eye n t :
  signal_fence dev (at_slot o pre fr post active eye n t)
  = if hr_ok dev n CommandQueue_Signal
    then Ok (tt, at_slot o pre (signalled fr) post active eye (S n)
                   (t ++ [EvSignal (Z.of_nat (length pre)) (PresentFenceValue fr)]))
    else Exit (-1).
Proof.
  unfold signal_fence. dx.
  destruct (hr_ok dev n CommandQueue_Signal); unfold VALIDATE; dx; reflexivity.
Qed.

Lemma WaitForGpu_at o pre fr post active eye n t :
  WaitForGpu dev (at_slot o pre fr post active eye n t)
  = if hr_ok dev n CommandQueue_Signal
    then Ok (tt, at_slot o pre (signalled fr) post active eye (S n)
                   (t ++ [EvSignal (Z.of_nat (length pre)) (PresentFenceValue fr);
                          EvWaitForSingleObject (Z.of_nat (length pre))]))
    else Exit (-1).
Proof.
  unfold WaitForGpu. unfold dx_bind at 1. rewrite signal_fence_at.
  destruct (hr_ok dev n CommandQueue_Signal); [|reflexivity]. dx.
  rewrite <- app_assoc. reflexivity.
Qed.

End Primitives.
(** ** The bottom-level build *)

Section BottomLevelFacts.

Variable dev : Device.

Lemma blas_loop_zero i vb s : blas_loop dev 0 i vb s = Ok (vb, s).
Proof. reflexivity. Qed.

Lemma Init_no_subranges vb s :
  globalStartIBIndices vb = [] ->
  InitGlobalBottomLevelAccelerationObject dev vb s = Ok (vb, s).
Proof.
  intros E. unfold InitGlobalBottomLevelAccelerationObject. rewrite E. reflexivity.
Qed.

Lemma blas_geometryDesc_ok vb (i : nat) ibBase vbBase ib vbRange :
  resource (indexBuffer vb) = Res ibBase ->
  resource (vertexBuffer vb) = Res vbBase ->
  globalStartIBIndices vb !! i = Some ib ->
  globalStartVBIndices vb !! i = Some vbRange ->
  0 <= ibBase -> 0 <= vbBase ->
  addressable ibBase sizeof_UINT ib ->
  addressable vbBase sizeof_Vertex vbRange ->
  blas_geometryDesc vb (Z.of_nat i)
  = Ok (subrange_geometry ibBase vbBase (ib, vbRange)).
Proof.
  intros Ei Ev Li Lv Hi Hv [A1 A2] [B1 B2].
  unfold blas_geometryDesc. rewrite Ei, Ev. simpl.
  rewrite (vec_at_nat _ _ _ Li), (vec_at_nat _ _ _ Lv). simpl.
  unfold subrange_geometry, sizeof_UINT, sizeof_Vertex in *. simpl.
  assert (W1 : wrap64 (4 * fst ib) = 4 * fst ib) by (apply wrap64_small; lia).
  assert (W2 : wrap64 (32 * fst vbRange) = 32 * fst vbRange)
    by (apply wrap64_small; lia).
  rewrite W1, W2. rewrite !wrap64_small by lia. reflexivity.
Qed.

End BottomLevelFacts.

Section BottomLevelRun.

Variable dev : Device.
Hypothesis dev_ok : device_ok dev.

Lemma blas_iteration_ok vb (i : nat) ibBase vbBase ib vbRange
    o pre fr post active eye n t :
  resource (indexBuffer vb) = Res ibBase ->
  resource (vertexBuffer vb) = Res vbBase ->
  globalStartIBIndices vb !! i = Some ib ->
  globalStartVBIndices vb !! i = Some vbRange ->
  0 <= ibBase -> 0 <= vbBase ->
  addressable ibBase sizeof_UINT ib ->
  addressable vbBase sizeof_Vertex vbRange ->
  length (m_globalBottomLevelAccelerationStructures vb) = i ->
  exists built fr' events,
    blas_iteration dev (Z.of_nat i) vb (at_slot o pre fr post active eye n t)
    = Ok (with_BLAS vb (m_globalBottomLevelAccelerationStructures vb ++ [built]),
          at_slot o pre fr' post active eye (5 + n) (t ++ events))
    /\ blas_block (Z.of_nat (length pre)) (PresentFenceValue fr)
         (subrange_geometry ibBase vbBase (ib, vbRange)) built events
    /\ PresentFenceValue fr' = wrap64 (PresentFenceValue fr + 1)
    /\ PresentFenceWaitValue fr' = PresentFenceValue fr.
Proof.
  destruct dev_ok as [Hpre Hcreate Hhr].
  intros Ei Ev Li Lv Hi Hv Ai Av Hlen. subst i.
  unfold blas_iteration.
  unfold dx_bind at 1. rewrite CommandList_Reset_call_at, Hhr.
  unfold dx_bind at 1.
  rewrite (blas_geometryDesc_ok vb _ ibBase vbBase ib vbRange) by assumption.
  rewrite lift_at.
  set (desc := subrange_geometry ibBase vbBase (ib, vbRange)).
  set (info := GetRaytracingAccelerationStructurePrebuildInfo dev
                 (BOTTOM_LEVEL 1 [desc])).
  cbv zeta.
  unfold dx_bind at 1. unfold ThrowIfFalse.
  pose proof (Hpre (BOTTOM_LEVEL 1 [desc])) as Hp. fold info in Hp.
  apply Z.ltb_lt in Hp. rewrite Hp. rewrite lift_at.
  unfold dx_bind at 1. rewrite AllocateUAVBuffer_at.
  destruct (Hcreate (S n) (ScratchDataSizeInBytes info)) as [scratch ->].
  unfold dx_bind at 1. rewrite vec_at_snoc, lift_at.
  unfold dx_bind at 1. rewrite AllocateUAVBuffer_at.
  destruct (Hcreate (S (S n)) (ResultDataMaxSizeInBytes info)) as [result ->].
  unfold dx_bind at 1. rewrite vec_set_snoc, lift_at.
  unfold dx_bind at 1. simpl GetGPUVirtualAddress. rewrite lift_at.
  unfold dx_bind at 1. rewrite vec_at_snoc, lift_at.
  unfold dx_bind at 1. simpl GetGPUVirtualAddress. rewrite lift_at.
  unfold dx_bind at 1. rewrite record_at.
  unfold dx_bind at 1. rewrite record_at.
  unfold dx_bind at 1. rewrite SubmitCommandList_at, Hhr.
  unfold dx_bind at 1. rewrite WaitForGpu_at, Hhr.
  unfold dx_bind at 1. unfold Release_resource. rewrite emit_at. rewrite ret_at.
  eexists (Res result), _, _. split; [|split; [|split]].
  - rewrite <- !app_assoc. simpl app. reflexivity.
  - unfold blas_block. eexists _, _, scratch, result. split; [reflexivity|].
    repeat f_equal.
  - reflexivity.
  - reflexivity.
Qed.


Lemma blas_iteration_zero_size vb (i : Z) desc o pre fr post active eye n t :
  blas_geometryDesc vb i = Ok desc ->
  ResultDataMaxSizeInBytes
    (GetRaytracingAccelerationStructurePrebuildInfo dev (BOTTOM_LEVEL 1 [desc])) <= 0 ->
  blas_iteration dev i vb (at_slot o pre fr post active eye n t) = Exit 1.
Proof.
  clear dev_ok. intros Hd Hz. unfold blas_iteration.
  unfold dx_bind at 1. rewrite CommandList_Reset_call_at.
  destruct (hr_ok dev n CommandList_Reset);
    unfold dx_bind at 1; rewrite Hd, lift_at; cbv zeta; unfold dx_bind at 1;
    apply Z.ltb_ge in Hz; rewrite Hz; reflexivity.
Qed.

Lemma blas_loop_ok ibBase vbBase (k : nat) : forall vb o pre fr post active eye n t,
  resource (indexBuffer vb) = Res ibBase ->
  resource (vertexBuffer vb) = Res vbBase ->
  0 <= ibBase -> 0 <= vbBase ->
  length (globalStartIBIndices vb) = length (globalStartVBIndices vb) ->
  Forall (addressable ibBase sizeof_UINT) (globalStartIBIndices vb) ->
  Forall (addressable vbBase sizeof_Vertex) (globalStartVBIndices vb) ->
  (length (m_globalBottomLevelAccelerationStructures vb) + k)%nat
  = length (globalStartIBIndices vb) ->
  exists builts fr' blocks,
    blas_loop dev k (Z.of_nat (length (m_globalBottomLevelAccelerationStructures vb)))
      vb (at_slot o pre fr post active eye n t)
    = Ok (with_BLAS vb (m_globalBottomLevelAccelerationStructures vb ++ builts),
          at_slot o pre fr' post active eye (5 * k + n) (t ++ concat blocks))
    /\ Forall3 (fun rv built events =>
                  blas_block (Z.of_nat (length pre)) (snd rv)
                    (subrange_geometry ibBase vbBase (fst rv)) built events)
         (zip (drop (length (m_globalBottomLevelAccelerationStructures vb))
                    (zip (globalStartIBIndices vb) (globalStartVBIndices vb)))
              (map (fence_after (PresentFenceValue fr)) (seq 0 k)))
         builts blocks
    /\ PresentFenceValue fr' = fence_after (PresentFenceValue fr) k
    /\ (forall j, k = S j ->
                  PresentFenceWaitValue fr' = fence_after (PresentFenceValue fr) j)
    /\ (k = 0%nat -> fr' = fr).
Proof.
  induction k as [|k IH]; intros vb o pre fr post active eye n t Ei Ev Hi Hv Hl Ai Av Hk.
  - exists [], fr, []. simpl. rewrite !app_nil_r. split; [|split; [|split; [|split]]].
    + destruct vb; reflexivity.
    + rewrite drop_ge; [constructor|]. rewrite length_zip_with. lia.
    + reflexivity.
    + intros j Hj. discriminate Hj.
    + reflexivity.
  - set (m := m_globalBottomLevelAccelerationStructures vb) in *.
    assert (Hlt : (length m < length (globalStartIBIndices vb))%nat) by lia.
    destruct (lookup_lt_is_Some_2 _ _ Hlt) as [ib Lib].
    assert (Hlt' : (length m < length (globalStartVBIndices vb))%nat) by lia.
    destruct (lookup_lt_is_Some_2 _ _ Hlt') as [vbRange Lvb].
    destruct (blas_iteration_ok vb (length m) ibBase vbBase ib vbRange
                o pre fr post active eye n t)
      as (built & fr1 & ev1 & E1 & B1 & V1 & W1);
      try assumption; try reflexivity.
    { rewrite Forall_forall in Ai. apply Ai. eapply list_elem_of_lookup_2; eassumption. }
    { rewrite Forall_forall in Av. apply Av. eapply list_elem_of_lookup_2; eassumption. }
    simpl blas_loop. unfold dx_bind at 1. fold m in E1. rewrite E1.
    set (vb1 := with_BLAS vb (m ++ [built])).
    specialize (IH vb1 o pre fr1 post active eye (5 + n)%nat (t ++ ev1)).
    assert (Em1 : m_globalBottomLevelAccelerationStructures vb1 = m ++ [built])
      by reflexivity.
    rewrite Em1 in IH. rewrite length_app in IH. simpl length in IH.
    destruct IH as (builts & fr2 & blocks & E2 & F2 & V2 & W2 & Z2); try assumption.
    { unfold vb1; simpl; lia. }
    replace (Z.of_nat (length m) + 1) with (Z.of_nat (length m + 1)) by lia.
    rewrite E2.
    exists (built :: builts), fr2, (ev1 :: blocks). split; [|split; [|split; [|split]]].
    + f_equal. f_equal.
      * unfold vb1, with_BLAS. simpl. rewrite <- app_assoc. reflexivity.
      * f_equal; [lia|]. simpl concat. rewrite <- app_assoc. reflexivity.
    + assert (Lz : zip (globalStartIBIndices vb) (globalStartVBIndices vb) !! length m
                   = Some (ib, vbRange)).
      { apply lookup_zip_with_Some. eauto. }
      rewrite (drop_S _ _ _ Lz).
      change (seq 0 (S k)) with (0%nat :: seq 1 k).
      rewrite <- seq_shift, map_cons, map_map.
      change (zip ((ib, vbRange) :: ?l) (?v :: ?vs)) with (((ib, vbRange), v) :: zip l vs).
      constructor; [exact B1|].
      replace (S (length m)) with (length m + 1)%nat by lia.
      rewrite V1 in F2. exact F2.
    + rewrite V2, V1. reflexivity.
    + intros j Hj. injection Hj as <-. destruct k as [|k'].
      * rewrite (Z2 eq_refl). exact W1.
      * rewrite (W2 k' eq_refl), V1. reflexivity.
    + intros Hk0. discriminate Hk0.
Qed.

End BottomLevelRun.

(** The fence counter after [i] increments, in closed form. *)
Lemma fence_after_mod (i : nat) : forall v,
  0 <= v < 2 ^ 64 -> fence_after v i = (v + Z.of_nat i) mod 2 ^ 64.
Proof.
  induction i as [|i IH]; intros v Hv.
  - cbn [fence_after]. rewrite Z.add_0_r, Z.mod_small by lia. reflexivity.
  - cbn [fence_after]. rewrite IH by apply wrap64_range.
    fold (wrap64 (wrap64 (v + 1) + Z.of_nat i)). rewrite wrap64_add_l.
    unfold wrap64. f_equal. lia.
Qed.

(** C7.  On a device where the native calls succeed, with both upload
    buffers in place, as many vertex as index sub-ranges recorded, every
    sub-range inside the 64-bit address space and no BLAS built before, the
    bottom-level build returns with exactly one BLAS per recorded sub-range:
    the [i]-th block of the trace builds the [i]-th BLAS from the geometry
    of the [i]-th sub-range (index data at the index buffer's base plus 4
    bytes times the index offset, vertex data at the vertex buffer's base
    plus [sizeof(Vertex)] times the vertex offset, with the sub-range's
    counts), and in each block the fence is signalled and waited for after
    the build was submitted and before the scratch buffer is released.
    Every build signals a fence value of its own: the [i]-th one the
    value that the fence counter of the slot has after [i] increments,
    [PresentFenceValue + i] modulo [2^64]; afterwards the counter stands
    one past the value of the last build, which is also the value waited
    for last. *)
Theorem C7_one_blas_per_subrange :
  forall (dev : Device) (vb : VertexBuffer) (ibBase vbBase : Z)
         o pre fr post active eye n t,
    device_ok dev ->
    resource (indexBuffer vb) = Res ibBase ->
    resource (vertexBuffer vb) = Res vbBase ->
    0 <= ibBase -> 0 <= vbBase ->
    length (globalStartIBIndices vb) = length (globalStartVBIndices vb) ->
    Z.of_nat (length (globalStartIBIndices vb)) <= INT_MAX ->
    Forall (addressable ibBase sizeof_UINT) (globalStartIBIndices vb) ->
    Forall (addressable vbBase sizeof_Vertex) (globalStartVBIndices vb) ->
    m_globalBottomLevelAccelerationStructures vb = [] ->
    exists builts fr' blocks,
      InitGlobalBottomLevelAccelerationObject dev vb
        (at_slot o pre fr post active eye n t)
      = Ok (with_BLAS vb builts,
            at_slot o pre fr' post active eye
              (5 * length (globalStartIBIndices vb) + n) (t ++ concat blocks))
      /\ length builts = length (globalStartIBIndices vb)
      /\ Forall3 (fun rv built events =>
                    blas_block (Z.of_nat (length pre)) (snd rv)
                      (subrange_geometry ibBase vbBase (fst rv)) built events)
           (zip (zip (globalStartIBIndices vb) (globalStartVBIndices vb))
                (map (fence_after (PresentFenceValue fr))
                     (seq 0 (length (globalStartIBIndices vb)))))
           builts blocks
      /\ PresentFenceValue fr'
         = fence_after (PresentFenceValue fr) (length (globalStartIBIndices vb))
      /\ (forall j, length (globalStartIBIndices vb) = S j ->
                    PresentFenceWaitValue fr' = fence_after (PresentFenceValue fr) j)
      /\ (0 <= PresentFenceValue fr < 2 ^ 64 ->
          forall i, fence_after (PresentFenceValue fr) i
                    = (PresentFenceValue fr + Z.of_nat i) mod 2 ^ 64).
Proof.
  intros dev vb ibBase vbBase o pre fr post active eye n t
         Hdev Ei Ev Hi Hv Hl Hmax Ai Av Hm.
  destruct (blas_loop_ok dev Hdev ibBase vbBase (length (globalStartIBIndices vb))
              vb o pre fr post active eye n t)
    as (builts & fr' & blocks & E & F & V & W & _); try assumption.
  { rewrite Hm. reflexivity. }
  rewrite Hm in E, F. simpl in E, F. rewrite drop_0 in F.
  exists builts, fr', blocks. split; [|split; [|split; [|split; [|split]]]].
  - unfold InitGlobalBottomLevelAccelerationObject, int_counter_loop.
    unfold dx_bind at 1.
    apply Z.leb_le in Hmax. rewrite Hmax. rewrite lift_at. exact E.
  - apply Forall3_length_lm in F. rewrite <- F.
    rewrite !length_zip_with, length_map, length_seq. lia.
  - exact F.
  - exact V.
  - exact W.
  - intros Hr i. apply fence_after_mod. exact Hr.
Qed.

(** The three sub-ranges of [example_store] on [example_device]: the
    builds signal the fence values 0, 1 and 2. *)
Lemma C7_witness :
  device_ok example_device
  /\ Forall (addressable 0x20000 sizeof_UINT) (globalStartIBIndices example_store)
  /\ Forall (addressable 0x30000 sizeof_Vertex) (globalStartVBIndices example_store)
  /\ exists builts fr' blocks,
       InitGlobalBottomLevelAccelerationObject example_device example_store
         example_directx
       = Ok (with_BLAS example_store builts,
             at_slot example_objects [] fr'
               [example_slot 0x901; example_slot 0x902; example_slot 0x903]
               DrawContext_Final 0
               (5 * length (globalStartIBIndices example_store) + 0)
               ([] ++ concat blocks))
       /\ length builts = length (globalStartIBIndices example_store)
       /\ Forall3 (fun rv built events =>
                     blas_block (Z.of_nat (length (@nil SwapChainFrameResources)))
                       (snd rv) (subrange_geometry 0x20000 0x30000 (fst rv))
                       built events)
            (zip (zip (globalStartIBIndices example_store)
                      (globalStartVBIndices example_store))
                 [0; 1; 2])
            builts blocks
       /\ PresentFenceValue fr' = 3
       /\ (forall j, length (globalStartIBIndices example_store) = S j ->
                     PresentFenceWaitValue fr'
                     = fence_after (PresentFenceValue (example_slot 0x900)) j)
       /\ (0 <= PresentFenceValue (example_slot 0x900) < 2 ^ 64 ->
           forall i, fence_after (PresentFenceValue (example_slot 0x900)) i
                     = (PresentFenceValue (example_slot 0x900) + Z.of_nat i)
                         mod 2 ^ 64).
Proof.
  assert (Hdev : device_ok example_device).
  { split.
    - intros inputs. simpl. lia.
    - intros n size. simpl. eauto.
    - reflexivity. }
  assert (Hi : Forall (addressable 0x20000 sizeof_UINT)
                 (globalStartIBIndices example_store)).
  { unfold addressable. simpl. repeat constructor; simpl; lia. }
  assert (Hv : Forall (addressable 0x30000 sizeof_Vertex)
                 (globalStartVBIndices example_store)).
  { unfold addressable. simpl. repeat constructor; simpl; lia. }
  split; [exact Hdev|]. split; [exact Hi|]. split; [exact Hv|].
  apply (C7_one_blas_per_subrange example_device example_store 0x20000 0x30000
           example_objects [] (example_slot 0x900)
           [example_slot 0x901; example_slot 0x902; example_slot 0x903]
           DrawContext_Final 0 0%nat []);
    try assumption; try reflexivity; try lia.
  simpl. unfold INT_MAX. lia.
Defined.

(** Zero meshes, a device on which everything would succeed: the build
    is not rejected. *)
Lemma C6_counterexample :
  globalStartIBIndices VertexBuffer_empty = []
  /\ ~ build_rejected example_device VertexBuffer_empty example_directx.
Proof.
  split; [reflexivity|]. intros [code H].
  rewrite Init_no_subranges in H by reflexivity. discriminate H.
Qed.

(** C6, as the code has it.  With no sub-range recorded the bottom-level
    build runs no iteration: it asks for no prebuild info, builds nothing
    and returns with the store and [DIRECTX] unchanged.  The check of the
    prebuild result size is made inside the loop, once per recorded
    sub-range, and there a result size of zero ends the process with
    [exit(1)]. *)
Theorem C6_zero_size_check_is_per_subrange :
  forall (dev : Device) (vb : VertexBuffer),
    (forall s,
        globalStartIBIndices vb = [] ->
        InitGlobalBottomLevelAccelerationObject dev vb s = Ok (vb, s))
    /\ (forall i desc o pre fr post active eye n t,
           blas_geometryDesc vb i = Ok desc ->
           ResultDataMaxSizeInBytes
             (GetRaytracingAccelerationStructurePrebuildInfo dev
                (BOTTOM_LEVEL 1 [desc])) <= 0 ->
           blas_iteration dev i vb (at_slot o pre fr post active eye n t) = Exit 1).
Proof.
  intros dev vb. split.
  - intros s E. now apply Init_no_subranges.
  - intros i desc o pre fr post active eye n t Hd Hz.
    now apply blas_iteration_zero_size with (desc := desc).
Qed.

(** No sub-range: the build returns; one sub-range on a device that
    reports a result size of zero: the first iteration ends the process. *)
Lemma C6_witness :
  InitGlobalBottomLevelAccelerationObject example_device_zero VertexBuffer_empty
    example_directx
  = Ok (VertexBuffer_empty, example_directx)
  /\ blas_iteration example_device_zero 0 example_store example_directx = Exit 1.
Proof.
  split.
  - apply (proj1 (C6_zero_size_check_is_per_subrange example_device_zero
                    VertexBuffer_empty)).
    reflexivity.
  - apply (proj2 (C6_zero_size_check_is_per_subrange example_device_zero
                    example_store)
             0 (subrange_geometry 0x20000 0x30000 ((0, 36), (0, 24)))).
    + vm_compute. reflexivity.
    + simpl. lia.
Defined.


(** ** The instance table and its upload buffer *)

Lemma length_le_bytes (n : nat) (z : Z) : length (le_bytes n z) = n.
Proof. revert z. induction n as [|n IH]; intros z; simpl; [reflexivity|]. now rewrite IH. Qed.

Lemma length_XMFLOAT4_bytes (v : XMFLOAT4) : length (XMFLOAT4_bytes v) = 16%nat.
Proof. unfold XMFLOAT4_bytes. rewrite !length_app, !length_le_bytes. reflexivity. Qed.

Lemma length_INSTANCE_DESC_bytes (d : D3D12_RAYTRACING_INSTANCE_DESC) :
  length (INSTANCE_DESC_bytes d) = 64%nat.
Proof.
  unfold INSTANCE_DESC_bytes.
  rewrite !length_app, !length_XMFLOAT4_bytes, !length_le_bytes. reflexivity.
Qed.

(** A byte of a concatenation of chunks of [k] bytes each. *)
Lemma lookup_concat_uniform {A : Type} (k : nat) (ls : list (list A)) (p : nat) :
  (0 < k)%nat ->
  Forall (fun l => length l = k) ls ->
  concat ls !! p = ls !! (p / k)%nat ≫= (fun l => l !! (p mod k)%nat).
Proof.
  intros Hk Hall. revert p. induction Hall as [|l ls Hl Hall IH]; intros p.
  - reflexivity.
  - simpl concat. destruct (Nat.lt_ge_cases p k) as [Hlt|Hge].
    + rewrite lookup_app_l by lia.
      rewrite Nat.div_small, Nat.mod_small by lia. reflexivity.
    + rewrite lookup_app_r by lia. rewrite IH, Hl.
      assert (E1 : (p / k = S ((p - k) / k))%nat).
      { replace p with ((p - k) + 1 * k)%nat at 1 by lia.
        rewrite Nat.div_add by lia. lia. }
      assert (E2 : (p mod k = (p - k) mod k)%nat).
      { replace p with ((p - k) + 1 * k)%nat at 1 by lia.
        apply Nat.Div0.mod_add. }
      rewrite E1, E2. reflexivity.
Qed.

Lemma length_concat_uniform {A : Type} (k : nat) (ls : list (list A)) :
  Forall (fun l => length l = k) ls -> length (concat ls) = (length ls * k)%nat.
Proof.
  induction 1 as [|l ls Hl Hall IH]; simpl; [reflexivity|].
  rewrite length_app, IH, Hl. lia.
Qed.

Lemma array_bytes_uniform a :
  Forall (fun l => length l = 64%nat) (map INSTANCE_DESC_bytes a).
Proof.
  apply Forall_map. apply Forall_forall. intros d _. apply length_INSTANCE_DESC_bytes.
Qed.

Lemma length_array_bytes a : length (array_bytes a) = (length a * 64)%nat.
Proof.
  unfold array_bytes. rewrite (length_concat_uniform 64) by apply array_bytes_uniform.
  now rewrite length_map.
Qed.

Lemma lookup_array_bytes a (p : nat) :
  array_bytes a !! p
  = a !! (p / 64)%nat ≫= (fun d => INSTANCE_DESC_bytes d !! (p mod 64)%nat).
Proof.
  unfold array_bytes.
  rewrite (lookup_concat_uniform 64) by (try lia; apply array_bytes_uniform).
  rewrite list_lookup_fmap. destruct (a !! (p / 64)%nat); reflexivity.
Qed.

(** Outside the bytes of entry [i], an array with entry [i] replaced has
    the bytes of the array it came from. *)
Lemma lookup_array_bytes_insert a (i : nat) d (p : nat) :
  (p / 64)%nat <> i ->
  array_bytes (<[i := d]> a) !! p = array_bytes a !! p.
Proof.
  intros Hne. rewrite !lookup_array_bytes.
  rewrite list_lookup_insert_ne by congruence. reflexivity.
Qed.

Lemma memcpy_Ok_inv {A : Type} (dst src : list A) (n : Z) (r : list A) :
  memcpy dst src n = Ok r ->
  (Z.to_nat n <= length src)%nat /\ (Z.to_nat n <= length dst)%nat
  /\ r = take (Z.to_nat n) src ++ drop (Z.to_nat n) dst.
Proof.
  unfold memcpy.
  destruct ((0 <=? n) && (n <=? Z.of_nat (length src)) && (n <=? Z.of_nat (length dst)))
    eqn:E; [|discriminate].
  apply andb_true_iff in E as [E E3]. apply andb_true_iff in E as [E1 E2].
  apply Z.leb_le in E1, E2, E3. intros H. apply Ok_inj in H.
  repeat split; [lia | lia | congruence].
Qed.

Lemma memcpy_Ok {A : Type} (dst src : list A) (n : Z) :
  0 <= n -> (Z.to_nat n <= length src)%nat -> (Z.to_nat n <= length dst)%nat ->
  memcpy dst src n = Ok (take (Z.to_nat n) src ++ drop (Z.to_nat n) dst).
Proof.
  intros H0 H1 H2. unfold memcpy.
  replace ((0 <=? n) && (n <=? Z.of_nat (length src)) && (n <=? Z.of_nat (length dst)))
    with true; [reflexivity|].
  symmetry. rewrite !andb_true_iff. repeat split; apply Z.leb_le; lia.
Qed.

Lemma UpdateInstanceDescs_inv sc sc' :
  UpdateInstanceDescs sc = Ok sc' ->
  let n := Z.to_nat (wrap64 (numInstances sc * sizeof_INSTANCE_DESC)) in
  (n <= length (array_bytes (instanceDescsArray sc)))%nat
  /\ (n <= length (instanceDescs_memory sc))%nat
  /\ (exists h, instanceDescs sc = Res h)
  /\ sc' = with_instanceDescs_memory sc
             (take n (array_bytes (instanceDescsArray sc))
              ++ drop n (instanceDescs_memory sc)).
Proof.
  unfold UpdateInstanceDescs. intros H.
  apply bind_Ok_inv in H as (h & Hh & H).
  apply bind_Ok_inv in H as (m & Hm & H).
  apply memcpy_Ok_inv in Hm as (H1 & H2 & ->). apply Ok_inj in H.
  repeat split; [assumption | assumption | | now symmetry].
  destruct (instanceDescs sc); [discriminate | eauto].
Qed.

(** A second commit of an unchanged array changes nothing. *)
Lemma UpdateInstanceDescs_idempotent sc sc' :
  UpdateInstanceDescs sc = Ok sc' -> UpdateInstanceDescs sc' = Ok sc'.
Proof.
  intros H. apply UpdateInstanceDescs_inv in H as (H1 & H2 & [h Hh] & ->).
  set (n := Z.to_nat (wrap64 (numInstances sc * sizeof_INSTANCE_DESC))) in *.
  unfold UpdateInstanceDescs. simpl. rewrite Hh. simpl.
  assert (W : 0 <= wrap64 (numInstances sc * sizeof_INSTANCE_DESC)).
  { unfold wrap64. apply Z.mod_pos_bound. lia. }
  rewrite memcpy_Ok; [| assumption | fold n; lia
                      | fold n; rewrite length_app, length_take, length_drop; lia].
  fold n. simpl. f_equal. unfold with_instanceDescs_memory. simpl. f_equal.
  f_equal. rewrite drop_app_length'; [reflexivity|]. rewrite length_take. lia.
Qed.

Lemma UpdateInstanceTransform_inv i M sc sc' :
  UpdateInstanceTransform i M sc = Ok sc' ->
  exists d d',
    0 <= i < Z.of_nat (length (instanceDescsArray sc))
    /\ instanceDescsArray sc !! Z.to_nat i = Some d
    /\ d' = with_Transform d (r0 (XMMatrixTranspose M)) (r1 (XMMatrixTranspose M))
                           (r2 (XMMatrixTranspose M))
    /\ sc' = with_instanceDescsArray sc (<[Z.to_nat i := d']> (instanceDescsArray sc)).
Proof.
  unfold UpdateInstanceTransform. intros H.
  apply bind_Ok_inv in H as (d & Hd & H).
  apply bind_Ok_inv in H as (a & Ha & H).
  apply vec_at_Ok in Hd as [H0 Hd]. apply vec_set_Ok in Ha as [Hr ->].
  apply Ok_inj in H. eexists d, _. split; [lia|]. split; [exact Hd|].
  split; [reflexivity|]. now symmetry.
Qed.

(** Between two commits with one transform update of entry [i] in
    between, the buffer changes in the 64 bytes of entry [i] at most. *)
Lemma commit_update_commit_bytes sc0 sc1 sc2 sc3 i M (p : nat) :
  UpdateInstanceDescs sc0 = Ok sc1 ->
  UpdateInstanceTransform i M sc1 = Ok sc2 ->
  UpdateInstanceDescs sc2 = Ok sc3 ->
  (p / 64)%nat <> Z.to_nat i ->
  instanceDescs_memory sc3 !! p = instanceDescs_memory sc1 !! p.
Proof.
  intros H1 H2 H3.
  apply UpdateInstanceDescs_inv in H1 as (A1 & A2 & _ & ->).
  apply UpdateInstanceTransform_inv in H2 as (d & d' & Hi & Hd & _ & ->).
  apply UpdateInstanceDescs_inv in H3 as (B1 & B2 & _ & ->).
  simpl in *. intros Hp.
  set (n := Z.to_nat (wrap64 (numInstances sc0 * sizeof_INSTANCE_DESC))) in *.
  set (b := array_bytes (instanceDescsArray sc0)) in *.
  set (b' := array_bytes (<[Z.to_nat i := d']> (instanceDescsArray sc0))) in *.
  assert (Ln : length (take n b) = n) by (rewrite length_take; lia).
  assert (Ln' : length (take n b') = n) by (rewrite length_take; lia).
  rewrite drop_app_length' by (symmetry; assumption).
  destruct (Nat.lt_ge_cases p n) as [Hlt|Hge].
  - rewrite !lookup_app_l by lia. rewrite !lookup_take_lt by lia.
    unfold b, b'. now apply lookup_array_bytes_insert.
  - rewrite !lookup_app_r by lia. rewrite Ln, Ln'. reflexivity.
Qed.

Lemma entry_bytes_ext (j : nat) (m m' : list Z) :
  (forall p, (p / 64)%nat = j -> m' !! p = m !! p) ->
  entry_bytes j m' = entry_bytes j m.
Proof.
  intros H. unfold entry_bytes. apply list_eq. intros q.
  destruct (Nat.lt_ge_cases q 64) as [Hlt|Hge].
  - rewrite !lookup_take_lt by lia. rewrite !lookup_drop. apply H.
    replace (64 * j + q)%nat with (q + j * 64)%nat by lia.
    rewrite Nat.div_add by lia. rewrite Nat.div_small by lia. reflexivity.
  - rewrite !lookup_take_ge by lia. reflexivity.
Qed.


(** C4.  Commit, overwrite the transform of instance [i], commit again:
    the buffer keeps its size and every 64-byte entry other than entry
    [i] holds the same bytes as after the first commit. *)
Theorem C4_update_changes_one_entry :
  forall (sc0 sc1 sc2 sc3 : Scene) (i : Z) (M : XMMATRIX),
    UpdateInstanceDescs sc0 = Ok sc1 ->
    UpdateInstanceTransform i M sc1 = Ok sc2 ->
    UpdateInstanceDescs sc2 = Ok sc3 ->
    length (instanceDescs_memory sc3) = length (instanceDescs_memory sc1)
    /\ forall j : nat,
         j <> Z.to_nat i ->
         entry_bytes j (instanceDescs_memory sc3)
         = entry_bytes j (instanceDescs_memory sc1).
Proof.
  intros sc0 sc1 sc2 sc3 i M H1 H2 H3. split.
  - pose proof H2 as H2'. pose proof H3 as H3'.
    apply UpdateInstanceTransform_inv in H2' as (d & d' & _ & _ & _ & E2).
    apply UpdateInstanceDescs_inv in H3' as (B1 & B2 & _ & E3).
    rewrite E3. simpl. rewrite length_app, length_take, length_drop.
    rewrite E2 in B1, B2 |- *. simpl in *. lia.
  - intros j Hj. apply entry_bytes_ext. intros p Hp.
    eapply commit_update_commit_bytes; try eassumption. congruence.
Qed.

(** The three instances of [example_scene], the transform of instance 1
    overwritten: entries 0 and 2 keep their bytes, entry 1 does not. *)
Lemma C4_witness :
  UpdateInstanceDescs example_scene = Ok example_scene_committed
  /\ UpdateInstanceTransform 1 example_matrix example_scene_committed
     = Ok example_scene_moved
  /\ UpdateInstanceDescs example_scene_moved = Ok example_scene_recommitted
  /\ entry_bytes 0 (instanceDescs_memory example_scene_recommitted)
     = entry_bytes 0 (instanceDescs_memory example_scene_committed)
  /\ entry_bytes 2 (instanceDescs_memory example_scene_recommitted)
     = entry_bytes 2 (instanceDescs_memory example_scene_committed)
  /\ entry_bytes 1 (instanceDescs_memory example_scene_recommitted)
     <> entry_bytes 1 (instanceDescs_memory example_scene_committed).
Proof.
  assert (E1 : UpdateInstanceDescs example_scene = Ok example_scene_committed)
    by (vm_compute; reflexivity).
  assert (E2 : UpdateInstanceTransform 1 example_matrix example_scene_committed
               = Ok example_scene_moved) by (vm_compute; reflexivity).
  assert (E3 : UpdateInstanceDescs example_scene_moved = Ok example_scene_recommitted)
    by (vm_compute; reflexivity).
  split; [exact E1|]. split; [exact E2|]. split; [exact E3|].
  split; [|split].
  - apply (proj2 (C4_update_changes_one_entry _ _ _ _ 1 example_matrix E1 E2 E3) 0%nat).
    discriminate.
  - apply (proj2 (C4_update_changes_one_entry _ _ _ _ 1 example_matrix E1 E2 E3) 2%nat).
    discriminate.
  - vm_compute. discriminate.
Defined.

(** The two commands of [UpdateTLAS]. *)
Lemma UpdateTLAS_at sc instances dest scratch o pre fr post active eye n t :
  instanceDescs sc = Res instances ->
  m_topLevelAccelerationStructure sc = Res dest ->
  ScratchAccelerationStructureData sc = Res scratch ->
  UpdateTLAS sc (at_slot o pre fr post active eye n t)
  = Ok (tt, at_slot o pre
              (recorded fr DrawContext_Final
                 [ BuildRaytracingAccelerationStructure
                     {| bd_Inputs := TOP_LEVEL (numInstances sc) instances;
                        bd_ScratchAccelerationStructureData := scratch;
                        bd_DestAccelerationStructureData := dest |};
                   ResourceBarrier [UAV (Res dest)] ])
              post active eye n t).
Proof.
  intros E1 E2 E3. unfold UpdateTLAS. rewrite E1, E2, E3.
  simpl GetGPUVirtualAddress. dx. rewrite recorded_app. reflexivity.
Qed.

Lemma UpdateTLAS_inv sc s u s' :
  UpdateTLAS sc s = Ok (u, s') ->
  exists instances dest scratch o pre fr post active eye n t,
    instanceDescs sc = Res instances
    /\ m_topLevelAccelerationStructure sc = Res dest
    /\ ScratchAccelerationStructureData sc = Res scratch
    /\ s = at_slot o pre fr post active eye n t.
Proof.
  unfold UpdateTLAS. intros H.
  apply dx_bind_Ok_inv in H as (instances & s1 & H1 & H).
  apply lift_Ok_inv in H1 as [H1 ->].
  apply dx_bind_Ok_inv in H as (dest & s1 & H2 & H).
  apply lift_Ok_inv in H2 as [H2 ->].
  apply dx_bind_Ok_inv in H as (scratch & s1 & H3 & H).
  apply lift_Ok_inv in H3 as [H3 ->].
  apply dx_bind_Ok_inv in H as (u1 & s1 & H4 & _).
  unfold record in H4. apply dx_bind_Ok_inv in H4 as (fr & s2 & H4 & _).
  unfold CurrentFrameResources in H4. apply bind_Ok_inv in H4 as (fr' & H4 & _).
  apply at_slot_intro in H4 as (pre & post & Es).
  destruct (instanceDescs sc); [discriminate|].
  destruct (m_topLevelAccelerationStructure sc); [discriminate|].
  destruct (ScratchAccelerationStructureData sc); [discriminate|].
  simpl in H1, H2, H3. apply Ok_inj in H1, H2, H3. subst.
  do 11 eexists. repeat split; try reflexivity. exact Es.
Qed.

Lemma commit_and_rebuild_again sc1 instances dest scratch :
  UpdateInstanceDescs sc1 = Ok sc1 ->
  instanceDescs sc1 = Res instances ->
  m_topLevelAccelerationStructure sc1 = Res dest ->
  ScratchAccelerationStructureData sc1 = Res scratch ->
  forall (k : nat) o pre fr post active eye n t,
  exists fr',
    commit_and_rebuild_times k sc1 (at_slot o pre fr post active eye n t)
    = Ok (sc1, at_slot o pre fr' post active eye n t).
Proof.
  intros Hc E1 E2 E3. induction k as [|k IH]; intros o pre fr post active eye n t.
  - exists fr. reflexivity.
  - simpl commit_and_rebuild_times. unfold commit_and_rebuild.
    unfold dx_bind at 1. unfold dx_bind at 1. rewrite Hc, lift_at.
    unfold dx_bind at 1.
    rewrite (UpdateTLAS_at sc1 instances dest scratch) by assumption.
    rewrite ret_at. apply IH.
Qed.

(** C5.  After one commit of the instance descriptors and one TLAS
    rebuild, any number of further repetitions succeeds and leaves the
    scene as it is, the bytes of the instance-descriptor buffer included:
    each repetition writes the contents that are already there. *)
Theorem C5_commit_and_rebuild_idempotent :
  forall (sc sc1 : Scene) (s s1 : DirectX12),
    commit_and_rebuild sc s = Ok (sc1, s1) ->
    forall k : nat,
    exists s',
      commit_and_rebuild_times k sc1 s1 = Ok (sc1, s').
Proof.
  intros sc sc1 s s1 H k. unfold commit_and_rebuild in H.
  apply dx_bind_Ok_inv in H as (sc' & s0 & Hc & H).
  apply lift_Ok_inv in Hc as [Hc ->].
  apply dx_bind_Ok_inv in H as (u & s2 & Ht & H).
  unfold ret in H. apply Ok_inj in H. injection H as -> ->.
  pose proof (UpdateTLAS_inv _ _ _ _ Ht)
    as (instances & dest & scratch & o & pre & fr & post & active & eye & n & t
        & E1 & E2 & E3 & ->).
  rewrite (UpdateTLAS_at sc1 instances dest scratch) in Ht by assumption.
  apply Ok_inj in Ht. injection Ht as Es. subst s1.
  apply UpdateInstanceDescs_idempotent in Hc.
  edestruct (commit_and_rebuild_again sc1 instances dest scratch Hc E1 E2 E3 k)
    as [fr' E].
  eexists. exact E.
Qed.

(** [example_scene] on [example_directx]: the first commit and rebuild,
    then three more. *)
Lemma C5_witness :
  (exists s1, commit_and_rebuild example_scene example_directx
              = Ok (example_scene_committed, s1))
  /\ exists s',
       commit_and_rebuild_times 3 example_scene_committed
         (match commit_and_rebuild example_scene example_directx with
          | Ok r => snd r
          | _ => example_directx
          end)
       = Ok (example_scene_committed, s').
Proof.
  assert (E : commit_and_rebuild example_scene example_directx
              = Ok (example_scene_committed,
                    match commit_and_rebuild example_scene example_directx with
                    | Ok r => snd r
                    | _ => example_directx
                    end)) by (vm_compute; reflexivity).
  split.
  - eexists. exact E.
  - exact (C5_commit_and_rebuild_idempotent _ _ _ _ E 3%nat).
Defined.

(** ** The frame loop *)

Lemma objects_at o pre fr post active eye n t :
  objects (at_slot o pre fr post active eye n t) = o.
Proof. reflexivity. Qed.

Lemma ActiveContext_at o pre fr post active eye n t :
  ActiveContext (at_slot o pre fr post active eye n t) = active.
Proof. reflexivity. Qed.

Lemma SwapChainFrameIndex_at o pre fr post active eye n t :
  SwapChainFrameIndex (at_slot o pre fr post active eye n t) = Z.of_nat (length pre).
Proof. reflexivity. Qed.

Lemma Trace_at o pre fr post active eye n t :
  Trace (at_slot o pre fr post active eye n t) = t.
Proof. reflexivity. Qed.

Lemma lift_not_Ok_Exit {A B : Type} (c : Z) s (k : A * DirectX12 -> outcome B) b :
  match lift (Exit c) s with
  | Ok x => k x
  | Exit c' => Exit c'
  | Undefined => Undefined
  end = Ok b -> False.
Proof. discriminate. Qed.

(** Forward execution inside a hypothesis [H : m s = Ok _]: run the
    primitives on the [at_slot] state; a lookup, a pointer or a checked
    call met on the way must have succeeded. *)
Ltac dx_at_in H :=
  repeat first
    [ rewrite CurrentFrameResources_at in H
    | rewrite set_CurrentFrameResources_at in H
    | rewrite record_at in H
    | rewrite emit_at in H
    | rewrite get_at in H
    | rewrite native_at in H
    | rewrite SetActiveContext_at in H
    | rewrite SetActiveEye_at in H
    | rewrite lift_at in H
    | rewrite ret_at in H
    | rewrite objects_at in H
    | rewrite ActiveContext_at in H
    | rewrite SwapChainFrameIndex_at in H
    | rewrite Trace_at in H
    | rewrite recorded_app in H
    | progress cbv beta iota zeta in H ].

Ltac dx_lift_in H :=
  match type of H with
  | context [lift ?o (at_slot _ _ _ _ _ _ _ _)] =>
      let E := fresh "E" in
      destruct o eqn:E;
      [ rewrite lift_at in H
      | exfalso; revert H; clear; unfold lift; discriminate
      | exfalso; revert H; clear; unfold lift; discriminate ]
  end.

Ltac dx_fwd H :=
  repeat first
    [ progress dx_at_in H
    | dx_lift_in H
    | unfold dx_bind at 1 in H ].

Section Frame.

Variable dev : Device.

(** [DoRaytracing] records on the list of the active context only, a
    ray dispatch among its commands and no build. *)
Lemma DoRaytracing_inv ptw eyePos sc o pre fr post active eye n t sc' s' :
  DoRaytracing ptw eyePos sc (at_slot o pre fr post active eye n t) = Ok (sc', s') ->
  exists cmds,
    s' = at_slot o pre (recorded fr active cmds) post active eye n t
    /\ existsb is_DispatchRays cmds = true
    /\ existsb is_TLAS_build cmds = false.
Proof.
  intros H. unfold DoRaytracing in H. dx_fwd H.
  apply Ok_inj in H. injection H as _ <-.
  eexists. split; [reflexivity|]. split; reflexivity.
Qed.


Lemma CopyRaytracingOutputToBackbuffer_inv renderTarget depthTarget
    o pre fr post active eye n t u s' :
  CopyRaytracingOutputToBackbuffer renderTarget depthTarget
    (at_slot o pre fr post active eye n t) = Ok (u, s') ->
  exists cmds,
    s' = at_slot o pre (recorded fr active cmds) post active eye n t
    /\ existsb is_DispatchRays cmds = false
    /\ existsb is_TLAS_build cmds = false.
Proof.
  intros H. unfold CopyRaytracingOutputToBackbuffer in H. dx_fwd H.
  apply Ok_inj in H. injection H as _ <-.
  eexists. split; [reflexivity|]. split; reflexivity.
Qed.

Lemma ctx_get_recorded fr context cs :
  ctx_get (CommandLists (recorded fr context cs)) context
  = ctx_get (CommandLists fr) context ++ cs.
Proof.
  destruct fr as [[l r f] sub b v w]. destruct context; reflexivity.
Qed.

(** [Commit()] adds its runtime calls to the trace and nothing else. *)
Lemma Commit_at eye inp o pre fr post active e n t :
  Commit eye inp (at_slot o pre fr post active e n t)
  = Ok (tt, at_slot o pre fr post active e n (t ++ Commit_events eye inp)).
Proof.
  unfold Commit, Commit_events. unfold dx_bind at 1. rewrite emit_at.
  destruct (has_DepthTextureChain inp).
  - rewrite emit_at, <- app_assoc. reflexivity.
  - rewrite ret_at. reflexivity.
Qed.

Lemma submissions_Commit_events eye inp : submissions (Commit_events eye inp) = [].
Proof. unfold Commit_events. destruct (has_DepthTextureChain inp); reflexivity. Qed.

Lemma presents_Commit_events eye inp : presents (Commit_events eye inp) = 0%nat.
Proof. unfold Commit_events. destruct (has_DepthTextureChain inp); reflexivity. Qed.

(** One eye pass: its commands go to the eye's own list, which is then
    given to the queue with whatever it held before. *)
Lemma render_eye_inv eye inp sc o pre fr post active e n t sc' s' :
  render_eye dev eye inp sc (at_slot o pre fr post active e n t) = Ok (sc', s') ->
  exists cmds,
    s' = at_slot o pre
           (submitted (recorded fr (eye_context eye) cmds) (eye_context eye))
           post (eye_context eye) eye (S n)
           (t ++ EvExecuteCommandLists (Z.of_nat (length pre)) (eye_context eye)
                   (ctx_get (CommandLists fr) (eye_context eye) ++ cmds)
                 :: Commit_events eye inp)
    /\ existsb is_DispatchRays cmds = true
    /\ existsb is_TLAS_build cmds = false.
Proof.
  intros H. unfold render_eye in H. fold (eye_context eye) in H.
  set (ctx := eye_context eye) in *.
  dx_fwd H.
  assert (Hb : forall (b : bool) (c : Command) fr0,
             (if b then record ctx c else ret tt)
               (at_slot o pre fr0 post ctx eye n t)
             = Ok (tt, at_slot o pre (recorded fr0 ctx (if b then [c] else []))
                         post ctx eye n t)).
  { intros b c fr0. destruct b; [apply record_at|].
    rewrite ret_at, recorded_nil. reflexivity. }
  rewrite Hb in H. dx_fwd H.
  destruct (DoRaytracing _ _ _ _) as [[sc1 s1]| |] eqn:ED; try discriminate H.
  apply DoRaytracing_inv in ED as (c1 & -> & D1 & T1).
  dx_fwd H.
  destruct (CopyRaytracingOutputToBackbuffer _ _ _) as [[u2 s2]| |] eqn:EC;
    try discriminate H.
  apply CopyRaytracingOutputToBackbuffer_inv in EC as (c2 & -> & D2 & T2).
  dx_fwd H. rewrite Hb in H. dx_fwd H.
  rewrite SubmitCommandList_at in H.
  destruct (hr_ok dev n CommandList_Close); [|discriminate H].
  dx_fwd H. rewrite ctx_get_recorded in H.
  rewrite Commit_at in H. dx_fwd H.
  rewrite <- (app_assoc t) in H. cbn [app] in H.
  apply Ok_inj in H. injection H as _ <-.
  eexists. split.
  - reflexivity.
  - cbn [existsb is_DispatchRays is_TLAS_build orb].
    rewrite !existsb_app, D1, T1, D2, T2.
    destruct (negb (is_null (GetD3DDepthResource inp))); split; reflexivity.
Qed.

End Frame.
(** ** Actions that give nothing to the queue *)

Lemma submissions_app t1 t2 :
  submissions (t1 ++ t2) = submissions t1 ++ submissions t2.
Proof.
  induction t1 as [|e t1 IH]; [reflexivity|].
  destruct e; simpl; rewrite IH; reflexivity.
Qed.

Lemma quiet_ret {A : Type} (a : A) : quiet (ret a).
Proof. intros s x s' H. apply Ok_inj in H. injection H as _ <-. reflexivity. Qed.

Lemma quiet_lift {A : Type} (o : outcome A) : quiet (lift o).
Proof. intros s x s' H. apply lift_Ok_inv in H as [_ ->]. reflexivity. Qed.

Lemma quiet_get : quiet get.
Proof. intros s x s' H. apply Ok_inj in H. injection H as _ <-. reflexivity. Qed.

Lemma quiet_bind {A B : Type} (m : DX A) (k : A -> DX B) :
  quiet m -> (forall a, quiet (k a)) -> quiet (dx_bind m k).
Proof.
  intros Hm Hk s x s' H. apply dx_bind_Ok_inv in H as (a & s1 & H1 & H2).
  rewrite (Hk _ _ _ _ H2). exact (Hm _ _ _ H1).
Qed.

Lemma quiet_if {A : Type} (b : bool) (m1 m2 : DX A) :
  quiet m1 -> quiet m2 -> quiet (if b then m1 else m2).
Proof. destruct b; auto. Qed.

Lemma quiet_emit e : submissions [e] = [] -> quiet (emit e).
Proof.
  intros He s x s' H. apply Ok_inj in H. injection H as _ <-.
  simpl. rewrite submissions_app, He, app_nil_r. reflexivity.
Qed.

Lemma quiet_CurrentFrameResources : quiet CurrentFrameResources.
Proof.
  intros s x s' H. unfold CurrentFrameResources in H.
  apply bind_Ok_inv in H as (fr & _ & H). apply Ok_inj in H. injection H as _ <-.
  reflexivity.
Qed.

Lemma quiet_set_CurrentFrameResources fr : quiet (set_CurrentFrameResources fr).
Proof.
  intros s x s' H. unfold set_CurrentFrameResources in H.
  apply bind_Ok_inv in H as (frs & _ & H). apply Ok_inj in H. injection H as _ <-.
  reflexivity.
Qed.

Lemma quiet_set_SwapChainFrameIndex i : quiet (set_SwapChainFrameIndex i).
Proof. intros s x s' H. apply Ok_inj in H. injection H as _ <-. reflexivity. Qed.

Lemma quiet_record context c : quiet (record context c).
Proof.
  apply quiet_bind; [apply quiet_CurrentFrameResources|].
  intros fr. apply quiet_set_CurrentFrameResources.
Qed.

Section Quiet.

Variable dev : Device.

Lemma quiet_native c : quiet (native dev c).
Proof. intros s x s' H. apply Ok_inj in H. injection H as _ <-. reflexivity. Qed.

Lemma quiet_SwapChain_GetCurrentBackBufferIndex :
  quiet (SwapChain_GetCurrentBackBufferIndex dev).
Proof. intros s x s' H. apply Ok_inj in H. injection H as _ <-. reflexivity. Qed.

Ltac quiet_tac :=
  repeat first
    [ apply quiet_bind
    | match goal with |- forall _ : _, quiet _ => intro end
    | apply quiet_if
    | apply quiet_ret
    | apply quiet_lift
    | apply quiet_get
    | apply quiet_native
    | apply quiet_record
    | apply quiet_CurrentFrameResources
    | apply quiet_set_CurrentFrameResources
    | apply quiet_set_SwapChainFrameIndex
    | apply quiet_SwapChain_GetCurrentBackBufferIndex
    | apply quiet_emit; reflexivity
    | progress cbv zeta ].

Lemma quiet_signal_fence : quiet (signal_fence dev).
Proof. unfold signal_fence. quiet_tac. Qed.

Lemma quiet_WaitForPreviousFrame : quiet (WaitForPreviousFrame dev).
Proof.
  unfold WaitForPreviousFrame.
  apply quiet_bind; [apply quiet_signal_fence|]. quiet_tac.
Qed.

Lemma quiet_CommandList_Reset_call context : quiet (CommandList_Reset_call dev context).
Proof. unfold CommandList_Reset_call. quiet_tac. Qed.

Lemma quiet_InitCommandList context : quiet (InitCommandList dev context).
Proof.
  unfold InitCommandList.
  apply quiet_bind; [apply quiet_CurrentFrameResources|]. intros fr.
  apply quiet_if; [|apply quiet_ret].
  apply quiet_bind; [apply quiet_native|]. intros hr.
  apply quiet_bind; [apply quiet_lift|]. intros _.
  apply quiet_bind; [apply quiet_CommandList_Reset_call|]. quiet_tac.
Qed.

Lemma quiet_InitFrame finalContextUsed : quiet (InitFrame dev finalContextUsed).
Proof.
  unfold InitFrame.
  apply quiet_bind; [apply quiet_InitCommandList|]. intros _.
  apply quiet_bind; [apply quiet_InitCommandList|]. intros _.
  apply quiet_bind; [apply quiet_if; [apply quiet_InitCommandList|apply quiet_ret]|].
  quiet_tac.
Qed.

End Quiet.
(** ** One iteration of the frame loop *)

Lemma ctx_get_recorded_other fr c c' cs :
  c <> c' ->
  ctx_get (CommandLists (recorded fr c cs)) c' = ctx_get (CommandLists fr) c'.
Proof.
  intros Hc. destruct fr as [[l r f] sub b v w].
  destruct c, c'; try reflexivity; contradiction.
Qed.

Lemma SwapChainBuffer_recorded fr c cs :
  SwapChainBuffer (recorded fr c cs) = SwapChainBuffer fr.
Proof. reflexivity. Qed.

Lemma CommandLists_submitted fr c : CommandLists (submitted fr c) = CommandLists fr.
Proof. reflexivity. Qed.

Lemma SwapChainBuffer_submitted fr c : SwapChainBuffer (submitted fr c) = SwapChainBuffer fr.
Proof. reflexivity. Qed.

Lemma if_emit_at (b : bool) e o pre fr post active eye n t :
  (if b then emit e else ret tt) (at_slot o pre fr post active eye n t)
  = Ok (tt, at_slot o pre fr post active eye n (t ++ (if b then [e] else []))).
Proof. destruct b; [apply emit_at|]. rewrite ret_at, app_nil_r. reflexivity. Qed.

Lemma if_lift_ret {A : Type} (b : bool) (o : outcome A) (a : A) s :
  (if b then lift o else ret a) s = lift (if b then o else Ok a) s.
Proof. destruct b; reflexivity. Qed.

Section Iteration.

Variable dev : Device.

Lemma visible_frame_inv fi l o pre fr post active e n t r s' :
  visible_frame dev fi l (at_slot o pre fr post active e n t) = Ok (r, s') ->
  exists tlas eyeL eyeR fr' n' t1 t2,
    s' = at_slot o pre fr' post DrawContext_EyeRenderRight 1 n'
           (t ++ t1
              ++ [EvExecuteCommandLists (Z.of_nat (length pre)) DrawContext_EyeRenderLeft
                    (ctx_get (CommandLists fr) DrawContext_EyeRenderLeft ++ eyeL)]
              ++ Commit_events 0 (leftEye fi)
              ++ [EvExecuteCommandLists (Z.of_nat (length pre)) DrawContext_EyeRenderRight
                    (ctx_get (CommandLists fr) DrawContext_EyeRenderRight ++ eyeR)]
              ++ t2)
    /\ submissions t1 = [] /\ submissions t2 = []
    /\ ctx_get (CommandLists fr') DrawContext_Final
       = ctx_get (CommandLists fr) DrawContext_Final ++ tlas
    /\ SwapChainBuffer fr' = SwapChainBuffer fr
    /\ existsb is_TLAS_build tlas = true /\ existsb is_DispatchRays tlas = false
    /\ existsb is_DispatchRays eyeL = true /\ existsb is_TLAS_build eyeL = false
    /\ existsb is_DispatchRays eyeR = true /\ existsb is_TLAS_build eyeR = false
    /\ fst r = (if OVR_SUCCESS (r_EndFrame fi) then NextIteration else GotoDone)
    /\ result (snd r) = r_EndFrame fi
    /\ retryCreate (snd r) = retryCreate l.
Proof.
  intros H. unfold visible_frame in H.
  dx_fwd H. rewrite if_lift_ret in H. dx_fwd H.
  unfold UpdateTLAS in H. dx_fwd H.
  destruct (render_eye dev 0 _ _ _) as [[sc1 s1]| |] eqn:ER0; try discriminate H.
  apply render_eye_inv in ER0 as (eyeL & -> & DL & TL).
  change (eye_context 0) with DrawContext_EyeRenderLeft in H.
  dx_fwd H.
  destruct (render_eye dev 1 _ _ _) as [[sc2 s2]| |] eqn:ER1; try discriminate H.
  apply render_eye_inv in ER1 as (eyeR & -> & DR & TR).
  change (eye_context 1) with DrawContext_EyeRenderRight in H.
  dx_fwd H.
  cbn [result with_result with_roomScene retryCreate frameIndex roomScene] in H.
  clear E E0 E1 E2 E3.
  rewrite <- !app_assoc in H. cbn [app] in H.
  repeat first
    [ rewrite CommandLists_submitted in H
    | rewrite ctx_get_recorded_other in H by discriminate ].
  set (tlas := [BuildRaytracingAccelerationStructure _; _]) in H.
  assert (HT : existsb is_TLAS_build tlas = true /\ existsb is_DispatchRays tlas = false)
    by (split; reflexivity).
  destruct HT as [HT HD]. clearbody tlas.
  exists tlas, eyeL, eyeR.
  destruct (OVR_SUCCESS (r_EndFrame fi)); cbn [negb] in H; rewrite ret_at in H;
    apply Ok_inj in H; injection H as <- <-;
    (eexists; eexists;
     exists [EvOvr ovr_WaitToBeginFrame; EvOvr ovr_BeginFrame; EvOvr ovr_GetInputState];
     exists (Commit_events 1 (rightEye fi) ++ [EvOvr ovr_EndFrame]);
     split; [reflexivity|];
     split; [reflexivity|];
     split; [rewrite submissions_app, submissions_Commit_events; reflexivity|];
     split;
       [ repeat first
           [ rewrite CommandLists_submitted
           | rewrite ctx_get_recorded_other by discriminate ];
         apply ctx_get_recorded
       | repeat split; assumption || reflexivity ]).
Qed.

Lemma iteration_visible_inv fi l o pre fr post active e n t r s' :
  ShouldQuit (sessionStatus fi) = false ->
  IsVisible (sessionStatus fi) = true ->
  iteration dev fi l (at_slot o pre fr post active e n t) = Ok (r, s') ->
  exists eyeL eyeR rest,
    submissions (Trace s')
    = submissions t
      ++ [ (Z.of_nat (length pre), DrawContext_EyeRenderLeft,
            ctx_get (CommandLists fr) DrawContext_EyeRenderLeft ++ eyeL);
           (Z.of_nat (length pre), DrawContext_EyeRenderRight,
            ctx_get (CommandLists fr) DrawContext_EyeRenderRight ++ eyeR) ]
      ++ rest
    /\ existsb is_DispatchRays eyeL = true /\ existsb is_TLAS_build eyeL = false
    /\ existsb is_DispatchRays eyeR = true /\ existsb is_TLAS_build eyeR = false
    /\ if OVR_SUCCESS (r_EndFrame fi)
       then exists final,
              rest = [ (Z.of_nat (length pre), DrawContext_Final,
                        ctx_get (CommandLists fr) DrawContext_Final ++ final) ]
              /\ existsb is_TLAS_build final = true
              /\ existsb is_DispatchRays final = false
       else rest = [].
Proof.
  intros HQ HV H. unfold iteration in H. rewrite HQ, HV in H.
  unfold dx_bind at 1 in H. rewrite if_emit_at in H. cbv beta iota in H.
  unfold dx_bind at 1 in H.
  destruct (visible_frame dev fi l _) as [[[c l'] s1]| |] eqn:EV; try discriminate H.
  apply visible_frame_inv in EV
    as (tlas & eyeL & eyeR & fr' & n' & t1 & t2 & -> & Ht1 & Ht2 & HF & HB
        & TT & DT & DL & TL & DR & TR & Hc & _).
  cbn [fst snd] in Hc, H. subst c.
  pose proof (submissions_Commit_events 0 (leftEye fi)) as Hm.
  set (tm := Commit_events 0 (leftEye fi)) in *. clearbody tm.
  exists eyeL, eyeR.
  destruct (OVR_SUCCESS (r_EndFrame fi)).
  - unfold drawMirror in H. unfold mirror_blit, SetViewport in H. dx_fwd H.
    unfold SubmitCommandListAndPresent in H. dx_fwd H.
    rewrite SubmitCommandList_at in H.
    destruct (hr_ok dev n' CommandList_Close); [|discriminate H].
    cbv beta iota in H. rewrite native_at in H.
    destruct (hr_ok dev (S n') SwapChain_Present); [|discriminate H].
    unfold VALIDATE in H. rewrite lift_at, emit_at in H.
    destruct (WaitForPreviousFrame dev _) as [[u1 s1]| |] eqn:EW; try discriminate H.
    apply quiet_WaitForPreviousFrame in EW.
    destruct (InitFrame dev true s1) as [[u2 s2]| |] eqn:EI; try discriminate H.
    apply quiet_InitFrame in EI.
    rewrite ret_at in H. apply Ok_inj in H. injection H as _ <-.
    rewrite EI, EW, Trace_at. rewrite ctx_get_recorded, HF.
    set (blit := (_ ++ [ResourceBarrier _]) : list Command).
    eexists. split; [|split; [assumption|split; [assumption|split;
      [assumption|split; [assumption|]]]]].
    + rewrite !submissions_app, Hm, Ht1, Ht2.
      destruct (ShouldRecenter (sessionStatus fi)); cbn [submissions app];
        rewrite ?app_nil_r, <- ?app_assoc; reflexivity.
    + exists (tlas ++ blit). split; [reflexivity|].
      rewrite !existsb_app, TT, DT. split; reflexivity.
  - cbv beta iota in H. rewrite ret_at in H. apply Ok_inj in H. injection H as _ <-.
    exists []. split; [|repeat split; assumption].
    rewrite Trace_at, !submissions_app, Ht1. cbn [submissions app].
    rewrite !submissions_app, Hm. cbn [submissions app]. rewrite Ht2.
    destruct (ShouldRecenter (sessionStatus fi)); cbn [submissions app];
      rewrite ?app_nil_r; reflexivity.
Qed.

End Iteration.
(** ** The frame loop and its return value *)

Section MainLoopProofs.

Variable dev : Device.

Lemma visible_frame_control fi l s r s' :
  visible_frame dev fi l s = Ok (r, s') ->
  fst r = (if OVR_SUCCESS (r_EndFrame fi) then NextIteration else GotoDone)
  /\ retryCreate (snd r) = retryCreate l
  /\ result (snd r) = r_EndFrame fi.
Proof.
  unfold visible_frame. intros H.
  repeat (apply dx_bind_Ok_inv in H as (? & ? & _ & H)).
  cbn [result with_result with_roomScene retryCreate] in H.
  destruct (OVR_SUCCESS (r_EndFrame fi)); cbn [negb] in H;
    apply Ok_inj in H; injection H as <- _; repeat split.
Qed.

Lemma iteration_control fi l s r s' :
  iteration dev fi l s = Ok (r, s') ->
  if ShouldQuit (sessionStatus fi) then
    fst r = Break /\ retryCreate (snd r) = false /\ result (snd r) = result l
  else if IsVisible (sessionStatus fi) then
    fst r = (if OVR_SUCCESS (r_EndFrame fi) then NextIteration else GotoDone)
    /\ retryCreate (snd r) = retryCreate l
    /\ result (snd r) = r_EndFrame fi
  else
    fst r = NextIteration /\ snd r = l.
Proof.
  unfold iteration. intros H.
  destruct (ShouldQuit (sessionStatus fi)).
  - apply Ok_inj in H. injection H as <- _. repeat split.
  - apply dx_bind_Ok_inv in H as (u & s1 & _ & H).
    apply dx_bind_Ok_inv in H as (r1 & s2 & H1 & H).
    destruct (IsVisible (sessionStatus fi)).
    + apply visible_frame_control in H1 as (Hc & Hr & Hres).
      destruct r1 as [c l1]. cbn [fst snd] in *.
      destruct (OVR_SUCCESS (r_EndFrame fi)); subst c.
      * apply dx_bind_Ok_inv in H as (u1 & s3 & _ & H).
        apply dx_bind_Ok_inv in H as (u2 & s4 & _ & H).
        apply Ok_inj in H. injection H as <- _. repeat split; assumption.
      * apply Ok_inj in H. injection H as <- _. repeat split; assumption.
    + apply Ok_inj in H1. injection H1 as <- _. cbn [fst snd] in H.
      apply dx_bind_Ok_inv in H as (u1 & s3 & _ & H).
      apply dx_bind_Ok_inv in H as (u2 & s4 & _ & H).
      apply Ok_inj in H. injection H as <- _. repeat split.
Qed.

Lemma success_not_DisplayLost r :
  OVR_SUCCESS r = true -> (r =? ovrError_DisplayLost) = false.
Proof.
  unfold OVR_SUCCESS, ovrError_DisplayLost. intros H.
  apply Z.leb_le in H. apply Z.eqb_neq. lia.
Qed.

Lemma Done_success rc r : OVR_SUCCESS r = true -> Done rc r = rc.
Proof.
  intros H. unfold Done. rewrite (success_not_DisplayLost _ H). apply orb_false_r.
Qed.

(** The loop keeps [result] a success at its head, so the value returned
    after it depends only on how it was left. *)
Lemma main_loop_signal frames : forall l s l' s',
  main_loop dev frames l s = Ok (l', s') ->
  OVR_SUCCESS (result l) = true ->
  Done_with l' = retry_signal (retryCreate l) (loop_exit frames).
Proof.
  induction frames as [|fi rest IH]; intros l s l' s' H Hl.
  - apply Ok_inj in H. injection H as <- _. apply Done_success, Hl.
  - cbn [main_loop] in H. apply dx_bind_Ok_inv in H as ([c l1] & s1 & Hi & H).
    apply iteration_control in Hi. cbn [fst snd loop_exit] in *.
    destruct (ShouldQuit (sessionStatus fi)).
    + destruct Hi as (-> & Hr & Hres).
      apply Ok_inj in H. injection H as <- _.
      unfold Done_with. rewrite Hr, Hres. apply Done_success, Hl.
    + destruct (IsVisible (sessionStatus fi)); cbn [andb].
      * destruct Hi as (-> & Hr & Hres).
        destruct (OVR_SUCCESS (r_EndFrame fi)) eqn:EF; cbn [negb].
        -- rewrite <- Hr. apply (IH _ _ _ _ H). rewrite Hres. exact EF.
        -- apply Ok_inj in H. injection H as <- _.
           unfold Done_with, retry_signal, Done. rewrite Hr, Hres. reflexivity.
      * destruct Hi as (-> & ->). apply (IH _ _ _ _ H Hl).
Qed.

Lemma MainLoop_signal rc env frames b :
  MainLoop dev rc env frames = Ok b ->
  b = retry_signal rc (exit_cause env frames).
Proof.
  unfold MainLoop, exit_cause, setup_done, eye_buffer_made, make_eye_buffer,
    retry_or_fatal, FATALERROR.
  intros H.
  destruct (OVR_SUCCESS (r_ovr_Create env)) eqn:EC; cbn [negb andb] in *.
  2:{ apply Ok_inj in H. subst b. reflexivity. }
  destruct (InitDevice env) as [[ok s0]| |]; try discriminate H.
  cbn [bind fst snd] in H.
  destruct ok; cbn [negb] in H.
  2:{ apply Ok_inj in H. subst b. cbn [andb retry_signal]. apply Done_success, EC. }
  destruct (EyeTexture_Init env 0) as [ok0| |]; try discriminate H.
  cbn [bind] in H.
  destruct ok0; cbn [negb] in H.
  2:{ cbn [bind andb retry_signal] in *. destruct rc; [|discriminate H].
      apply Ok_inj in H. subst b. reflexivity. }
  destruct (EyeTexture_TextureChain env 0); cbn [negb bind andb] in H |- *.
  2:{ destruct rc; [|discriminate H]. apply Ok_inj in H. subst b. reflexivity. }
  destruct (EyeTexture_Init env 1) as [ok1| |]; try discriminate H.
  cbn [bind] in H.
  destruct ok1; cbn [negb] in H.
  2:{ cbn [bind andb retry_signal] in *. destruct rc; [|discriminate H].
      apply Ok_inj in H. subst b. reflexivity. }
  destruct (EyeTexture_TextureChain env 1); cbn [negb bind andb] in H |- *.
  2:{ destruct rc; [|discriminate H]. apply Ok_inj in H. subst b. reflexivity. }
  destruct (OVR_SUCCESS (r_ovr_CreateMirrorTexture env)) eqn:EM; cbn [negb] in H |- *.
  2:{ destruct rc; [|discriminate H]. apply Ok_inj in H. subst b. reflexivity. }
  apply bind_Ok_inv in H as ([l' s'] & H & Hb).
  apply Ok_inj in Hb. subst b. cbn [fst].
  apply dx_bind_Ok_inv in H as (sc & s1 & _ & H).
  apply dx_bind_Ok_inv in H as (u & s2 & _ & H).
  apply dx_bind_Ok_inv in H as (u' & s3 & _ & H).
  apply main_loop_signal in H; [exact H|exact EM].
Qed.

End MainLoopProofs.
(** ** The frame loop: what is queued, and what is returned *)

(** C1 (as the code has it).  In an iteration that renders a frame, the
    commands recorded for each eye, the ray dispatch among them, go to
    that eye's own command list, and each of the two lists is given to
    the queue at the end of its eye pass; the TLAS build goes to the
    [DrawContext_Final] list, which holds no ray dispatch and is given to
    the queue last, after both eye lists, and only when [ovr_EndFrame]
    succeeded.  No list holds both the build and a dispatch of the frame,
    and the build of a frame is queued after the dispatches of that
    frame. *)
Theorem C1_rebuild_on_final_list_after_dispatches :
  forall (dev : Device) (fi : FrameInput) (l : Locals) (s : DirectX12)
         (fr : SwapChainFrameResources) (r : Control * Locals) (s' : DirectX12),
    vec_at (PerFrameResources s) (SwapChainFrameIndex s) = Ok fr ->
    ShouldQuit (sessionStatus fi) = false ->
    IsVisible (sessionStatus fi) = true ->
    iteration dev fi l s = Ok (r, s') ->
    exists eyeL eyeR rest,
      submissions (Trace s')
      = submissions (Trace s)
        ++ [ (SwapChainFrameIndex s, DrawContext_EyeRenderLeft,
              ctx_get (CommandLists fr) DrawContext_EyeRenderLeft ++ eyeL);
             (SwapChainFrameIndex s, DrawContext_EyeRenderRight,
              ctx_get (CommandLists fr) DrawContext_EyeRenderRight ++ eyeR) ]
        ++ rest
      /\ existsb is_DispatchRays eyeL = true /\ existsb is_TLAS_build eyeL = false
      /\ existsb is_DispatchRays eyeR = true /\ existsb is_TLAS_build eyeR = false
      /\ if OVR_SUCCESS (r_EndFrame fi)
         then exists final,
                rest = [ (SwapChainFrameIndex s, DrawContext_Final,
                          ctx_get (CommandLists fr) DrawContext_Final ++ final) ]
                /\ existsb is_TLAS_build final = true
                /\ existsb is_DispatchRays final = false
         else rest = [].
Proof.
  intros dev fi l s fr r s' Hfr HQ HV H.
  apply at_slot_intro in Hfr as (pre & post & Es).
  pose proof (f_equal SwapChainFrameIndex Es) as Ei.
  rewrite SwapChainFrameIndex_at in Ei. rewrite Ei.
  rewrite Es in H. apply iteration_visible_inv in H; assumption.
Qed.

(** The first frame on [example_device]. *)
Lemma C1_witness :
  exists r s',
    iteration example_device (example_frame 0) example_locals example_ready
    = Ok (r, s')
    /\ exists eyeL eyeR rest,
         submissions (Trace s')
         = submissions (Trace example_ready)
           ++ [ (SwapChainFrameIndex example_ready, DrawContext_EyeRenderLeft,
                 ctx_get (CommandLists example_ready_slot) DrawContext_EyeRenderLeft
                 ++ eyeL);
                (SwapChainFrameIndex example_ready, DrawContext_EyeRenderRight,
                 ctx_get (CommandLists example_ready_slot) DrawContext_EyeRenderRight
                 ++ eyeR) ]
           ++ rest
         /\ existsb is_DispatchRays eyeL = true /\ existsb is_TLAS_build eyeL = false
         /\ existsb is_DispatchRays eyeR = true /\ existsb is_TLAS_build eyeR = false
         /\ if OVR_SUCCESS (r_EndFrame (example_frame 0))
            then exists final,
                   rest = [ (SwapChainFrameIndex example_ready, DrawContext_Final,
                             ctx_get (CommandLists example_ready_slot) DrawContext_Final
                             ++ final) ]
                   /\ existsb is_TLAS_build final = true
                   /\ existsb is_DispatchRays final = false
            else rest = [].
Proof.
  pose (X := match iteration example_device (example_frame 0) example_locals
                     example_ready with
             | Ok x => x
             | _ => (Break, example_locals, example_ready)
             end).
  assert (E : iteration example_device (example_frame 0) example_locals example_ready
              = Ok (fst X, snd X)) by (vm_compute; reflexivity).
  assert (F : vec_at (PerFrameResources example_ready)
                     (SwapChainFrameIndex example_ready)
              = Ok example_ready_slot) by (vm_compute; reflexivity).
  exists (fst X), (snd X). split; [exact E|].
  exact (C1_rebuild_on_final_list_after_dispatches example_device (example_frame 0)
           example_locals example_ready example_ready_slot (fst X) (snd X)
           F eq_refl eq_refl E).
Defined.

(** The first frame on [example_device]: three command lists are given
    to the queue, in this order: the list of the left eye and the list of
    the right eye, each with a ray dispatch and no TLAS build, and then
    the [DrawContext_Final] list with the TLAS build and no ray dispatch.
    The build and the dispatches are on different lists, and in the order
    of execution the first dispatch has no build before it. *)
Lemma C1_counterexample :
  match iteration example_device (example_frame 0) example_locals example_ready with
  | Ok (_, s') =>
      submission_summary (Trace s')
      = [ (DrawContext_EyeRenderLeft, false, true);
          (DrawContext_EyeRenderRight, false, true);
          (DrawContext_Final, true, false) ]
      /\ forallb (fun sub => negb (holds_rebuild_and_dispatch (snd sub)))
                 (submissions (Trace s')) = true
      /\ rebuild_precedes_dispatches false (executed (Trace s')) = false
  | _ => False
  end.
Proof. vm_compute. repeat split. Qed.

(** C8 (as the code has it).  When [MainLoop] returns, its value is
    [retryCreate || (result == ovrError_DisplayLost)] for the way it was
    left: [false] after a quit request; [true] after a frame submit that
    failed with [ovrError_DisplayLost]; the caller's [retryCreate] after a
    failed set-up step and, which is a further way out, when the window
    was closed; and after a frame submit that failed with another error,
    [retryCreate] again. *)
Theorem C8_retry_signal_by_exit_cause :
  forall (dev : Device) (retryCreate : bool) (env : Setup)
         (frames : list FrameInput) (b : bool),
    MainLoop dev retryCreate env frames = Ok b ->
    b = retry_signal retryCreate (exit_cause env frames)
    /\ (exit_cause env frames = QuitRequested -> b = false)
    /\ (exit_cause env frames = FrameSubmitFailed ovrError_DisplayLost -> b = true)
    /\ (exit_cause env frames = SetupFailed -> b = retryCreate)
    /\ (exit_cause env frames = WindowClosed -> b = retryCreate)
    /\ (forall r, exit_cause env frames = FrameSubmitFailed r ->
                  r <> ovrError_DisplayLost -> b = retryCreate).
Proof.
  intros dev rc env frames b H. apply MainLoop_signal in H.
  split; [exact H|].
  repeat split; intros; subst b.
  - rewrite H0. reflexivity.
  - rewrite H0. apply orb_true_r.
  - rewrite H0. reflexivity.
  - rewrite H0. reflexivity.
  - rewrite H0. cbn [retry_signal].
    apply Z.eqb_neq in H1. rewrite H1. apply orb_false_r.
Qed.

(** A rendered frame, then a quit request. *)
Lemma C8_witness :
  MainLoop example_device true example_setup [example_frame 0; example_quit_frame]
  = Ok false
  /\ exit_cause example_setup [example_frame 0; example_quit_frame] = QuitRequested.
Proof.
  assert (E : MainLoop example_device true example_setup
                [example_frame 0; example_quit_frame] = Ok false)
    by (vm_compute; reflexivity).
  split; [exact E|].
  pose proof (C8_retry_signal_by_exit_cause _ _ _ _ _ E) as [_ _].
  reflexivity.
Defined.

(** The loop asks for a retry without a lost display and with the set-up
    done: when the window was closed, and when a frame submit failed with
    another error ([ovrError_ServiceConnection] is -1006), as long as the
    caller passed [retryCreate = true], which [Run] always does. *)
Lemma C8_counterexample :
  (MainLoop example_device true example_setup [] = Ok true
   /\ exit_cause example_setup [] = WindowClosed)
  /\ (MainLoop example_device true example_setup [example_frame (-1006)] = Ok true
      /\ exit_cause example_setup [example_frame (-1006)] = FrameSubmitFailed (-1006)
      /\ -1006 <> ovrError_DisplayLost)
  /\ (MainLoop example_device false
        {| r_ovr_Create := -1; InitDevice := InitDevice example_setup;
           EyeTexture_Init := EyeTexture_Init example_setup;
           EyeTexture_TextureChain := EyeTexture_TextureChain example_setup;
           r_ovr_CreateMirrorTexture := 0;
           make_scene := make_scene example_setup;
           copy_textures := copy_textures example_setup |} []
      = Ok false).
Proof. vm_compute. repeat split; discriminate. Qed.
(** ** More of the descriptor handle allocator *)

Section HandleCalls.

Import DescHandle.

Lemma handle_above_0 p :
  0 <= NextAvailableCpuHandle p < 2 ^ 64 ->
  handle_above p 0 = NextAvailableCpuHandle p.
Proof.
  intros H. unfold handle_above, wrap64. rewrite Z.mul_0_l, Z.add_0_r.
  apply Z.mod_small. exact H.
Qed.

Lemma handle_above_bumped p k :
  handle_above (bumped p) k = handle_above p (k + 1).
Proof.
  unfold handle_above, bumped, Offset. cbn [NextAvailableCpuHandle IncrementSize].
  rewrite wrap64_add_l. f_equal. lia.
Qed.

Lemma run_handle_calls_app cs1 cs2 : forall p,
  run_handle_calls (cs1 ++ cs2) p
  = (r1 <- run_handle_calls cs1 p ;;
     r2 <- run_handle_calls cs2 (snd r1) ;;
     Ok (fst r1 ++ fst r2, snd r2)).
Proof.
  induction cs1 as [|c cs1 IH]; intros p.
  - cbn [app run_handle_calls bind fst snd].
    destruct (run_handle_calls cs2 p) as [[hs p']| |]; reflexivity.
  - destruct c as [|h]; cbn [app run_handle_calls].
    + destruct (AllocCpuHandle false p) as [r| |]; cbn [bind]; try reflexivity.
      rewrite IH.
      destruct (run_handle_calls cs1 (after r)) as [[hs1 p1]| |]; cbn [bind fst snd];
        try reflexivity.
      destruct (run_handle_calls cs2 p1) as [[hs2 p2]| |]; reflexivity.
    + apply IH.
Qed.

Lemma provider_ok_bumped p :
  provider_ok p -> CurrentHandleCount p < MaxHandleCount p ->
  provider_ok (bumped p) /\ CurrentHandleCount (bumped p) = CurrentHandleCount p + 1.
Proof.
  intros (Hc & Hm & Hn) Hlt. unfold provider_ok, bumped, Offset.
  cbn [CurrentHandleCount MaxHandleCount NextAvailableCpuHandle].
  rewrite wrap32_small by lia. repeat split; try lia; apply wrap64_range.
Qed.

(** One allocation: from the back of the free list, or the handle at the
    watermark, which then moves up by one. *)
Lemma AllocCpuHandle_cases w p r :
  AllocCpuHandle w p = Ok r ->
  (exists l, FreeHandles p = l ++ [newHandle r] /\ after r = with_free p l)
  \/ (FreeHandles p = [] /\ CurrentHandleCount p < MaxHandleCount p
      /\ newHandle r = NextAvailableCpuHandle p /\ after r = bumped p).
Proof.
  intros H. destruct (FreeHandles p) as [|h0 l0] eqn:E using rev_ind.
  - right. destruct (Z.lt_ge_cases (CurrentHandleCount p) (MaxHandleCount p)) as [Hlt|Hge].
    + rewrite (alloc_empty_bump w p E Hlt) in H. apply Ok_inj in H. subst r.
      repeat split; assumption || reflexivity.
    + rewrite (alloc_empty_full w p E Hge) in H. discriminate H.
  - left. rewrite (alloc_from_free_list w p l0 h0 E) in H.
    apply Ok_inj in H. subst r. exists l0. split; reflexivity.
Qed.

Lemma allocations_cons_alloc cs :
  allocations (CallAllocCpuHandle :: cs) = allocations cs + 1.
Proof. unfold allocations. cbn [List.filter is_alloc length]. lia. Qed.

Lemma allocations_cons_free h cs :
  allocations (CallFreeCpuHandle h :: cs) = allocations cs.
Proof. reflexivity. Qed.

(** What every run of calls keeps. *)
Lemma run_handle_calls_inv cs : forall p hs p',
  run_handle_calls cs p = Ok (hs, p') ->
  provider_ok p ->
  provider_ok p'
  /\ MaxHandleCount p' = MaxHandleCount p
  /\ IncrementSize p' = IncrementSize p
  /\ 0 <= bumps p p'
  /\ NextAvailableCpuHandle p' = handle_above p (bumps p p')
  /\ Z.of_nat (length hs) = allocations cs
  /\ Z.of_nat (length (FreeHandles p')) + allocations cs
     = Z.of_nat (length (FreeHandles p)) + frees cs + bumps p p'
  /\ (forall h, In h (FreeHandles p') -> In h (FreeHandles p ++ freed_handles cs))
  /\ Forall (fun h => In h (FreeHandles p ++ freed_handles cs)
                      \/ exists k, 0 <= k < bumps p p' /\ h = handle_above p k) hs.
Proof.
  induction cs as [|c cs IH]; intros p hs p' H Hok.
  - apply Ok_inj in H. injection H as <- <-. unfold bumps, allocations, frees.
    cbn [freed_handles List.filter length]. rewrite Z.sub_diag, app_nil_r.
    split; [exact Hok|]. split; [reflexivity|]. split; [reflexivity|].
    split; [lia|]. split; [symmetry; apply handle_above_0, Hok|].
    split; [reflexivity|]. split; [lia|]. split; [auto|constructor].
  - destruct c as [|h0]; cbn [run_handle_calls] in H.
    + apply bind_Ok_inv in H as (r & Hr & H).
      apply bind_Ok_inv in H as ([hs1 p1] & Hrest & H).
      apply Ok_inj in H. injection H as <- <-. cbn [fst snd].
      rewrite allocations_cons_alloc. cbn [freed_handles].
      apply AllocCpuHandle_cases in Hr
        as [(l & El & Ea)|(El & Hlt & Eh & Ea)]; rewrite Ea in Hrest.
      * assert (Hok1 : provider_ok (with_free p l)) by exact Hok.
        destruct (IH _ _ _ Hrest Hok1) as (K1 & K2 & K3 & K4 & K5 & K6 & K7 & K8 & K9).
        clear IH. unfold bumps, frees in *. cbn [freed_handles].
        cbn [with_free CurrentHandleCount FreeHandles] in K4, K5, K7, K8, K9.
        rewrite El. rewrite length_app. cbn [length].
        split; [exact K1|]. split; [exact K2|]. split; [exact K3|].
        split; [exact K4|]. split; [exact K5|]. split; [lia|]. split; [lia|].
        split.
        -- intros h Hh. apply K8 in Hh. rewrite in_app_iff in *.
           destruct Hh as [Hh|Hh]; [left; apply in_app_iff; left; exact Hh|right; exact Hh].
        -- constructor.
           ++ left. rewrite in_app_iff. left. apply in_app_iff. right. left. reflexivity.
           ++ eapply Forall_impl; [exact K9|]. cbn beta. intros h [Hh|Hh].
              ** left. rewrite in_app_iff in *.
                 destruct Hh as [Hh|Hh];
                   [left; apply in_app_iff; left; exact Hh|right; exact Hh].
              ** right. exact Hh.
      * destruct (provider_ok_bumped p Hok Hlt) as [Hok1 Ec].
        destruct (IH _ _ _ Hrest Hok1) as (K1 & K2 & K3 & K4 & K5 & K6 & K7 & K8 & K9).
        clear IH. unfold bumps, frees in *. cbn [freed_handles]. rewrite Ec in K4, K5, K7, K9.
        cbn [bumped MaxHandleCount IncrementSize FreeHandles] in K2, K3, K7, K8, K9.
        rewrite handle_above_bumped in K5.
        rewrite El in K7, K8, K9 |- *. cbn [length app] in K7, K8, K9 |- *.
        split; [exact K1|]. split; [exact K2|]. split; [exact K3|].
        split; [lia|]. split; [rewrite K5; f_equal; lia|]. split; [lia|].
        split; [lia|]. split; [exact K8|].
        constructor.
        -- right. exists 0. split; [lia|]. rewrite Eh. symmetry.
           apply handle_above_0. apply Hok.
        -- eapply Forall_impl; [exact K9|]. cbn beta. intros h [Hh|(k & Hk & Hh)].
           ++ left. exact Hh.
           ++ right. exists (k + 1). split; [lia|].
              rewrite Hh. apply handle_above_bumped.
    + rewrite allocations_cons_free. cbn [freed_handles].
      assert (Hok1 : provider_ok (FreeCpuHandle h0 p)) by exact Hok.
      destruct (IH _ _ _ H Hok1) as (K1 & K2 & K3 & K4 & K5 & K6 & K7 & K8 & K9).
      clear IH. unfold bumps, frees in *. cbn [freed_handles].
      cbn [FreeCpuHandle CurrentHandleCount FreeHandles] in K4, K5, K7, K8, K9.
      rewrite length_app in K7. cbn [length] in K7 |- *.
      split; [exact K1|]. split; [exact K2|]. split; [exact K3|].
      split; [exact K4|]. split; [exact K5|]. split; [exact K6|]. split; [lia|].
      split.
      * intros h Hh. apply K8 in Hh. rewrite <- app_assoc in Hh. exact Hh.
      * eapply Forall_impl; [exact K9|]. cbn beta. intros h [Hh|Hh].
        -- left. rewrite <- app_assoc in Hh. exact Hh.
        -- right. exact Hh.
Qed.

Lemma handle_above_exact p k :
  0 <= NextAvailableCpuHandle p ->
  0 <= IncrementSize p <= INT_MAX ->
  0 <= k ->
  NextAvailableCpuHandle p + k * IncrementSize p < 2 ^ 64 ->
  handle_above p k = NextAvailableCpuHandle p + k * IncrementSize p.
Proof.
  intros Hn Hi Hk Hlt. unfold handle_above, to_INT, INT_MAX in *.
  rewrite (wrap32_small (IncrementSize p)) by lia.
  destruct (Z.ltb_spec (IncrementSize p) (2 ^ 31)); [|lia].
  unfold wrap64. apply Z.mod_small. nia.
Qed.

(** Allocations over an empty free list walk up from the watermark. *)
Lemma bump_run (n : nat) : forall p,
  FreeHandles p = [] ->
  provider_ok p ->
  CurrentHandleCount p + Z.of_nat n <= MaxHandleCount p ->
  exists p',
    run_handle_calls (replicate n CallAllocCpuHandle) p
    = Ok (map (fun j => handle_above p (Z.of_nat j)) (seq 0 n), p')
    /\ FreeHandles p' = []
    /\ CurrentHandleCount p' = CurrentHandleCount p + Z.of_nat n
    /\ NextAvailableCpuHandle p' = handle_above p (Z.of_nat n).
Proof.
  induction n as [|n IH]; intros p Ef Hok Hroom.
  - exists p. cbn [replicate run_handle_calls seq map]. repeat split; try lia.
    + exact Ef.
    + symmetry. apply handle_above_0, Hok.
  - assert (Hlt : CurrentHandleCount p < MaxHandleCount p) by lia.
    destruct (provider_ok_bumped p Hok Hlt) as [Hok1 Ec].
    destruct (IH (bumped p)) as (p' & Er & Ef' & Ec' & En'); try assumption.
    { rewrite Ec. change (MaxHandleCount (bumped p)) with (MaxHandleCount p). lia. }
    exists p'. cbn [replicate run_handle_calls].
    rewrite (alloc_empty_bump false p Ef Hlt). cbn [bind after newHandle].
    rewrite Er. cbn [bind fst snd seq map].
    split; [|split; [exact Ef'|split; [rewrite Ec', Ec; lia|]]].
    + f_equal. f_equal. f_equal.
      * symmetry. apply handle_above_0, Hok.
      * rewrite <- seq_shift, map_map. apply map_ext. intros j.
        rewrite handle_above_bumped. f_equal. lia.
    + rewrite En', handle_above_bumped. f_equal. lia.
Qed.

(** What is on the free list comes back in reverse order. *)
Lemma pop_run hs : forall p l,
  FreeHandles p = l ++ hs ->
  run_handle_calls (replicate (length hs) CallAllocCpuHandle) p
  = Ok (rev hs, with_free p l).
Proof.
  induction hs as [|h hs IH] using rev_ind; intros p l E.
  - cbn [length replicate run_handle_calls rev]. rewrite app_nil_r in E.
    rewrite <- E, with_free_same. reflexivity.
  - rewrite length_app, Nat.add_comm. cbn [length Nat.add replicate run_handle_calls].
    rewrite app_assoc in E.
    rewrite (alloc_from_free_list false p (l ++ hs) h E). cbn [bind after newHandle].
    rewrite (IH (with_free p (l ++ hs)) l) by reflexivity.
    cbn [bind fst snd]. rewrite rev_unit. reflexivity.
Qed.

Lemma run_frees hs : forall p,
  run_handle_calls (map CallFreeCpuHandle hs) p
  = Ok ([], with_free p (FreeHandles p ++ hs)).
Proof.
  induction hs as [|h hs IH]; intros p.
  - cbn [map run_handle_calls]. rewrite app_nil_r, with_free_same. reflexivity.
  - cbn [map run_handle_calls]. rewrite IH. unfold with_free, FreeCpuHandle.
    cbn [FreeHandles NextAvailableCpuHandle IncrementSize CurrentHandleCount
         MaxHandleCount].
    rewrite <- app_assoc. reflexivity.
Qed.

End HandleCalls.

(** X1.  Whatever calls are made on a provider whose watermark is within
    its capacity, and in whatever order, the watermark stays within the
    capacity, the capacity and the increment do not change, and the
    handles are accounted for: the free list grows by the frees and
    shrinks by the allocations that did not move the watermark. *)
Theorem X1_watermark_stays_within_capacity :
  forall (cs : list HandleCall) (p p' : DescHandle.DescHandleProvider) (hs : list Z),
    provider_ok p ->
    run_handle_calls cs p = Ok (hs, p') ->
    provider_ok p'
    /\ DescHandle.MaxHandleCount p' = DescHandle.MaxHandleCount p
    /\ DescHandle.IncrementSize p' = DescHandle.IncrementSize p
    /\ 0 <= bumps p p'
    /\ Z.of_nat (length hs) = allocations cs
    /\ Z.of_nat (length (DescHandle.FreeHandles p')) + allocations cs
       = Z.of_nat (length (DescHandle.FreeHandles p)) + frees cs + bumps p p'.
Proof.
  intros cs p p' hs Hok H.
  destruct (run_handle_calls_inv cs p hs p' H Hok)
    as (K1 & K2 & K3 & K4 & K5 & K6 & K7 & K8 & K9).
  repeat split; assumption || apply K1.
Qed.

(** [example_handle_calls] on [example_provider]: the handles 1000, 77
    and 1008 are returned and the watermark moves by two. *)
Lemma X1_witness :
  run_handle_calls example_handle_calls example_provider
  = Ok ([1000; 77; 1008], DescHandle.mkProvider 1016 8 2 2 [])
  /\ (provider_ok (DescHandle.mkProvider 1016 8 2 2 [])
      /\ DescHandle.MaxHandleCount (DescHandle.mkProvider 1016 8 2 2 [])
         = DescHandle.MaxHandleCount example_provider
      /\ DescHandle.IncrementSize (DescHandle.mkProvider 1016 8 2 2 [])
         = DescHandle.IncrementSize example_provider
      /\ 0 <= bumps example_provider (DescHandle.mkProvider 1016 8 2 2 [])
      /\ Z.of_nat (length [1000; 77; 1008]) = allocations example_handle_calls
      /\ Z.of_nat (length (DescHandle.FreeHandles (DescHandle.mkProvider 1016 8 2 2 [])))
         + allocations example_handle_calls
         = Z.of_nat (length (DescHandle.FreeHandles example_provider))
           + frees example_handle_calls
           + bumps example_provider (DescHandle.mkProvider 1016 8 2 2 [])).
Proof.
  assert (Hok : provider_ok example_provider) by (unfold provider_ok; cbn; lia).
  assert (E : run_handle_calls example_handle_calls example_provider
              = Ok ([1000; 77; 1008], DescHandle.mkProvider 1016 8 2 2 []))
    by reflexivity.
  split; [exact E|].
  exact (X1_watermark_stays_within_capacity _ _ _ _ Hok E).
Defined.

(** X2.  An allocation never invents a handle: every handle returned in
    a run of calls was on the free list at the start, or was freed by a
    call of the run, or is one of the handles that the watermark passed,
    [NextAvailableCpuHandle + k * IncrementSize] for [k] below the number
    of bumps; and the watermark ends that many handles further up. *)
Theorem X2_handles_come_from_free_list_or_watermark :
  forall (cs : list HandleCall) (p p' : DescHandle.DescHandleProvider) (hs : list Z),
    provider_ok p ->
    run_handle_calls cs p = Ok (hs, p') ->
    Forall (fun h => In h (DescHandle.FreeHandles p ++ freed_handles cs)
                     \/ exists k, 0 <= k < bumps p p' /\ h = handle_above p k) hs
    /\ (forall h, In h (DescHandle.FreeHandles p') ->
                  In h (DescHandle.FreeHandles p ++ freed_handles cs))
    /\ DescHandle.NextAvailableCpuHandle p' = handle_above p (bumps p p').
Proof.
  intros cs p p' hs Hok H.
  destruct (run_handle_calls_inv cs p hs p' H Hok)
    as (K1 & K2 & K3 & K4 & K5 & K6 & K7 & K8 & K9).
  repeat split; assumption.
Qed.

(** In the run of [X1_witness], 77 was freed by the run and 1000 and 1008
    are the two handles that the watermark passed. *)
Lemma X2_witness :
  Forall (fun h => In h (DescHandle.FreeHandles example_provider
                         ++ freed_handles example_handle_calls)
                   \/ exists k,
                        0 <= k < bumps example_provider
                                   (DescHandle.mkProvider 1016 8 2 2 [])
                        /\ h = handle_above example_provider k)
         [1000; 77; 1008].
Proof.
  assert (Hok : provider_ok example_provider) by (unfold provider_ok; cbn; lia).
  assert (E : run_handle_calls example_handle_calls example_provider
              = Ok ([1000; 77; 1008], DescHandle.mkProvider 1016 8 2 2 []))
    by reflexivity.
  exact (proj1 (X2_handles_come_from_free_list_or_watermark _ _ _ _ Hok E)).
Defined.

(** X3.  With an empty free list and room for [n] more handles, [n]
    allocations in a row return, in this order, the handles
    [NextAvailableCpuHandle + j * (INT)IncrementSize] modulo [2^64] for
    [j = 0 .. n-1] ([Offset] takes the increment as an [INT]), raise the
    handle count by [n], move the watermark to the handle for [j = n] and
    leave the free list empty.  For an increment up to [INT_MAX] that
    does not take the handles beyond 64 bits these are
    [NextAvailableCpuHandle + j * IncrementSize]; for an increment from
    [2^31] up to [2^32] the handles go down, by [2^32 - IncrementSize]
    each. *)
Theorem X3_fresh_handles_are_spaced :
  forall (n : nat) (p : DescHandle.DescHandleProvider),
    DescHandle.FreeHandles p = [] ->
    provider_ok p ->
    DescHandle.CurrentHandleCount p + Z.of_nat n <= DescHandle.MaxHandleCount p ->
    let handle (j : nat) :=
      wrap64 (DescHandle.NextAvailableCpuHandle p
              + Z.of_nat j * to_INT (DescHandle.IncrementSize p)) in
    (exists p',
        run_handle_calls (replicate n CallAllocCpuHandle) p
        = Ok (map handle (seq 0 n), p')
        /\ DescHandle.FreeHandles p' = []
        /\ DescHandle.CurrentHandleCount p'
           = DescHandle.CurrentHandleCount p + Z.of_nat n
        /\ DescHandle.NextAvailableCpuHandle p' = handle n)
    /\ (0 <= DescHandle.IncrementSize p <= INT_MAX ->
        forall j : nat,
          DescHandle.NextAvailableCpuHandle p
          + Z.of_nat j * DescHandle.IncrementSize p < 2 ^ 64 ->
          handle j
          = DescHandle.NextAvailableCpuHandle p
            + Z.of_nat j * DescHandle.IncrementSize p)
    /\ (2 ^ 31 <= DescHandle.IncrementSize p < 2 ^ 32 ->
        forall j : nat,
          handle j
          = (DescHandle.NextAvailableCpuHandle p
             - Z.of_nat j * (2 ^ 32 - DescHandle.IncrementSize p)) mod 2 ^ 64).
Proof.
  intros n p Ef Hok Hroom handle. split; [|split].
  - destruct (bump_run n p Ef Hok Hroom) as (p' & Er & Ef' & Ec & En).
    exists p'. split; [exact Er|]. split; [exact Ef'|]. split; [exact Ec|exact En].
  - intros Hi j Hj. apply handle_above_exact; try lia; try apply Hok.
  - intros Hi j. unfold handle, to_INT. cbv zeta.
    rewrite (wrap32_small (DescHandle.IncrementSize p)) by lia.
    destruct (Z.ltb_spec (DescHandle.IncrementSize p) (2 ^ 31)); [lia|].
    unfold wrap64. f_equal. lia.
Qed.

(** An increment that fits an [INT], and one that does not: with
    [IncrementSize = 2^32 - 8] the second handle lies 8 below the first. *)
Lemma X3_witness :
  (exists p',
      run_handle_calls (replicate 3 CallAllocCpuHandle) (DescHandle.init 4096 32 3)
      = Ok ([4096; 4128; 4160], p')
      /\ DescHandle.FreeHandles p' = []
      /\ DescHandle.CurrentHandleCount p' = 3
      /\ DescHandle.NextAvailableCpuHandle p' = 4192)
  /\ (exists p',
        run_handle_calls (replicate 2 CallAllocCpuHandle)
          (DescHandle.init 1000 (2 ^ 32 - 8) 2)
        = Ok ([1000; 992], p')
        /\ DescHandle.NextAvailableCpuHandle p' = 984).
Proof.
  split.
  - apply (X3_fresh_handles_are_spaced 3 (DescHandle.init 4096 32 3)).
    + reflexivity.
    + unfold provider_ok. cbn. lia.
    + cbn. lia.
  - destruct (X3_fresh_handles_are_spaced 2 (DescHandle.init 1000 (2 ^ 32 - 8) 2))
      as ((p' & Er & _ & _ & En) & _).
    + reflexivity.
    + unfold provider_ok. cbn. lia.
    + cbn. lia.
    + exists p'. split; [exact Er|exact En].
Defined.

(** X4.  The free list is a stack: after any handles are freed, as many
    allocations return them in reverse order of the frees and leave the
    provider as it was before, whatever its counters are. *)
Theorem X4_free_list_is_a_stack :
  forall (hs : list Z) (p : DescHandle.DescHandleProvider),
    run_handle_calls
      (map CallFreeCpuHandle hs ++ replicate (length hs) CallAllocCpuHandle) p
    = Ok (rev hs, p).
Proof.
  intros hs p. rewrite run_handle_calls_app, run_frees. cbn [bind fst snd].
  rewrite (pop_run hs _ (DescHandle.FreeHandles p)) by reflexivity.
  cbn [bind fst snd app]. f_equal. f_equal.
  destruct p; reflexivity.
Qed.

Lemma GpuHandleFromCpuHandle_offset heap offset :
  0 <= CPUDescriptorHandleForHeapStart heap ->
  CPUDescriptorHandleForHeapStart heap + offset < 2 ^ 64 ->
  0 <= GPUDescriptorHandleForHeapStart heap ->
  GPUDescriptorHandleForHeapStart heap + offset < 2 ^ 64 ->
  0 <= offset <= INT_MAX ->
  GpuHandleFromCpuHandle heap (CPUDescriptorHandleForHeapStart heap + offset)
  = GPUDescriptorHandleForHeapStart heap + offset.
Proof.
  intros Hc Hc' Hg Hg' Ho. unfold GpuHandleFromCpuHandle, INT_MAX in *. cbv zeta.
  replace (CPUDescriptorHandleForHeapStart heap + offset
           - CPUDescriptorHandleForHeapStart heap) with offset by lia.
  assert (E : wrap64 offset = offset) by (apply Z.mod_small; lia).
  rewrite E. unfold to_INT. cbv zeta. rewrite wrap32_small by lia.
  destruct (Z.ltb_spec offset (2 ^ 31)); [|lia].
  apply Z.mod_small. lia.
Qed.

(** X5.  The GPU handle of a descriptor lies as far above the GPU start
    of the heap as its CPU handle lies above the CPU start, as long as
    that offset fits an [int]; an offset from 2^31 up to 2^32 is taken
    for a negative [int], and the GPU handle comes out 2^32 too low. *)
Theorem X5_gpu_handle_keeps_offset :
  forall (heap : DescriptorHeap) (offset : Z),
    0 <= CPUDescriptorHandleForHeapStart heap ->
    CPUDescriptorHandleForHeapStart heap + offset < 2 ^ 64 ->
    0 <= GPUDescriptorHandleForHeapStart heap ->
    GPUDescriptorHandleForHeapStart heap + offset < 2 ^ 64 ->
    (0 <= offset <= INT_MAX ->
     GpuHandleFromCpuHandle heap (CPUDescriptorHandleForHeapStart heap + offset)
     = GPUDescriptorHandleForHeapStart heap + offset)
    /\ (2 ^ 31 <= offset < 2 ^ 32 ->
        2 ^ 32 <= GPUDescriptorHandleForHeapStart heap + offset ->
        GpuHandleFromCpuHandle heap (CPUDescriptorHandleForHeapStart heap + offset)
        = GPUDescriptorHandleForHeapStart heap + offset - 2 ^ 32).
Proof.
  intros heap offset Hc Hc' Hg Hg'. unfold GpuHandleFromCpuHandle, INT_MAX.
  cbv zeta.
  replace (CPUDescriptorHandleForHeapStart heap + offset
           - CPUDescriptorHandleForHeapStart heap) with offset by lia.
  split; intros Ho.
  - assert (E : wrap64 offset = offset) by (apply Z.mod_small; lia).
    rewrite E. unfold to_INT. cbv zeta. rewrite wrap32_small by lia.
    destruct (Z.ltb_spec offset (2 ^ 31)); [|lia].
    apply Z.mod_small. lia.
  - intros Hbig.
    assert (E : wrap64 offset = offset) by (apply Z.mod_small; lia).
    rewrite E. unfold to_INT. cbv zeta. rewrite wrap32_small by lia.
    destruct (Z.ltb_spec offset (2 ^ 31)); [lia|].
    unfold wrap64. rewrite Z.mod_small by lia. lia.
Qed.

Lemma X5_witness :
  GpuHandleFromCpuHandle (mkHeap 0x1000 0x80000000) (0x1000 + 96) = 0x80000000 + 96
  /\ GpuHandleFromCpuHandle (mkHeap 0x1000 0x200000000) (0x1000 + 2 ^ 31)
     = 0x200000000 + 2 ^ 31 - 2 ^ 32.
Proof.
  split.
  - apply (X5_gpu_handle_keeps_offset (mkHeap 0x1000 0x80000000) 96);
      unfold INT_MAX; cbn; lia.
  - apply (X5_gpu_handle_keeps_offset (mkHeap 0x1000 0x200000000) (2 ^ 31));
      cbn; lia.
Defined.
(** ** More of the OBJ import *)

Lemma float_eq_sym a b : float_eq a b = float_eq b a.
Proof.
  unfold float_eq. rewrite (Z.eqb_sym a b).
  destruct (float_is_nan a), (float_is_nan b), (b =? a),
    (float_is_zero a), (float_is_zero b); reflexivity.
Qed.

Lemma float_eq_trans a b c :
  float_eq a b = true -> float_eq b c = true -> float_eq a c = true.
Proof.
  unfold float_eq. intros H1 H2.
  destruct (float_is_nan a), (float_is_nan b), (float_is_nan c);
    try discriminate; cbn [negb andb] in *.
  apply orb_true_iff in H1, H2. apply orb_true_iff.
  destruct H1 as [E1|Z1], H2 as [E2|Z2].
  - left. apply Z.eqb_eq in E1, E2. apply Z.eqb_eq. congruence.
  - right. apply Z.eqb_eq in E1. subst b. exact Z2.
  - right. apply Z.eqb_eq in E2. subst c. exact Z1.
  - right. apply andb_true_iff in Z1 as [Ha _]. apply andb_true_iff in Z2 as [_ Hc].
    rewrite Ha, Hc. reflexivity.
Qed.

Lemma float_eq_refl_l a b : float_eq a b = true -> float_eq a a = true.
Proof.
  intros H. apply (float_eq_trans a b a); [exact H|].
  rewrite float_eq_sym. exact H.
Qed.

Ltac vertex_split H :=
  unfold Vertex_eq in H;
  repeat match type of H with
         | _ && _ = true => let H' := fresh "Hf" in apply andb_true_iff in H as [H H']
         end.

Lemma Vertex_eq_sym a b : Vertex_eq a b = Vertex_eq b a.
Proof.
  unfold Vertex_eq.
  rewrite (float_eq_sym (f3_x (position a))), (float_eq_sym (f3_y (position a))),
    (float_eq_sym (f3_z (position a))), (float_eq_sym (f3_x (normal a))),
    (float_eq_sym (f3_y (normal a))), (float_eq_sym (f3_z (normal a))),
    (float_eq_sym (f2_x (uv a))), (float_eq_sym (f2_y (uv a))).
  reflexivity.
Qed.

Lemma Vertex_eq_trans a b c :
  Vertex_eq a b = true -> Vertex_eq b c = true -> Vertex_eq a c = true.
Proof.
  intros H1 H2. vertex_split H1. vertex_split H2. unfold Vertex_eq.
  repeat match goal with
         | |- _ && _ = true => apply andb_true_iff; split
         end;
    eapply float_eq_trans; eassumption.
Qed.

Lemma Vertex_eq_refl_l a b : Vertex_eq a b = true -> Vertex_eq a a = true.
Proof.
  intros H. apply (Vertex_eq_trans a b a); [exact H|].
  rewrite Vertex_eq_sym. exact H.
Qed.

Lemma Vertex_eq_refl_r a b : Vertex_eq a b = true -> Vertex_eq b b = true.
Proof. rewrite Vertex_eq_sym. apply Vertex_eq_refl_l. Qed.

Lemma map_find_None m v :
  map_find m v = None <-> forall k x, (k, x) ∈ m -> Vertex_eq k v = false.
Proof.
  unfold map_find. split.
  - destruct (find _ m) as [kv|] eqn:E; [discriminate|]. intros _ k x Hin.
    apply list_elem_of_In in Hin.
    apply (find_none _ _ E) in Hin. exact Hin.
  - intros H. destruct (find _ m) as [[k x]|] eqn:E; [|reflexivity].
    apply find_some in E as [Hin Heq]. apply list_elem_of_In in Hin.
    cbn [fst] in Heq. rewrite (H _ _ Hin) in Heq. discriminate Heq.
Qed.

Lemma map_find_Some_key m v x :
  map_find m v = Some x -> exists k, (k, x) ∈ m /\ Vertex_eq k v = true.
Proof.
  unfold map_find. destruct (find _ m) as [[k y]|] eqn:E; [|discriminate].
  intros H. injection H as <-. apply find_some in E as [Hin Heq].
  exists k. split; [apply list_elem_of_In; exact Hin|exact Heq].
Qed.

Lemma map_find_app_Some m m' v x :
  map_find m v = Some x -> map_find (m ++ m') v = Some x.
Proof.
  unfold map_find. induction m as [|[k y] m IH]; [discriminate|].
  cbn [app find fst]. destruct (Vertex_eq k v); [auto|exact IH].
Qed.

Lemma map_find_snoc_eq m v x :
  map_find m v = None -> Vertex_eq v v = true -> map_find (m ++ [(v, x)]) v = Some x.
Proof.
  unfold map_find. induction m as [|[k y] m IH]; cbn [app find fst snd].
  - intros _ ->. reflexivity.
  - destruct (Vertex_eq k v); [discriminate|exact IH].
Qed.

Lemma map_find_snoc_ne m v x u :
  map_find m u = None -> Vertex_eq v u = false -> map_find (m ++ [(v, x)]) u = None.
Proof.
  unfold map_find. induction m as [|[k y] m IH]; cbn [app find fst snd].
  - intros _ ->. reflexivity.
  - destruct (Vertex_eq k u); [discriminate|exact IH].
Qed.

(** A vertex that does not equal itself equals no key. *)
Lemma map_find_irreflexive m v : Vertex_eq v v = false -> map_find m v = None.
Proof.
  intros H. apply map_find_None. intros k x _.
  destruct (Vertex_eq k v) eqn:E; [|reflexivity].
  apply Vertex_eq_refl_r in E. congruence.
Qed.

(** The three ways through the body of the import loop: a vertex that
    equals no key and equals itself, one that does not equal itself, and
    one that equals a key. *)
Lemma obj_step_cases attrib st index st' :
  obj_step attrib st index = Ok st' ->
  exists v,
    obj_vertex attrib index = Ok v
    /\ ((map_find (uniqueVertices st) v = None /\ Vertex_eq v v = true
         /\ st' = {| uniqueVertices :=
                       uniqueVertices st
                       ++ [(v, UINT_of_size (length (obj_vertices st)))];
                     obj_vertices := obj_vertices st ++ [v];
                     obj_indices :=
                       obj_indices st ++ [UINT_of_size (length (obj_vertices st))] |})
        \/ (Vertex_eq v v = false
            /\ st' = {| uniqueVertices :=
                          (uniqueVertices st
                           ++ [(v, UINT_of_size (length (obj_vertices st)))])
                          ++ [(v, 0)];
                        obj_vertices := obj_vertices st ++ [v];
                        obj_indices := obj_indices st ++ [0] |})
        \/ (exists x, map_find (uniqueVertices st) v = Some x
                      /\ st' = {| uniqueVertices := uniqueVertices st;
                                  obj_vertices := obj_vertices st;
                                  obj_indices := obj_indices st ++ [x] |})).
Proof.
  unfold obj_step. intros H. apply bind_Ok_inv in H as (v & Hv & H).
  exists v. split; [exact Hv|].
  destruct (map_count (uniqueVertices st) v =? 0) eqn:Ec.
  - apply map_count_zero in Ec. unfold map_assign in H. rewrite Ec in H.
    cbn [uniqueVertices obj_vertices obj_indices] in H.
    unfold map_subscript in H.
    destruct (Vertex_eq v v) eqn:Er.
    + rewrite (map_find_snoc_eq _ _ _ Ec Er) in H. apply Ok_inj in H.
      left. repeat split; [exact Ec|]. symmetry. exact H.
    + rewrite (map_find_irreflexive _ _ Er) in H. apply Ok_inj in H.
      right. left. split; [reflexivity|]. symmetry. exact H.
  - apply map_count_nonzero in Ec as [x Ef].
    unfold map_subscript in H. rewrite Ef in H. apply Ok_inj in H.
    right. right. exists x. split; [exact Ef|]. symmetry. exact H.
Qed.

Lemma leads_back_to_app vs vs' x v :
  leads_back_to vs x v -> leads_back_to (vs ++ vs') x v.
Proof.
  intros (w & Hx & Hw & He). exists w. split; [exact Hx|]. split; [|exact He].
  apply lookup_app_l_Some. exact Hw.
Qed.

Lemma pairwise_distinct_snoc vs v :
  pairwise_distinct vs ->
  (forall a, a ∈ vs -> Vertex_eq a v = false) ->
  pairwise_distinct (vs ++ [v]).
Proof.
  intros Hd Hv i j a b Hij Ha Hb.
  destruct (Nat.lt_ge_cases j (length vs)) as [Hj|Hj].
  - rewrite lookup_app_l in Ha by lia. rewrite lookup_app_l in Hb by lia.
    exact (Hd i j a b Hij Ha Hb).
  - rewrite lookup_app_r in Hb by lia.
    destruct (j - length vs)%nat as [|n] eqn:En; [|discriminate Hb].
    injection Hb as <-. rewrite lookup_app_l in Ha by lia.
    apply Hv. eapply list_elem_of_lookup_2. exact Ha.
Qed.

(** The body of the import loop keeps [obj_dedup_inv] and records an
    index that leads back to the vertex of the corner. *)
Lemma obj_step_dedup attrib st index st' :
  obj_step attrib st index = Ok st' ->
  Z.of_nat (length (obj_vertices st')) < 2 ^ 32 ->
  obj_dedup_inv st ->
  obj_dedup_inv st'
  /\ obj_vertices st `prefix_of` obj_vertices st'
  /\ exists v x,
       obj_vertex attrib index = Ok v
       /\ obj_indices st' = obj_indices st ++ [x]
       /\ (Vertex_eq v v = true -> leads_back_to (obj_vertices st') x v).
Proof.
  intros H Hsize [Hk Hv Hd].
  apply obj_step_cases in H as (v & Ev & [(Ef & Er & ->)|[(Er & ->)|(x & Ef & ->)]]);
    cbn [uniqueVertices obj_vertices obj_indices] in *.
  - (* a new vertex that equals itself *)
    rewrite length_app in Hsize. cbn [length] in Hsize.
    rewrite UINT_of_size_small by lia.
    assert (Hnew : leads_back_to (obj_vertices st ++ [v])
                     (Z.of_nat (length (obj_vertices st))) v).
    { exists v. split; [lia|]. split; [|exact Er].
      rewrite Nat2Z.id. rewrite lookup_app_r by lia.
      rewrite Nat.sub_diag. reflexivity. }
    split; [split|split].
    + intros k x Hin Hkk. apply elem_of_app in Hin as [Hin|Hin].
      * apply leads_back_to_app. apply Hk; assumption.
      * apply list_elem_of_singleton in Hin. injection Hin as -> ->. exact Hnew.
    + intros w Hin Hww. apply elem_of_app in Hin as [Hin|Hin].
      * destruct (Hv _ Hin Hww) as [x Hx]. exists x.
        apply map_find_app_Some. exact Hx.
      * apply list_elem_of_singleton in Hin. subst w.
        eexists. apply map_find_snoc_eq; assumption.
    + apply pairwise_distinct_snoc; [exact Hd|]. intros a Hin.
      destruct (Vertex_eq a v) eqn:Ea; [|reflexivity]. exfalso.
      destruct (Hv _ Hin (Vertex_eq_refl_l _ _ Ea)) as [x Hx].
      apply map_find_Some_key in Hx as (k & Hkin & Hka).
      pose proof (proj1 (map_find_None _ _) Ef k x Hkin) as Hkv.
      rewrite (Vertex_eq_trans _ _ _ Hka Ea) in Hkv. discriminate Hkv.
    + apply prefix_app_r. reflexivity.
    + exists v, (Z.of_nat (length (obj_vertices st))).
      split; [exact Ev|]. split; [reflexivity|]. intros _. exact Hnew.
  - (* a vertex that does not equal itself *)
    assert (Hnone : forall a, Vertex_eq a v = false).
    { intros a. destruct (Vertex_eq a v) eqn:Ea; [|reflexivity].
      apply Vertex_eq_refl_r in Ea. congruence. }
    split; [split|split].
    + intros k x Hin Hkk.
      apply elem_of_app in Hin as [Hin|Hin];
        [apply elem_of_app in Hin as [Hin|Hin]|].
      * apply leads_back_to_app. apply Hk; assumption.
      * apply list_elem_of_singleton in Hin. injection Hin as -> ->. congruence.
      * apply list_elem_of_singleton in Hin. injection Hin as -> ->. congruence.
    + intros w Hin Hww. apply elem_of_app in Hin as [Hin|Hin].
      * destruct (Hv _ Hin Hww) as [x Hx]. exists x.
        apply map_find_app_Some, map_find_app_Some. exact Hx.
      * apply list_elem_of_singleton in Hin. subst w. congruence.
    + apply pairwise_distinct_snoc; [exact Hd|]. intros a _. apply Hnone.
    + apply prefix_app_r. reflexivity.
    + exists v, 0. split; [exact Ev|]. split; [reflexivity|]. congruence.
  - (* a vertex that equals a key *)
    split; [split; assumption|]. split; [reflexivity|].
    exists v, x. split; [exact Ev|]. split; [reflexivity|]. intros _.
    apply map_find_Some_key in Ef as (k & Hkin & Hkv).
    destruct (Hk _ _ Hkin (Vertex_eq_refl_l _ _ Hkv)) as (w & Hx & Hw & Hwk).
    exists w. split; [exact Hx|]. split; [exact Hw|].
    exact (Vertex_eq_trans _ _ _ Hwk Hkv).
Qed.

Lemma obj_step_prefix attrib st index st' :
  obj_step attrib st index = Ok st' ->
  obj_vertices st `prefix_of` obj_vertices st'.
Proof.
  intros H.
  apply obj_step_cases in H as (v & Ev & [(Ef & Er & ->)|[(Er & ->)|(x & Ef & ->)]]);
    cbn [obj_vertices]; try (apply prefix_app_r); reflexivity.
Qed.

Lemma obj_face_loop_prefix attrib indices : forall st st',
  obj_face_loop attrib st indices = Ok st' ->
  obj_vertices st `prefix_of` obj_vertices st'.
Proof.
  induction indices as [|index rest IH]; intros st st' H; cbn [obj_face_loop] in H.
  - apply Ok_inj in H. subst st'. reflexivity.
  - apply bind_Ok_inv in H as (st1 & Hs & H).
    etransitivity; [eapply obj_step_prefix; exact Hs|]. apply IH. exact H.
Qed.

Lemma obj_shape_loop_prefix attrib shapes : forall st st',
  obj_shape_loop attrib st shapes = Ok st' ->
  obj_vertices st `prefix_of` obj_vertices st'.
Proof.
  induction shapes as [|shape rest IH]; intros st st' H; cbn [obj_shape_loop] in H.
  - apply Ok_inj in H. subst st'. reflexivity.
  - apply bind_Ok_inv in H as (st1 & Hs & H).
    etransitivity; [eapply obj_face_loop_prefix; exact Hs|]. apply IH. exact H.
Qed.

Lemma leads_back_to_prefix vs vs' x v :
  vs `prefix_of` vs' -> leads_back_to vs x v -> leads_back_to vs' x v.
Proof. intros [k ->]. apply leads_back_to_app. Qed.

Lemma corner_recorded_prefix attrib vs vs' index x :
  vs `prefix_of` vs' -> corner_recorded attrib vs index x ->
  corner_recorded attrib vs' index x.
Proof.
  intros Hp (v & Ev & H). exists v. split; [exact Ev|]. intros Hr.
  eapply leads_back_to_prefix; [exact Hp|]. apply H. exact Hr.
Qed.

Lemma obj_face_loop_dedup attrib indices : forall st st',
  obj_face_loop attrib st indices = Ok st' ->
  Z.of_nat (length (obj_vertices st')) < 2 ^ 32 ->
  obj_dedup_inv st ->
  obj_dedup_inv st'
  /\ exists xs,
       obj_indices st' = obj_indices st ++ xs
       /\ Forall2 (corner_recorded attrib (obj_vertices st')) indices xs.
Proof.
  induction indices as [|index rest IH]; intros st st' H Hsize Hinv;
    cbn [obj_face_loop] in H.
  - apply Ok_inj in H. subst st'. split; [exact Hinv|].
    exists []. rewrite app_nil_r. split; [reflexivity|constructor].
  - apply bind_Ok_inv in H as (st1 & Hs & H).
    pose proof (obj_face_loop_prefix _ _ _ _ H) as Hp.
    assert (Hsize1 : Z.of_nat (length (obj_vertices st1)) < 2 ^ 32).
    { apply prefix_length in Hp. lia. }
    destruct (obj_step_dedup _ _ _ _ Hs Hsize1 Hinv)
      as (Hinv1 & _ & v & x & Ev & Ei & Hback).
    destruct (IH _ _ H Hsize Hinv1) as (Hinv' & xs & Exs & Hall).
    split; [exact Hinv'|]. exists (x :: xs). split.
    + rewrite Exs, Ei, <- app_assoc. reflexivity.
    + constructor; [|exact Hall].
      eapply corner_recorded_prefix; [exact Hp|]. exists v. split; assumption.
Qed.

Lemma obj_shape_loop_dedup attrib shapes : forall st st',
  obj_shape_loop attrib st shapes = Ok st' ->
  Z.of_nat (length (obj_vertices st')) < 2 ^ 32 ->
  obj_dedup_inv st ->
  obj_dedup_inv st'
  /\ exists xs,
       obj_indices st' = obj_indices st ++ xs
       /\ Forall2 (corner_recorded attrib (obj_vertices st')) (concat shapes) xs.
Proof.
  induction shapes as [|shape rest IH]; intros st st' H Hsize Hinv;
    cbn [obj_shape_loop] in H.
  - apply Ok_inj in H. subst st'. split; [exact Hinv|].
    exists []. rewrite app_nil_r. split; [reflexivity|constructor].
  - apply bind_Ok_inv in H as (st1 & Hs & H).
    pose proof (obj_shape_loop_prefix _ _ _ _ H) as Hp.
    assert (Hsize1 : Z.of_nat (length (obj_vertices st1)) < 2 ^ 32).
    { apply prefix_length in Hp. lia. }
    destruct (obj_face_loop_dedup _ _ _ _ Hs Hsize1 Hinv) as (Hinv1 & xs1 & E1 & Hall1).
    destruct (IH _ _ H Hsize Hinv1) as (Hinv' & xs & Exs & Hall).
    split; [exact Hinv'|]. exists (xs1 ++ xs). split.
    + rewrite Exs, E1, <- app_assoc. reflexivity.
    + cbn [concat]. apply Forall2_app; [|exact Hall].
      eapply Forall2_impl; [exact Hall1|]. intros index x.
      apply corner_recorded_prefix. exact Hp.
Qed.

Lemma obj_dedup_inv_start :
  obj_dedup_inv {| uniqueVertices := []; obj_vertices := []; obj_indices := [] |}.
Proof.
  split; cbn [uniqueVertices obj_vertices].
  - intros k x Hin. apply elem_of_nil in Hin. contradiction.
  - intros w Hin. apply elem_of_nil in Hin. contradiction.
  - intros i j a b _ Ha. discriminate Ha.
Qed.

(** What [AddGlobalObj] appends is what its loop collected. *)
Lemma AddGlobalObj_appended reader vb r vb' :
  AddGlobalObj (Some reader) vb = Ok (r, vb') ->
  exists st,
    obj_shape_loop (tinyobj.GetAttrib reader)
      {| uniqueVertices := []; obj_vertices := []; obj_indices := [] |}
      (tinyobj.GetShapes reader) = Ok st
    /\ Z.of_nat (length (obj_vertices st)) <= INT_MAX
    /\ appended_vertices vb vb' = obj_vertices st
    /\ appended_indices vb vb' = obj_indices st.
Proof.
  unfold AddGlobalObj. intros H. apply bind_Ok_inv in H as (st & Hloop & H).
  apply bind_Ok_inv in H as (u1 & _ & H).
  apply bind_Ok_inv in H as (u2 & Hn & H).
  apply Ok_inj in H. exists st. split; [exact Hloop|]. split.
  - unfold int_counter_loop in Hn.
    destruct (Z.leb_spec (Z.of_nat (length (obj_vertices st))) INT_MAX);
      [assumption|discriminate Hn].
  - pose proof (f_equal snd H) as Hvb. cbn [snd] in Hvb. subst vb'.
    split; [apply append_appended_vertices|apply append_appended_indices].
Qed.

Lemma Vertex_eq_self v : Vertex_eq v v = negb (has_nan v).
Proof.
  assert (E : forall a, float_eq a a = negb (float_is_nan a)).
  { intros a. unfold float_eq. rewrite Z.eqb_refl.
    destruct (float_is_nan a); reflexivity. }
  unfold Vertex_eq, has_nan. rewrite !E, !negb_orb. reflexivity.
Qed.

(** X6.  The indexed mesh that [AddGlobalObj] appends reproduces the
    faces of the file: the list of appended indices has one index per
    corner, in file order, and the vertex stored at that index in the
    appended vertices compares equal to the vertex of the corner, for
    every corner whose vertex equals itself (has no NaN). *)
Theorem X6_obj_indices_lead_back_to_corners :
  forall (reader : tinyobj.ObjReader) (vb vb' : VertexBuffer) (r : Z * Z),
    AddGlobalObj (Some reader) vb = Ok (r, vb') ->
    Forall2 (corner_recorded (tinyobj.GetAttrib reader) (appended_vertices vb vb'))
            (concat (tinyobj.GetShapes reader))
            (appended_indices vb vb').
Proof.
  intros reader vb vb' r H.
  apply AddGlobalObj_appended in H as (st & Hloop & Hsize & -> & ->).
  assert (Hs : Z.of_nat (length (obj_vertices st)) < 2 ^ 32)
    by (unfold INT_MAX in Hsize; lia).
  destruct (obj_shape_loop_dedup _ _ _ _ Hloop Hs obj_dedup_inv_start)
    as (_ & xs & Exs & Hall).
  cbn [obj_indices app] in Exs. rewrite Exs. exact Hall.
Qed.

(** The square of [example_obj]: six corners, four vertices. *)
Lemma X6_witness :
  Forall2 (corner_recorded (tinyobj.GetAttrib example_obj)
             (appended_vertices VertexBuffer_empty example_obj_store))
          (concat (tinyobj.GetShapes example_obj))
          (appended_indices VertexBuffer_empty example_obj_store)
  /\ appended_indices VertexBuffer_empty example_obj_store = [0; 1; 2; 0; 2; 3]
  /\ length (appended_vertices VertexBuffer_empty example_obj_store) = 4%nat.
Proof.
  assert (E : AddGlobalObj (Some example_obj) VertexBuffer_empty
              = Ok (0, 0, example_obj_store)) by (vm_compute; reflexivity).
  split; [exact (X6_obj_indices_lead_back_to_corners _ _ _ _ E)|].
  split; vm_compute; reflexivity.
Defined.

(** X7.  [AddGlobalObj] appends every vertex once: no two of the
    vertices it appends compare equal with [operator==]. *)
Theorem X7_obj_vertices_are_deduplicated :
  forall (reader : tinyobj.ObjReader) (vb vb' : VertexBuffer) (r : Z * Z),
    AddGlobalObj (Some reader) vb = Ok (r, vb') ->
    pairwise_distinct (appended_vertices vb vb').
Proof.
  intros reader vb vb' r H.
  apply AddGlobalObj_appended in H as (st & Hloop & Hsize & -> & _).
  assert (Hs : Z.of_nat (length (obj_vertices st)) < 2 ^ 32)
    by (unfold INT_MAX in Hsize; lia).
  destruct (obj_shape_loop_dedup _ _ _ _ Hloop Hs obj_dedup_inv_start) as ([_ _ Hd] & _).
  exact Hd.
Qed.

Lemma X7_witness :
  pairwise_distinct (appended_vertices VertexBuffer_empty example_obj_store).
Proof.
  assert (E : AddGlobalObj (Some example_obj) VertexBuffer_empty
              = Ok (0, 0, example_obj_store)) by (vm_compute; reflexivity).
  exact (X7_obj_vertices_are_deduplicated _ _ _ _ E).
Defined.

(** X8.  A corner whose vertex has a NaN in one of its floats is never
    found in the map: the body of the loop appends the vertex once more,
    whatever was collected before, adds two keys for it, and records the
    index 0 for the corner, not the place of the vertex. *)
Theorem X8_nan_vertex_is_appended_with_index_0 :
  forall (attrib : tinyobj.attrib_t) (st : ObjLoop) (index : tinyobj.index_t)
         (v : Vertex),
    obj_vertex attrib index = Ok v ->
    has_nan v = true ->
    obj_step attrib st index
    = Ok {| uniqueVertices :=
              (uniqueVertices st ++ [(v, UINT_of_size (length (obj_vertices st)))])
              ++ [(v, 0)];
            obj_vertices := obj_vertices st ++ [v];
            obj_indices := obj_indices st ++ [0] |}.
Proof.
  intros attrib st index v Ev Hnan.
  assert (Er : Vertex_eq v v = false) by (rewrite Vertex_eq_self, Hnan; reflexivity).
  unfold obj_step. rewrite Ev. cbn [bind].
  unfold map_count. rewrite (map_find_irreflexive _ _ Er). cbn [Z.eqb].
  unfold map_assign. rewrite (map_find_irreflexive _ _ Er).
  cbn [uniqueVertices obj_vertices obj_indices].
  unfold map_subscript. rewrite (map_find_irreflexive _ _ Er). reflexivity.
Qed.

(** The triangle of [example_obj_nan]: its second and third corner name
    the position with the NaN; three vertices are appended and all three
    indices are 0. *)
Lemma X8_witness :
  (exists v,
      obj_vertex (tinyobj.GetAttrib example_obj_nan) (tinyobj.mkIndex 0 (-1) (-1)) = Ok v
      /\ has_nan v = true
      /\ obj_step (tinyobj.GetAttrib example_obj_nan)
           {| uniqueVertices := []; obj_vertices := []; obj_indices := [] |}
           (tinyobj.mkIndex 0 (-1) (-1))
         = Ok {| uniqueVertices := [(v, 0); (v, 0)];
                 obj_vertices := [v];
                 obj_indices := [0] |})
  /\ match AddGlobalObj (Some example_obj_nan) VertexBuffer_empty with
     | Ok (_, vb) => globalIndices vb = [0; 0; 0] /\ length (globalVertices vb) = 3%nat
     | _ => False
     end.
Proof.
  split; [|vm_compute; split; reflexivity].
  exists (Vertex_ctor f_nan f_0 f_0 f_0 f_0 f_0 f_0 f_0).
  split; [vm_compute; reflexivity|]. split; [vm_compute; reflexivity|].
  apply (X8_nan_vertex_is_appended_with_index_0
           (tinyobj.GetAttrib example_obj_nan)
           {| uniqueVertices := []; obj_vertices := []; obj_indices := [] |}
           (tinyobj.mkIndex 0 (-1) (-1))
           (Vertex_ctor f_nan f_0 f_0 f_0 f_0 f_0 f_0 f_0));
    vm_compute; reflexivity.
Defined.
(** ** What the frame loop presents and counts *)

Lemma presents_app t1 t2 : presents (t1 ++ t2) = (presents t1 + presents t2)%nat.
Proof. unfold presents. rewrite filter_app, length_app. reflexivity. Qed.

Lemma keeps_ret {A B : Type} (f : DirectX12 -> B) (a : A) : keeps f (ret a).
Proof. intros s x s' H. apply Ok_inj in H. injection H as _ <-. reflexivity. Qed.

Lemma keeps_lift {A B : Type} (f : DirectX12 -> B) (o : outcome A) : keeps f (lift o).
Proof. intros s x s' H. apply lift_Ok_inv in H as [_ ->]. reflexivity. Qed.

Lemma keeps_get {B : Type} (f : DirectX12 -> B) : keeps f get.
Proof. intros s x s' H. apply Ok_inj in H. injection H as _ <-. reflexivity. Qed.

Lemma keeps_bind {A B C : Type} (f : DirectX12 -> C) (m : DX A) (k : A -> DX B) :
  keeps f m -> (forall a, keeps f (k a)) -> keeps f (dx_bind m k).
Proof.
  intros Hm Hk s x s' H. apply dx_bind_Ok_inv in H as (a & s1 & H1 & H2).
  rewrite (Hk _ _ _ _ H2). exact (Hm _ _ _ H1).
Qed.

Lemma keeps_if {A B : Type} (f : DirectX12 -> B) (b : bool) (m1 m2 : DX A) :
  keeps f m1 -> keeps f m2 -> keeps f (if b then m1 else m2).
Proof. destruct b; auto. Qed.

Lemma keeps_CurrentFrameResources {B : Type} (f : DirectX12 -> B) :
  keeps f CurrentFrameResources.
Proof.
  intros s x s' H. unfold CurrentFrameResources in H.
  apply bind_Ok_inv in H as (fr & _ & H). apply Ok_inj in H. injection H as _ <-.
  reflexivity.
Qed.

(** The actions that touch neither the trace nor the frame index. *)
Section KeepsTrace.

Context {B : Type} (f : DirectX12 -> B).

Hypothesis f_ext : forall s s',
  Trace s' = Trace s -> SwapChainFrameIndex s' = SwapChainFrameIndex s -> f s' = f s.

Lemma keeps_set_CurrentFrameResources fr : keeps f (set_CurrentFrameResources fr).
Proof.
  intros s x s' H. unfold set_CurrentFrameResources in H.
  apply bind_Ok_inv in H as (frs & _ & H). apply Ok_inj in H. injection H as _ <-.
  apply f_ext; reflexivity.
Qed.

Lemma keeps_record context c : keeps f (record context c).
Proof.
  apply keeps_bind; [apply keeps_CurrentFrameResources|].
  intros fr. apply keeps_set_CurrentFrameResources.
Qed.

Lemma keeps_SetActiveContext c : keeps f (SetActiveContext c).
Proof.
  intros s x s' H. apply Ok_inj in H. injection H as _ <-. apply f_ext; reflexivity.
Qed.

Lemma keeps_SetActiveEye e : keeps f (SetActiveEye e).
Proof.
  intros s x s' H. apply Ok_inj in H. injection H as _ <-. apply f_ext; reflexivity.
Qed.

Lemma keeps_native dev c : keeps f (native dev c).
Proof.
  intros s x s' H. apply Ok_inj in H. injection H as _ <-. apply f_ext; reflexivity.
Qed.

Lemma keeps_SwapChain_GetCurrentBackBufferIndex dev :
  keeps f (SwapChain_GetCurrentBackBufferIndex dev).
Proof.
  intros s x s' H. apply Ok_inj in H. injection H as _ <-. apply f_ext; reflexivity.
Qed.

End KeepsTrace.

Lemma presented_ext s s' :
  Trace s' = Trace s -> SwapChainFrameIndex s' = SwapChainFrameIndex s ->
  presented s' = presented s.
Proof. unfold presented. intros -> _. reflexivity. Qed.

Lemma keeps_presented_emit e : is_EvPresent e = false -> keeps presented (emit e).
Proof.
  intros He s x s' H. apply Ok_inj in H. injection H as _ <-.
  unfold presented. cbn [Trace]. rewrite presents_app.
  assert (E : presents [e] = 0%nat) by (destruct e; try discriminate He; reflexivity).
  rewrite E. lia.
Qed.

Lemma keeps_presented_set_index i : keeps presented (set_SwapChainFrameIndex i).
Proof. intros s x s' H. apply Ok_inj in H. injection H as _ <-. reflexivity. Qed.

Ltac keeps_presented :=
  repeat first
    [ apply keeps_bind
    | match goal with |- forall _ : _, keeps _ _ => intro end
    | apply keeps_if
    | apply keeps_ret
    | apply keeps_lift
    | apply keeps_get
    | apply keeps_CurrentFrameResources
    | apply (keeps_record presented presented_ext)
    | apply (keeps_set_CurrentFrameResources presented presented_ext)
    | apply (keeps_SetActiveContext presented presented_ext)
    | apply (keeps_SetActiveEye presented presented_ext)
    | apply (keeps_native presented presented_ext)
    | apply (keeps_SwapChain_GetCurrentBackBufferIndex presented presented_ext)
    | apply keeps_presented_set_index
    | apply keeps_presented_emit; reflexivity
    | progress cbv zeta ].

Section Presents.

Variable dev : Device.

Lemma keeps_presented_signal_fence : keeps presented (signal_fence dev).
Proof. unfold signal_fence. keeps_presented. Qed.

Lemma keeps_presented_WaitForPreviousFrame : keeps presented (WaitForPreviousFrame dev).
Proof.
  unfold WaitForPreviousFrame.
  apply keeps_bind; [apply keeps_presented_signal_fence|]. keeps_presented.
Qed.

Lemma keeps_presented_CommandList_Reset_call c :
  keeps presented (CommandList_Reset_call dev c).
Proof. unfold CommandList_Reset_call. keeps_presented. Qed.

Lemma keeps_presented_InitCommandList c : keeps presented (InitCommandList dev c).
Proof.
  unfold InitCommandList.
  apply keeps_bind; [apply keeps_CurrentFrameResources|]. intros fr.
  apply keeps_if; [|apply keeps_ret].
  apply keeps_bind; [apply (keeps_native presented presented_ext)|]. intros hr.
  apply keeps_bind; [apply keeps_lift|]. intros _.
  apply keeps_bind; [apply keeps_presented_CommandList_Reset_call|]. keeps_presented.
Qed.

Lemma keeps_presented_InitFrame b : keeps presented (InitFrame dev b).
Proof.
  unfold InitFrame.
  apply keeps_bind; [apply keeps_presented_InitCommandList|]. intros _.
  apply keeps_bind; [apply keeps_presented_InitCommandList|]. intros _.
  apply keeps_bind;
    [apply keeps_if; [apply keeps_presented_InitCommandList|apply keeps_ret]|].
  keeps_presented.
Qed.

Lemma keeps_presented_SubmitCommandList c : keeps presented (SubmitCommandList dev c).
Proof. unfold SubmitCommandList. keeps_presented. Qed.

Lemma keeps_presented_UpdateTLAS sc : keeps presented (UpdateTLAS sc).
Proof. unfold UpdateTLAS. keeps_presented. Qed.

Lemma keeps_presented_DoRaytracing ptw eyePos sc :
  keeps presented (DoRaytracing ptw eyePos sc).
Proof. unfold DoRaytracing. keeps_presented. Qed.

Lemma keeps_presented_CopyRaytracingOutputToBackbuffer a b :
  keeps presented (CopyRaytracingOutputToBackbuffer a b).
Proof. unfold CopyRaytracingOutputToBackbuffer. keeps_presented. Qed.

Lemma keeps_presented_render_eye eye inp sc : keeps presented (render_eye dev eye inp sc).
Proof.
  unfold render_eye.
  repeat first
    [ apply keeps_presented_DoRaytracing
    | apply keeps_presented_CopyRaytracingOutputToBackbuffer
    | apply keeps_presented_SubmitCommandList
    | progress keeps_presented ].
Qed.

Lemma keeps_presented_visible_frame fi l : keeps presented (visible_frame dev fi l).
Proof.
  unfold visible_frame.
  repeat first
    [ apply keeps_presented_UpdateTLAS
    | apply keeps_presented_render_eye
    | progress keeps_presented ].
Qed.

Lemma keeps_presented_mirror_blit fi : keeps presented (mirror_blit fi).
Proof. unfold mirror_blit, SetViewport. keeps_presented. Qed.

(** [SubmitCommandListAndPresent(true)] presents once. *)
Lemma SubmitCommandListAndPresent_presents s u s' :
  SubmitCommandListAndPresent dev true s = Ok (u, s') ->
  presented s' = S (presented s).
Proof.
  unfold SubmitCommandListAndPresent. intros H.
  apply dx_bind_Ok_inv in H as (u1 & s1 & H & HI).
  apply keeps_presented_InitFrame in HI. rewrite HI. clear HI.
  apply dx_bind_Ok_inv in H as (fr & s2 & H0 & H).
  apply keeps_CurrentFrameResources with (f := presented) in H0. rewrite <- H0.
  apply dx_bind_Ok_inv in H as (s3 & s4 & H1 & H).
  apply (keeps_get presented) in H1. rewrite <- H1. clear H1.
  apply dx_bind_Ok_inv in H as (u2 & s5 & H1 & H).
  apply (keeps_lift presented) in H1. rewrite <- H1. clear H1.
  apply dx_bind_Ok_inv in H as (u3 & s6 & H1 & H).
  apply (keeps_record presented presented_ext) in H1. rewrite <- H1. clear H1.
  apply dx_bind_Ok_inv in H as (u4 & s7 & H1 & H).
  apply keeps_presented_SubmitCommandList in H1. rewrite <- H1. clear H1.
  apply dx_bind_Ok_inv in H as (hr & s8 & H1 & H).
  apply (keeps_native presented presented_ext) in H1. rewrite <- H1. clear H1.
  apply dx_bind_Ok_inv in H as (u5 & s9 & H1 & H).
  apply (keeps_lift presented) in H1. rewrite <- H1. clear H1.
  apply dx_bind_Ok_inv in H as (u6 & s10 & H1 & H).
  apply keeps_presented_WaitForPreviousFrame in H. rewrite H.
  apply Ok_inj in H1. injection H1 as _ <-.
  unfold presented. cbn [Trace]. rewrite presents_app.
  change (presents [EvPresent]) with 1%nat. lia.
Qed.

Lemma visible_frame_frameIndex fi l s r s' :
  visible_frame dev fi l s = Ok (r, s') ->
  frameIndex (snd r)
  = frameIndex l + (if OVR_SUCCESS (r_EndFrame fi) then 1 else 0).
Proof.
  unfold visible_frame. intros H.
  repeat (apply dx_bind_Ok_inv in H as (? & ? & _ & H)).
  cbn [result with_result with_roomScene retryCreate frameIndex] in H.
  destruct (OVR_SUCCESS (r_EndFrame fi)); cbn [negb] in H;
    apply Ok_inj in H; injection H as <- _; cbn [snd frameIndex with_result with_roomScene];
    lia.
Qed.

Lemma iteration_frameIndex fi l s r s' :
  iteration dev fi l s = Ok (r, s') ->
  frameIndex (snd r)
  = frameIndex l
    + (if ShouldQuit (sessionStatus fi) then 0
       else if IsVisible (sessionStatus fi) then
              if OVR_SUCCESS (r_EndFrame fi) then 1 else 0
            else 0).
Proof.
  unfold iteration. intros H.
  destruct (ShouldQuit (sessionStatus fi)).
  - apply Ok_inj in H. injection H as <- _. cbn [snd frameIndex]. lia.
  - apply dx_bind_Ok_inv in H as (u & s1 & _ & H).
    apply dx_bind_Ok_inv in H as (r1 & s2 & H1 & H).
    assert (E : frameIndex (snd r1)
                = frameIndex l
                  + (if IsVisible (sessionStatus fi) then
                       if OVR_SUCCESS (r_EndFrame fi) then 1 else 0
                     else 0)).
    { destruct (IsVisible (sessionStatus fi)).
      - eapply visible_frame_frameIndex. exact H1.
      - apply Ok_inj in H1. injection H1 as <- _. cbn [snd]. lia. }
    destruct (fst r1).
    + apply dx_bind_Ok_inv in H as (u1 & s3 & _ & H).
      apply dx_bind_Ok_inv in H as (u2 & s4 & _ & H).
      apply Ok_inj in H. injection H as <- _. exact E.
    + apply dx_bind_Ok_inv in H as (u1 & s3 & _ & H).
      apply dx_bind_Ok_inv in H as (u2 & s4 & _ & H).
      apply Ok_inj in H. injection H as <- _. exact E.
    + apply Ok_inj in H. injection H as <- _. exact E.
Qed.

Lemma main_loop_frameIndex frames : forall l s l' s',
  main_loop dev frames l s = Ok (l', s') ->
  frameIndex l' = frameIndex l + frames_submitted frames.
Proof.
  induction frames as [|fi rest IH]; intros l s l' s' H.
  - apply Ok_inj in H. injection H as <- _. cbn [frames_submitted]. lia.
  - cbn [main_loop] in H. apply dx_bind_Ok_inv in H as ([c l1] & s1 & Hi & H).
    pose proof (iteration_frameIndex _ _ _ _ _ Hi) as Ef.
    apply iteration_control in Hi. cbn [fst snd frames_submitted] in *.
    destruct (ShouldQuit (sessionStatus fi)).
    + destruct Hi as (-> & _). apply Ok_inj in H. injection H as <- _. exact Ef.
    + destruct (IsVisible (sessionStatus fi)).
      * destruct Hi as (-> & _).
        destruct (OVR_SUCCESS (r_EndFrame fi)).
        -- apply IH in H. lia.
        -- apply Ok_inj in H. injection H as <- _. exact Ef.
      * destruct Hi as (-> & ->). apply IH in H. lia.
Qed.

Lemma iteration_presented fi l s r s' :
  iteration dev fi l s = Ok (r, s') ->
  presented s'
  = match fst r with
    | NextIteration => S (presented s)
    | _ => presented s
    end.
Proof.
  intros H. unfold iteration in H.
  destruct (ShouldQuit (sessionStatus fi)).
  - apply Ok_inj in H. injection H as <- <-. reflexivity.
  - apply dx_bind_Ok_inv in H as (u & s1 & H0 & H).
    assert (E0 : presented s1 = presented s).
    { revert H0. apply keeps_if; [apply keeps_presented_emit; reflexivity|].
      apply keeps_ret. }
    apply dx_bind_Ok_inv in H as ([c l1] & s2 & H1 & H).
    assert (E1 : presented s2 = presented s1).
    { revert H1. apply keeps_if; [apply keeps_presented_visible_frame|].
      apply keeps_ret. }
    cbn [fst snd] in H.
    assert (Hnext : (_ <~ (if drawMirror then mirror_blit fi else ret tt) ;;
                     _ <~ SubmitCommandListAndPresent dev drawMirror ;;
                     ret (NextIteration, l1)) s2 = Ok (r, s') ->
                    presented s' = S (presented s) /\ fst r = NextIteration).
    { intros Hn. apply dx_bind_Ok_inv in Hn as (u1 & s3 & Hm & Hn).
      apply dx_bind_Ok_inv in Hn as (u2 & s4 & Hp & Hn).
      apply Ok_inj in Hn. injection Hn as <- <-. split; [|reflexivity].
      apply SubmitCommandListAndPresent_presents in Hp. rewrite Hp.
      apply keeps_presented_mirror_blit in Hm. congruence. }
    destruct c.
    + destruct (Hnext H) as [E ->]. exact E.
    + destruct (Hnext H) as [E ->]. exact E.
    + apply Ok_inj in H. injection H as <- <-. cbn [fst]. congruence.
Qed.

Lemma main_loop_presented frames : forall l s l' s',
  main_loop dev frames l s = Ok (l', s') ->
  presented s' = (presented s + iterations_completed frames)%nat.
Proof.
  induction frames as [|fi rest IH]; intros l s l' s' H.
  - apply Ok_inj in H. injection H as _ <-. cbn [iterations_completed]. lia.
  - cbn [main_loop] in H. apply dx_bind_Ok_inv in H as ([c l1] & s1 & Hi & H).
    pose proof (iteration_presented _ _ _ _ _ Hi) as Ep.
    apply iteration_control in Hi. cbn [fst snd iterations_completed] in *.
    destruct (ShouldQuit (sessionStatus fi)).
    + destruct Hi as (-> & _). apply Ok_inj in H. injection H as _ <-. lia.
    + destruct (IsVisible (sessionStatus fi)); cbn [andb].
      * destruct Hi as (-> & _).
        destruct (OVR_SUCCESS (r_EndFrame fi)); cbn [negb].
        -- apply IH in H. lia.
        -- apply Ok_inj in H. injection H as _ <-. lia.
      * destruct Hi as (-> & ->). apply IH in H. lia.
Qed.

End Presents.

(** X9.  [frameIndex] counts the frames that were handed to the
    compositor: when the loop is left, it has grown by the number of
    visible frames whose [ovr_EndFrame] succeeded; frames in which the
    session is not visible, the frame of a quit request and the frame in
    which [ovr_EndFrame] failed do not count. *)
Theorem X9_frameIndex_counts_submitted_frames :
  forall (dev : Device) (frames : list FrameInput) (l l' : Locals) (s s' : DirectX12),
    main_loop dev frames l s = Ok (l', s') ->
    frameIndex l' = frameIndex l + frames_submitted frames.
Proof. intros dev frames l l' s s' H. eapply main_loop_frameIndex. exact H. Qed.

(** A hidden frame, a visible frame, a quit request. *)
Lemma X9_witness :
  exists l' s',
    main_loop example_device
      [example_hidden_frame; example_frame 0; example_quit_frame]
      example_locals example_ready = Ok (l', s')
    /\ frameIndex l' = 1.
Proof.
  pose (X := match main_loop example_device
                     [example_hidden_frame; example_frame 0; example_quit_frame]
                     example_locals example_ready with
             | Ok x => x
             | _ => (example_locals, example_ready)
             end).
  assert (E : main_loop example_device
                [example_hidden_frame; example_frame 0; example_quit_frame]
                example_locals example_ready = Ok (fst X, snd X))
    by (vm_compute; reflexivity).
  exists (fst X), (snd X). split; [exact E|].
  exact (X9_frameIndex_counts_submitted_frames _ _ _ _ _ _ E).
Defined.

(** X10.  Every iteration that reaches the end of the loop body presents
    the swap chain exactly once, whether the session was visible or not;
    the iteration of a quit request and the iteration in which
    [ovr_EndFrame] failed present nothing. *)
Theorem X10_one_present_per_completed_iteration :
  forall (dev : Device) (frames : list FrameInput) (l l' : Locals) (s s' : DirectX12),
    main_loop dev frames l s = Ok (l', s') ->
    presents (Trace s') = (presents (Trace s) + iterations_completed frames)%nat.
Proof. intros dev frames l l' s s' H. eapply (main_loop_presented dev). exact H. Qed.

Lemma X10_witness :
  exists l' s',
    main_loop example_device
      [example_hidden_frame; example_frame 0; example_frame (-1006); example_frame 0]
      example_locals example_ready = Ok (l', s')
    /\ presents (Trace s') = (presents (Trace example_ready) + 2)%nat.
Proof.
  pose (X := match main_loop example_device
                     [example_hidden_frame; example_frame 0; example_frame (-1006);
                      example_frame 0]
                     example_locals example_ready with
             | Ok x => x
             | _ => (example_locals, example_ready)
             end).
  assert (E : main_loop example_device
                [example_hidden_frame; example_frame 0; example_frame (-1006);
                 example_frame 0]
                example_locals example_ready = Ok (fst X, snd X))
    by (vm_compute; reflexivity).
  exists (fst X), (snd X). split; [exact E|].
  exact (X10_one_present_per_completed_iteration _ _ _ _ _ _ E).
Defined.

(** X11.  A set-up step that fails after the device is up (an eye
    texture, its texture chain, the mirror texture) ends the process with
    [exit(-1)] when the caller passed [retryCreate = false], and makes
    [MainLoop] return [true] when it passed [true]; a failure of
    [ovr_Create] or of [InitDevice] never ends the process: [MainLoop]
    returns the caller's [retryCreate]. *)
Theorem X11_setup_failure_is_fatal_only_without_retry :
  forall (dev : Device) (retryCreate : bool) (env : Setup) (frames : list FrameInput),
    (late_setup_failure env = true ->
     MainLoop dev retryCreate env frames = if retryCreate then Ok true else Exit (-1))
    /\ (OVR_SUCCESS (r_ovr_Create env) = false ->
        MainLoop dev retryCreate env frames = Ok retryCreate)
    /\ (forall s0, OVR_SUCCESS (r_ovr_Create env) = true ->
                   InitDevice env = Ok (false, s0) ->
                   MainLoop dev retryCreate env frames = Ok retryCreate).
Proof.
  intros dev rc env frames. unfold MainLoop, late_setup_failure, make_eye_buffer,
    retry_or_fatal, FATALERROR.
  split; [|split].
  - intros H.
    destruct (OVR_SUCCESS (r_ovr_Create env)); [|discriminate H].
    destruct (InitDevice env) as [[[|] s0]| |]; try discriminate H.
    cbn [negb bind fst snd andb] in *.
    destruct (EyeTexture_Init env 0) as [[|]| |]; try discriminate H;
      cbn [negb bind andb] in *.
    + destruct (EyeTexture_TextureChain env 0); cbn [negb bind] in *.
      * destruct (EyeTexture_Init env 1) as [[|]| |]; try discriminate H;
          cbn [negb bind andb] in *.
        -- destruct (EyeTexture_TextureChain env 1); cbn [negb bind] in *.
           ++ rewrite H. destruct rc; reflexivity.
           ++ destruct rc; reflexivity.
        -- destruct rc; reflexivity.
      * destruct rc; reflexivity.
    + destruct rc; reflexivity.
  - intros ->. reflexivity.
  - intros s0 Hc ->. rewrite Hc. cbn [negb bind fst].
    f_equal. apply Done_success. exact Hc.
Qed.

Lemma X11_witness :
  MainLoop example_device false example_setup_no_eye [example_frame 0] = Exit (-1)
  /\ MainLoop example_device true example_setup_no_eye [example_frame 0] = Ok true.
Proof.
  split.
  - apply (proj1 (X11_setup_failure_is_fatal_only_without_retry example_device false
                    example_setup_no_eye [example_frame 0])).
    reflexivity.
  - apply (proj1 (X11_setup_failure_is_fatal_only_without_retry example_device true
                    example_setup_no_eye [example_frame 0])).
    reflexivity.
Defined.
(** ** The frame ring *)

Lemma index_ext s s' :
  Trace s' = Trace s -> SwapChainFrameIndex s' = SwapChainFrameIndex s ->
  SwapChainFrameIndex s' = SwapChainFrameIndex s.
Proof. intros _ H. exact H. Qed.

Lemma keeps_index_emit e : keeps SwapChainFrameIndex (emit e).
Proof. intros s x s' H. apply Ok_inj in H. injection H as _ <-. reflexivity. Qed.

Ltac keeps_index :=
  repeat first
    [ apply keeps_bind
    | match goal with |- forall _ : _, keeps _ _ => intro end
    | apply keeps_if
    | apply keeps_ret
    | apply keeps_lift
    | apply keeps_get
    | apply keeps_CurrentFrameResources
    | apply (keeps_record SwapChainFrameIndex index_ext)
    | apply (keeps_set_CurrentFrameResources SwapChainFrameIndex index_ext)
    | apply (keeps_SetActiveContext SwapChainFrameIndex index_ext)
    | apply (keeps_SetActiveEye SwapChainFrameIndex index_ext)
    | apply (keeps_native SwapChainFrameIndex index_ext)
    | apply (keeps_SwapChain_GetCurrentBackBufferIndex SwapChainFrameIndex index_ext)
    | apply keeps_index_emit
    | progress cbv zeta ].

Section Ring.

Variable dev : Device.

Lemma keeps_index_signal_fence : keeps SwapChainFrameIndex (signal_fence dev).
Proof. unfold signal_fence. keeps_index. Qed.

Lemma keeps_index_CommandList_Reset_call c :
  keeps SwapChainFrameIndex (CommandList_Reset_call dev c).
Proof. unfold CommandList_Reset_call. keeps_index. Qed.

Lemma keeps_index_InitCommandList c : keeps SwapChainFrameIndex (InitCommandList dev c).
Proof.
  unfold InitCommandList.
  apply keeps_bind; [apply keeps_CurrentFrameResources|]. intros fr.
  apply keeps_if; [|apply keeps_ret].
  apply keeps_bind; [apply (keeps_native SwapChainFrameIndex index_ext)|]. intros hr.
  apply keeps_bind; [apply keeps_lift|]. intros _.
  apply keeps_bind; [apply keeps_index_CommandList_Reset_call|]. keeps_index.
Qed.

Lemma keeps_index_InitFrame b : keeps SwapChainFrameIndex (InitFrame dev b).
Proof.
  unfold InitFrame.
  apply keeps_bind; [apply keeps_index_InitCommandList|]. intros _.
  apply keeps_bind; [apply keeps_index_InitCommandList|]. intros _.
  apply keeps_bind;
    [apply keeps_if; [apply keeps_index_InitCommandList|apply keeps_ret]|].
  keeps_index.
Qed.

Lemma keeps_index_SubmitCommandList c :
  keeps SwapChainFrameIndex (SubmitCommandList dev c).
Proof. unfold SubmitCommandList. keeps_index. Qed.

Lemma keeps_index_UpdateTLAS sc : keeps SwapChainFrameIndex (UpdateTLAS sc).
Proof. unfold UpdateTLAS. keeps_index. Qed.

Lemma keeps_index_DoRaytracing ptw eyePos sc :
  keeps SwapChainFrameIndex (DoRaytracing ptw eyePos sc).
Proof. unfold DoRaytracing. keeps_index. Qed.

Lemma keeps_index_CopyRaytracingOutputToBackbuffer a b :
  keeps SwapChainFrameIndex (CopyRaytracingOutputToBackbuffer a b).
Proof. unfold CopyRaytracingOutputToBackbuffer. keeps_index. Qed.

Lemma keeps_index_render_eye eye inp sc :
  keeps SwapChainFrameIndex (render_eye dev eye inp sc).
Proof.
  unfold render_eye.
  repeat first
    [ apply keeps_index_DoRaytracing
    | apply keeps_index_CopyRaytracingOutputToBackbuffer
    | apply keeps_index_SubmitCommandList
    | progress keeps_index ].
Qed.

Lemma keeps_index_visible_frame fi l :
  keeps SwapChainFrameIndex (visible_frame dev fi l).
Proof.
  unfold visible_frame.
  repeat first
    [ apply keeps_index_UpdateTLAS
    | apply keeps_index_render_eye
    | progress keeps_index ].
Qed.

Lemma keeps_index_mirror_blit fi : keeps SwapChainFrameIndex (mirror_blit fi).
Proof. unfold mirror_blit, SetViewport. keeps_index. Qed.

(** [WaitForPreviousFrame] moves to the next slot of the ring and checks
    it against the swap chain. *)
Lemma WaitForPreviousFrame_index s u s' :
  WaitForPreviousFrame dev s = Ok (u, s') ->
  SwapChainFrameIndex s'
  = wrap32 (SwapChainFrameIndex s + 1) mod SwapChainNumFrames
  /\ SwapChainFrameIndex s' = GetCurrentBackBufferIndex dev (presented s').
Proof.
  unfold WaitForPreviousFrame. intros H.
  apply dx_bind_Ok_inv in H as (u0 & s0 & H0 & H).
  apply keeps_index_signal_fence in H0. rewrite <- H0. clear H0.
  apply dx_bind_Ok_inv in H as (g1 & s2 & G1 & H).
  apply Ok_inj in G1. injection G1 as -> ->.
  apply dx_bind_Ok_inv in H as (u1 & s3 & G2 & H).
  apply Ok_inj in G2. injection G2 as _ <-.
  set (i := wrap32 (SwapChainFrameIndex s2 + 1) mod SwapChainNumFrames) in *.
  apply dx_bind_Ok_inv in H as (fr & s4 & G3 & H).
  unfold CurrentFrameResources in G3. apply bind_Ok_inv in G3 as (fr' & _ & G3).
  apply Ok_inj in G3. injection G3 as _ <-.
  apply dx_bind_Ok_inv in H as (g2 & s6 & G4 & H).
  apply Ok_inj in G4. injection G4 as _ <-.
  apply dx_bind_Ok_inv in H as (u2 & s7 & G5 & H).
  assert (E7 : SwapChainFrameIndex s7 = i).
  { apply (keeps_if SwapChainFrameIndex _ _ _ (keeps_index_emit _)
             (keeps_ret _ _)) in G5. exact G5. }
  clear G5.
  apply dx_bind_Ok_inv in H as (g3 & s9 & G6 & H).
  apply Ok_inj in G6. injection G6 as -> ->.
  apply dx_bind_Ok_inv in H as (bb & s10 & G7 & H).
  apply Ok_inj in G7. injection G7 as <- <-.
  apply lift_Ok_inv in H as [Hv ->]. cbn [SwapChainFrameIndex Trace].
  unfold presented. cbn [Trace].
  unfold VALIDATE in Hv.
  destruct (Z.eqb_spec (SwapChainFrameIndex s9)
              (GetCurrentBackBufferIndex dev (presents (Trace s9))));
    [|discriminate Hv].
  split; [exact E7|assumption].
Qed.

(** [SubmitCommandListAndPresent(true)] moves the ring by one slot. *)
Lemma SubmitCommandListAndPresent_index s u s' :
  SubmitCommandListAndPresent dev true s = Ok (u, s') ->
  SwapChainFrameIndex s'
  = wrap32 (SwapChainFrameIndex s + 1) mod SwapChainNumFrames
  /\ SwapChainFrameIndex s' = GetCurrentBackBufferIndex dev (presented s').
Proof.
  unfold SubmitCommandListAndPresent. intros H.
  apply dx_bind_Ok_inv in H as (u1 & s1 & H & HI).
  pose proof (keeps_index_InitFrame _ _ _ _ HI) as EI.
  pose proof (keeps_presented_InitFrame _ _ _ _ _ HI) as EP.
  rewrite EI, EP. clear HI EI EP.
  apply dx_bind_Ok_inv in H as (fr & s2 & H0 & H).
  apply keeps_CurrentFrameResources with (f := SwapChainFrameIndex) in H0.
  rewrite <- H0. clear H0.
  apply dx_bind_Ok_inv in H as (s3 & s4 & H1 & H).
  apply (keeps_get SwapChainFrameIndex) in H1. rewrite <- H1. clear H1.
  apply dx_bind_Ok_inv in H as (u2 & s5 & H1 & H).
  apply (keeps_lift SwapChainFrameIndex) in H1. rewrite <- H1. clear H1.
  apply dx_bind_Ok_inv in H as (u3 & s6 & H1 & H).
  apply (keeps_record SwapChainFrameIndex index_ext) in H1. rewrite <- H1. clear H1.
  apply dx_bind_Ok_inv in H as (u4 & s7 & H1 & H).
  apply keeps_index_SubmitCommandList in H1. rewrite <- H1. clear H1.
  apply dx_bind_Ok_inv in H as (hr & s8 & H1 & H).
  apply (keeps_native SwapChainFrameIndex index_ext) in H1. rewrite <- H1. clear H1.
  apply dx_bind_Ok_inv in H as (u5 & s9 & H1 & H).
  apply (keeps_lift SwapChainFrameIndex) in H1. rewrite <- H1. clear H1.
  apply dx_bind_Ok_inv in H as (u6 & s10 & H1 & H).
  apply keeps_index_emit in H1. rewrite <- H1. clear H1.
  apply WaitForPreviousFrame_index in H. exact H.
Qed.

Lemma iteration_index fi l s r s' :
  iteration dev fi l s = Ok (r, s') ->
  match fst r with
  | NextIteration =>
      SwapChainFrameIndex s'
      = wrap32 (SwapChainFrameIndex s + 1) mod SwapChainNumFrames
      /\ SwapChainFrameIndex s' = GetCurrentBackBufferIndex dev (presented s')
  | _ => SwapChainFrameIndex s' = SwapChainFrameIndex s
  end.
Proof.
  intros H. unfold iteration in H.
  destruct (ShouldQuit (sessionStatus fi)).
  - apply Ok_inj in H. injection H as <- <-. reflexivity.
  - apply dx_bind_Ok_inv in H as (u & s1 & H0 & H).
    assert (E0 : SwapChainFrameIndex s1 = SwapChainFrameIndex s).
    { revert H0. apply keeps_if; [apply keeps_index_emit|apply keeps_ret]. }
    apply dx_bind_Ok_inv in H as ([c l1] & s2 & H1 & H).
    assert (E1 : SwapChainFrameIndex s2 = SwapChainFrameIndex s1).
    { revert H1. apply keeps_if; [apply keeps_index_visible_frame|apply keeps_ret]. }
    cbn [fst snd] in H.
    assert (Hnext : (_ <~ (if drawMirror then mirror_blit fi else ret tt) ;;
                     _ <~ SubmitCommandListAndPresent dev drawMirror ;;
                     ret (NextIteration, l1)) s2 = Ok (r, s') ->
                    fst r = NextIteration
                    /\ SwapChainFrameIndex s'
                       = wrap32 (SwapChainFrameIndex s + 1) mod SwapChainNumFrames
                    /\ SwapChainFrameIndex s'
                       = GetCurrentBackBufferIndex dev (presented s')).
    { intros Hn. apply dx_bind_Ok_inv in Hn as (u1 & s3 & Hm & Hn).
      apply dx_bind_Ok_inv in Hn as (u2 & s4 & Hp & Hn).
      apply Ok_inj in Hn. injection Hn as <- <-. split; [reflexivity|].
      apply SubmitCommandListAndPresent_index in Hp.
      apply keeps_index_mirror_blit in Hm.
      rewrite Hm, E1, E0 in Hp. exact Hp. }
    destruct c.
    + destruct (Hnext H) as (-> & E). exact E.
    + destruct (Hnext H) as (-> & E). exact E.
    + apply Ok_inj in H. injection H as <- <-. cbn [fst]. congruence.
Qed.

Lemma ring_step (i : Z) (n : nat) :
  0 <= i < SwapChainNumFrames ->
  wrap32 (i + 1) mod SwapChainNumFrames = (i + 1) mod SwapChainNumFrames.
Proof.
  unfold SwapChainNumFrames. intros H. rewrite wrap32_small; [reflexivity|lia].
Qed.

Lemma main_loop_index frames : forall l s l' s',
  main_loop dev frames l s = Ok (l', s') ->
  0 <= SwapChainFrameIndex s < SwapChainNumFrames ->
  SwapChainFrameIndex s'
  = (SwapChainFrameIndex s + Z.of_nat (iterations_completed frames))
      mod SwapChainNumFrames
  /\ (iterations_completed frames <> 0%nat ->
      SwapChainFrameIndex s' = GetCurrentBackBufferIndex dev (presented s')).
Proof.
  induction frames as [|fi rest IH]; intros l s l' s' H Hi.
  - apply Ok_inj in H. injection H as _ <-. cbn [iterations_completed].
    split; [|intros Hc; contradiction].
    rewrite Z.add_0_r. symmetry. apply Z.mod_small. exact Hi.
  - cbn [main_loop] in H. apply dx_bind_Ok_inv in H as ([c l1] & s1 & Hit & H).
    pose proof (iteration_index _ _ _ _ _ Hit) as Ei.
    apply iteration_control in Hit. cbn [fst snd iterations_completed] in *.
    assert (Hstop : SwapChainFrameIndex s
                    = (SwapChainFrameIndex s + Z.of_nat 0) mod SwapChainNumFrames).
    { rewrite Z.add_0_r. symmetry. apply Z.mod_small. exact Hi. }
    assert (Hgo : c = NextIteration ->
                  SwapChainFrameIndex s'
                  = (SwapChainFrameIndex s
                     + Z.of_nat (S (iterations_completed rest)))
                      mod SwapChainNumFrames
                  /\ (S (iterations_completed rest) <> 0%nat ->
                      SwapChainFrameIndex s'
                      = GetCurrentBackBufferIndex dev (presented s'))).
    { intros ->. destruct Ei as [E1 E2].
      rewrite (ring_step _ 0 Hi) in E1.
      assert (Hi1 : 0 <= SwapChainFrameIndex s1 < SwapChainNumFrames).
      { rewrite E1. apply Z.mod_pos_bound. reflexivity. }
      destruct (IH _ _ _ _ H Hi1) as [K1 K2]. split.
      - rewrite K1, E1. rewrite Zplus_mod_idemp_l. f_equal. lia.
      - intros _. destruct (iterations_completed rest) eqn:En.
        + destruct rest as [|fi' rest'].
          * apply Ok_inj in H. injection H as _ <-. exact E2.
          * clear K2. cbn [main_loop] in H.
            apply dx_bind_Ok_inv in H as ([c2 l2] & s2 & Hit2 & H).
            pose proof (iteration_index _ _ _ _ _ Hit2) as Ei2.
            pose proof (iteration_presented _ _ _ _ _ _ Hit2) as Ep2.
            apply iteration_control in Hit2.
            cbn [fst snd iterations_completed] in *.
            destruct (ShouldQuit (sessionStatus fi')).
            -- destruct Hit2 as (-> & _). apply Ok_inj in H. injection H as _ <-.
               rewrite Ei2, Ep2. exact E2.
            -- destruct (IsVisible (sessionStatus fi')); cbn [andb] in En.
               ++ destruct Hit2 as (-> & _).
                  destruct (OVR_SUCCESS (r_EndFrame fi')); cbn [negb] in En;
                    [discriminate En|].
                  apply Ok_inj in H. injection H as _ <-.
                  rewrite Ei2, Ep2. exact E2.
               ++ discriminate En.
        + apply K2. discriminate. }
    destruct (ShouldQuit (sessionStatus fi)).
    + destruct Hit as (-> & _). apply Ok_inj in H. injection H as _ <-.
      rewrite Ei. split; [exact Hstop|intros Hc; contradiction].
    + destruct (IsVisible (sessionStatus fi)); cbn [andb].
      * destruct Hit as (-> & _).
        destruct (OVR_SUCCESS (r_EndFrame fi)); cbn [negb].
        -- apply Hgo. reflexivity.
        -- apply Ok_inj in H. injection H as _ <-.
           rewrite Ei. split; [exact Hstop|intros Hc; contradiction].
      * destruct Hit as (-> & _). apply Hgo. reflexivity.
Qed.

End Ring.

Section InitFrameProofs.

Variable dev : Device.

Lemma InitCommandList_inv context o pre fr post active eye n t u s' :
  InitCommandList dev context (at_slot o pre fr post active eye n t) = Ok (u, s') ->
  exists n', s' = at_slot o pre (restarted o fr context) post active eye n' t.
Proof.
  unfold InitCommandList, restarted. intros H. dx_fwd H.
  destruct (ctx_get (CommandListSubmitted fr) context).
  - dx_fwd H.
    match goal with
    | E : VALIDATE ?b = Ok _ |- _ => destruct b; [clear E|discriminate E]
    end.
    rewrite CommandList_Reset_call_at in H.
    destruct (hr_ok dev (S n) CommandList_Reset); dx_fwd H;
      match goal with
      | E : VALIDATE ?b = Ok _ |- _ => try discriminate E; clear E
      end.
    apply Ok_inj in H. injection H as _ <-.
    eexists. reflexivity.
  - dx_fwd H. apply Ok_inj in H. injection H as _ <-. eexists. reflexivity.
Qed.

Lemma InitFrame_inv o pre fr post active eye n t u s' :
  InitFrame dev true (at_slot o pre fr post active eye n t) = Ok (u, s') ->
  exists n',
    s' = at_slot o pre
           (recorded
              (restarted o
                 (restarted o (restarted o fr DrawContext_EyeRenderLeft)
                    DrawContext_EyeRenderRight)
                 DrawContext_Final)
              DrawContext_Final
              [ResourceBarrier [Transition (SwapChainBuffer fr)
                                  D3D12_RESOURCE_STATE_PRESENT
                                  D3D12_RESOURCE_STATE_RENDER_TARGET]])
           post active eye n' t.
Proof.
  unfold InitFrame. intros H.
  apply dx_bind_Ok_inv in H as (u1 & s1 & H1 & H).
  apply InitCommandList_inv in H1 as (n1 & ->).
  apply dx_bind_Ok_inv in H as (u2 & s2 & H2 & H).
  apply InitCommandList_inv in H2 as (n2 & ->).
  apply dx_bind_Ok_inv in H as (u3 & s3 & H3 & H).
  apply InitCommandList_inv in H3 as (n3 & ->).
  dx_fwd H. apply Ok_inj in H. injection H as _ <-.
  exists n3. f_equal. f_equal. f_equal. f_equal. f_equal.
  unfold restarted.
  destruct fr as [cl [sl sr sf] b v w]. cbn.
  destruct sl, sr, sf; reflexivity.
Qed.

Lemma InitFrame_lists o fr context :
  let fr' := recorded
               (restarted o
                  (restarted o (restarted o fr DrawContext_EyeRenderLeft)
                     DrawContext_EyeRenderRight)
                  DrawContext_Final)
               DrawContext_Final
               [ResourceBarrier [Transition (SwapChainBuffer fr)
                                   D3D12_RESOURCE_STATE_PRESENT
                                   D3D12_RESOURCE_STATE_RENDER_TARGET]] in
  ctx_get (CommandListSubmitted fr') context = false
  /\ ctx_get (CommandLists fr') context
     = (if ctx_get (CommandListSubmitted fr) context
        then [SetDescriptorHeaps (CbvSrvHeap o)]
        else ctx_get (CommandLists fr) context)
       ++ (if DrawContext_eqb context DrawContext_Final
           then [ResourceBarrier [Transition (SwapChainBuffer fr)
                                    D3D12_RESOURCE_STATE_PRESENT
                                    D3D12_RESOURCE_STATE_RENDER_TARGET]]
           else [])
  /\ SwapChainBuffer fr' = SwapChainBuffer fr
  /\ PresentFenceValue fr' = PresentFenceValue fr
  /\ PresentFenceWaitValue fr' = PresentFenceWaitValue fr.
Proof.
  destruct fr as [[l r f] [sl sr sf] b v w]. unfold restarted.
  destruct context, sl, sr, sf; cbn; rewrite ?app_nil_r; repeat split; reflexivity.
Qed.

End InitFrameProofs.

(** X12.  The frame ring stays in step with the swap chain: when the
    loop is left, the frame slot has moved on by one for every iteration
    that reached the end of the loop body, modulo the four slots, and
    (unless no iteration was completed) it is the slot that the swap
    chain reports as its current back buffer. *)
Theorem X12_ring_follows_the_swap_chain :
  forall (dev : Device) (frames : list FrameInput) (l l' : Locals) (s s' : DirectX12),
    main_loop dev frames l s = Ok (l', s') ->
    0 <= SwapChainFrameIndex s < SwapChainNumFrames ->
    SwapChainFrameIndex s'
    = (SwapChainFrameIndex s + Z.of_nat (iterations_completed frames))
        mod SwapChainNumFrames
    /\ (iterations_completed frames <> 0%nat ->
        SwapChainFrameIndex s'
        = GetCurrentBackBufferIndex dev (presents (Trace s'))).
Proof. intros dev frames l l' s s' H Hi. exact (main_loop_index dev frames l s l' s' H Hi). Qed.

(** Five completed iterations from slot 0: the ring is at slot 1. *)
Lemma X12_witness :
  exists l' s',
    main_loop example_device
      [example_hidden_frame; example_frame 0; example_hidden_frame;
       example_hidden_frame; example_frame 0; example_quit_frame]
      example_locals example_ready = Ok (l', s')
    /\ SwapChainFrameIndex s' = 1.
Proof.
  pose (X := match main_loop example_device
                     [example_hidden_frame; example_frame 0; example_hidden_frame;
                      example_hidden_frame; example_frame 0; example_quit_frame]
                     example_locals example_ready with
             | Ok x => x
             | _ => (example_locals, example_ready)
             end).
  assert (E : main_loop example_device
                [example_hidden_frame; example_frame 0; example_hidden_frame;
                 example_hidden_frame; example_frame 0; example_quit_frame]
                example_locals example_ready = Ok (fst X, snd X))
    by (vm_compute; reflexivity).
  assert (Hi : 0 <= SwapChainFrameIndex example_ready < SwapChainNumFrames)
    by (vm_compute; split; [discriminate|reflexivity]).
  exists (fst X), (snd X). split; [exact E|].
  exact (proj1 (X12_ring_follows_the_swap_chain _ _ _ _ _ _ E Hi)).
Defined.

(** X13.  [InitFrame(true)] restarts exactly the lists of the current
    slot that had been submitted: such a list holds the binding of the
    descriptor heaps and nothing else, a list that had not been submitted
    keeps every command recorded on it, and no list is flagged as
    submitted afterwards.  The [DrawContext_Final] list gets, at its end,
    the barrier that takes the slot's back buffer from PRESENT to
    RENDER_TARGET.  The fence values of the slot, the other slots and the
    trace are as before. *)
Theorem X13_InitFrame_restarts_submitted_lists :
  forall (dev : Device) o pre fr post active eye n t u s',
    InitFrame dev true (at_slot o pre fr post active eye n t) = Ok (u, s') ->
    exists fr' n',
      s' = at_slot o pre fr' post active eye n' t
      /\ SwapChainBuffer fr' = SwapChainBuffer fr
      /\ PresentFenceValue fr' = PresentFenceValue fr
      /\ PresentFenceWaitValue fr' = PresentFenceWaitValue fr
      /\ forall context,
           ctx_get (CommandListSubmitted fr') context = false
           /\ ctx_get (CommandLists fr') context
              = (if ctx_get (CommandListSubmitted fr) context
                 then [SetDescriptorHeaps (CbvSrvHeap o)]
                 else ctx_get (CommandLists fr) context)
                ++ (if DrawContext_eqb context DrawContext_Final
                    then [ResourceBarrier [Transition (SwapChainBuffer fr)
                                             D3D12_RESOURCE_STATE_PRESENT
                                             D3D12_RESOURCE_STATE_RENDER_TARGET]]
                    else []).
Proof.
  intros dev o pre fr post active eye n t u s' H.
  apply InitFrame_inv in H as (n' & ->).
  eexists. exists n'. split; [reflexivity|].
  pose proof (InitFrame_lists o fr) as L. cbv zeta in L.
  split; [apply (L DrawContext_Final)|]. split; [apply (L DrawContext_Final)|].
  split; [apply (L DrawContext_Final)|].
  intros context. destruct (L context) as (L1 & L2 & _). split; assumption.
Qed.

(** [example_mixed_slot]: the two eye lists are restarted, the final list
    keeps its two commands and gets the barrier. *)
Lemma X13_witness :
  (exists fr' n',
      example_mixed_after
      = at_slot example_objects [] fr'
          [example_slot 0x901; example_slot 0x902; example_slot 0x903]
          DrawContext_Final 0 n' []
      /\ SwapChainBuffer fr' = SwapChainBuffer example_mixed_slot
      /\ PresentFenceValue fr' = PresentFenceValue example_mixed_slot
      /\ PresentFenceWaitValue fr' = PresentFenceWaitValue example_mixed_slot
      /\ forall context,
           ctx_get (CommandListSubmitted fr') context = false
           /\ ctx_get (CommandLists fr') context
              = (if ctx_get (CommandListSubmitted example_mixed_slot) context
                 then [SetDescriptorHeaps (CbvSrvHeap example_objects)]
                 else ctx_get (CommandLists example_mixed_slot) context)
                ++ (if DrawContext_eqb context DrawContext_Final
                    then [ResourceBarrier
                            [Transition (SwapChainBuffer example_mixed_slot)
                               D3D12_RESOURCE_STATE_PRESENT
                               D3D12_RESOURCE_STATE_RENDER_TARGET]]
                    else []))
  /\ map CommandLists (PerFrameResources example_mixed_after)
     = [ mkPerContext
           [SetDescriptorHeaps 0x500] [SetDescriptorHeaps 0x500]
           [RSSetViewports; RSSetScissorRects;
            ResourceBarrier [Transition (Res 0x900) D3D12_RESOURCE_STATE_PRESENT
                               D3D12_RESOURCE_STATE_RENDER_TARGET]];
         mkPerContext [] [] []; mkPerContext [] [] []; mkPerContext [] [] [] ].
Proof.
  assert (E : InitFrame example_device true
                (at_slot example_objects [] example_mixed_slot
                   [example_slot 0x901; example_slot 0x902; example_slot 0x903]
                   DrawContext_Final 0 7 [])
              = Ok (tt, example_mixed_after)) by (vm_compute; reflexivity).
  split; [|vm_compute; reflexivity].
  exact (X13_InitFrame_restarts_submitted_lists example_device example_objects []
           example_mixed_slot
           [example_slot 0x901; example_slot 0x902; example_slot 0x903]
           DrawContext_Final 0 7%nat [] tt example_mixed_after E).
Defined.
Section HiddenFrame.

Variable dev : Device.


End HiddenFrame.


(** ** More of the scene *)

Lemma UpdateInstancePosition_inv i p sc sc' :
  UpdateInstancePosition i p sc = Ok sc' ->
  exists d,
    0 <= i < Z.of_nat (length (instanceDescsArray sc))
    /\ instanceDescsArray sc !! Z.to_nat i = Some d
    /\ sc' = with_instanceDescsArray sc
               (<[Z.to_nat i :=
                    with_Transform d (set_w (Transform_0 d) (f3_x p))
                      (set_w (Transform_1 d) (f3_y p))
                      (set_w (Transform_2 d) (f3_z p))]> (instanceDescsArray sc)).
Proof.
  unfold UpdateInstancePosition. intros H.
  apply bind_Ok_inv in H as (d & Hd & H).
  apply bind_Ok_inv in H as (a & Ha & H).
  apply vec_at_Ok in Hd as [H0 Hd]. apply vec_set_Ok in Ha as [Hr ->].
  apply Ok_inj in H. exists d. split; [lia|]. split; [exact Hd|]. now symmetry.
Qed.

(** X15.  Setting the position of an instance after its transform is
    the same as setting the transform with the translation row
    replaced: [UpdateInstancePosition] touches the translation of the
    entry and nothing else. *)
Theorem X15_position_is_the_translation_of_the_transform :
  forall (i : Z) (M : XMMATRIX) (position : XMFLOAT3) (sc sc1 : Scene),
    UpdateInstanceTransform i M sc = Ok sc1 ->
    UpdateInstancePosition i position sc1
    = UpdateInstanceTransform i (with_translation M position) sc.
Proof.
  intros i M p sc sc1 H.
  apply UpdateInstanceTransform_inv in H as (d & d' & Hi & Hd & -> & ->).
  unfold UpdateInstancePosition, UpdateInstanceTransform.
  cbn [instanceDescsArray with_instanceDescsArray]. cbv zeta.
  assert (E1 : vec_at (<[Z.to_nat i :=
                           with_Transform d (r0 (XMMatrixTranspose M))
                             (r1 (XMMatrixTranspose M)) (r2 (XMMatrixTranspose M))]>
                         (instanceDescsArray sc)) i
               = Ok (with_Transform d (r0 (XMMatrixTranspose M))
                       (r1 (XMMatrixTranspose M)) (r2 (XMMatrixTranspose M)))).
  { apply vec_at_Ok. split; [lia|]. apply list_lookup_insert_eq. lia. }
  assert (E2 : vec_at (instanceDescsArray sc) i = Ok d).
  { apply vec_at_Ok. split; [lia|exact Hd]. }
  rewrite E1, E2. cbn [bind].
  assert (E3 : forall a b : D3D12_RAYTRACING_INSTANCE_DESC,
             vec_set (<[Z.to_nat i := a]> (instanceDescsArray sc)) i b
             = Ok (<[Z.to_nat i := b]> (instanceDescsArray sc))).
  { intros a b. apply vec_set_Ok. rewrite length_insert. split; [lia|].
    symmetry. apply list_insert_insert_eq. }
  assert (E4 : forall b : D3D12_RAYTRACING_INSTANCE_DESC,
             vec_set (instanceDescsArray sc) i b
             = Ok (<[Z.to_nat i := b]> (instanceDescsArray sc))).
  { intros b. apply vec_set_Ok. split; [lia|reflexivity]. }
  rewrite E3, E4. cbn [bind]. reflexivity.
Qed.

Lemma X15_witness :
  UpdateInstancePosition 1 (mkFloat3 f_p5 f_1 f_m1) example_scene_moved
  = UpdateInstanceTransform 1
      (with_translation example_matrix (mkFloat3 f_p5 f_1 f_m1))
      example_scene_committed.
Proof.
  apply (X15_position_is_the_translation_of_the_transform 1 example_matrix
           (mkFloat3 f_p5 f_1 f_m1) example_scene_committed example_scene_moved).
  vm_compute. reflexivity.
Defined.

Lemma entry_bytes_array a (j : nat) d :
  a !! j = Some d -> entry_bytes j (array_bytes a) = INSTANCE_DESC_bytes d.
Proof.
  intros Hj. unfold entry_bytes. apply list_eq. intros q.
  destruct (Nat.lt_ge_cases q 64) as [Hlt|Hge].
  - rewrite lookup_take_lt by lia. rewrite lookup_drop, lookup_array_bytes.
    replace (64 * j + q)%nat with (q + j * 64)%nat by lia.
    rewrite Nat.div_add, Nat.Div0.mod_add by lia.
    rewrite Nat.div_small, Nat.mod_small by lia. cbn [Nat.add].
    rewrite Hj. reflexivity.
  - rewrite lookup_take_ge by lia. symmetry. apply lookup_ge_None.
    rewrite length_INSTANCE_DESC_bytes. lia.
Qed.

Lemma entry_bytes_take_app (j n : nat) (src dst : list Z) :
  (64 * (j + 1) <= n)%nat -> (n <= length src)%nat ->
  entry_bytes j (take n src ++ drop n dst) = entry_bytes j src.
Proof.
  intros Hj Hn. unfold entry_bytes. apply list_eq. intros q.
  destruct (Nat.lt_ge_cases q 64) as [Hlt|Hge].
  - rewrite !lookup_take_lt by lia. rewrite !lookup_drop.
    rewrite lookup_app_l by (rewrite length_take; lia).
    apply lookup_take_lt. lia.
  - rewrite !lookup_take_ge by lia. reflexivity.
Qed.

(** X16.  After [UpdateInstanceDescs] the buffer behind [instanceDescs]
    holds, entry by entry, the 64 bytes of each of the first
    [numInstances] descriptors of the array; what lies behind them in the
    buffer is not touched, and the buffer keeps its size. *)
Theorem X16_commit_serialises_the_first_numInstances :
  forall (sc sc' : Scene),
    0 <= numInstances sc ->
    numInstances sc * sizeof_INSTANCE_DESC < 2 ^ 64 ->
    UpdateInstanceDescs sc = Ok sc' ->
    (forall (j : nat) d,
        Z.of_nat j < numInstances sc ->
        instanceDescsArray sc !! j = Some d ->
        entry_bytes j (instanceDescs_memory sc') = INSTANCE_DESC_bytes d)
    /\ (forall p : nat,
           numInstances sc * sizeof_INSTANCE_DESC <= Z.of_nat p ->
           instanceDescs_memory sc' !! p = instanceDescs_memory sc !! p)
    /\ length (instanceDescs_memory sc') = length (instanceDescs_memory sc)
    /\ instanceDescsArray sc' = instanceDescsArray sc.
Proof.
  intros sc sc' H0 Hlt H.
  apply UpdateInstanceDescs_inv in H as (H1 & H2 & _ & ->). cbv zeta in *.
  rewrite wrap64_small in * by (unfold sizeof_INSTANCE_DESC in *; lia).
  unfold sizeof_INSTANCE_DESC in *.
  set (n := Z.to_nat (numInstances sc * 64)) in *.
  cbn [instanceDescs_memory with_instanceDescs_memory instanceDescsArray].
  split; [|split; [|split]].
  - intros j d Hj Hd. rewrite entry_bytes_take_app by (unfold n; lia).
    apply entry_bytes_array. exact Hd.
  - intros p Hp. rewrite lookup_app_r by (rewrite length_take; lia).
    rewrite length_take, lookup_drop. f_equal. lia.
  - rewrite length_app, length_take, length_drop. lia.
  - reflexivity.
Qed.

Lemma X16_witness :
  entry_bytes 1 (instanceDescs_memory example_scene_recommitted)
  = INSTANCE_DESC_bytes
      (with_Transform (example_instance 1 0x130000)
         (r0 (XMMatrixTranspose example_matrix))
         (r1 (XMMatrixTranspose example_matrix))
         (r2 (XMMatrixTranspose example_matrix))).
Proof.
  assert (E : UpdateInstanceDescs example_scene_moved = Ok example_scene_recommitted)
    by (vm_compute; reflexivity).
  apply (proj1 (X16_commit_serialises_the_first_numInstances example_scene_moved
                  example_scene_recommitted ltac:(vm_compute; discriminate)
                  ltac:(vm_compute; reflexivity) E) 1%nat).
  - vm_compute. reflexivity.
  - vm_compute. reflexivity.
Defined.

Lemma with_texture0_inv l w h l' :
  with_texture0 l w h = Ok l' ->
  length l' = length l /\ forall p : nat, (0 < p)%nat -> l' !! p = l !! p.
Proof.
  unfold with_texture0. intros H. apply bind_Ok_inv in H as (t & _ & H).
  apply vec_set_Ok in H as [_ ->]. rewrite length_insert. split; [reflexivity|].
  intros p Hp. apply list_lookup_insert_ne. cbn. lia.
Qed.

Lemma fill_sceneCB_inv sc cb ptw eyePos cb' :
  fill_sceneCB sc cb ptw eyePos = Ok cb' ->
  cb_projectionToWorld cb' = ptw
  /\ cb_eyePosition cb' = eyePos
  /\ cb_instanceData cb'
     = take (Z.to_nat (numInstances sc)) (instanceData sc)
       ++ drop (Z.to_nat (numInstances sc)) (cb_instanceData cb)
  /\ cb_lights cb' = take 4 (lights sc) ++ drop 4 (cb_lights cb)
  /\ cb_vertexBufferDatas cb'
     = take 400 (vertexBufferDatas sc) ++ drop 400 (cb_vertexBufferDatas cb)
  /\ cb_textureResources cb'
     = take 60 (textureResources sc) ++ drop 60 (cb_textureResources cb).
Proof.
  unfold fill_sceneCB. intros H.
  apply bind_Ok_inv in H as (tex0 & Ht & H).
  apply bind_Ok_inv in H as (inst & Hi & H).
  apply bind_Ok_inv in H as (lts & Hl & H).
  apply bind_Ok_inv in H as (vbds & Hv & H).
  apply bind_Ok_inv in H as (texs & Hx & H).
  apply Ok_inj in H. subst cb'.
  cbn [cb_projectionToWorld cb_eyePosition cb_instanceData cb_lights
       cb_vertexBufferDatas cb_textureResources].
  apply memcpy_Ok_inv in Hi as (_ & _ & ->).
  apply memcpy_Ok_inv in Hl as (_ & _ & ->).
  apply memcpy_Ok_inv in Hv as (_ & _ & ->).
  apply memcpy_Ok_inv in Hx as (_ & Hlen & ->).
  apply with_texture0_inv in Ht as [Elen Ht].
  repeat split; try reflexivity.
  change (Z.to_nat MAX_TEXTURES) with 60%nat in *.
  f_equal. apply list_eq. intros p. rewrite !lookup_drop. apply Ht. lia.
Qed.

Lemma constants_at_insert table (c k : nat) row cb (c' k' : nat) :
  table !! c = Some row ->
  (k < length row)%nat ->
  constants_at (<[c := <[k := cb]> row]> table) c' k'
  = if decide (c' = c /\ k' = k) then Some cb else constants_at table c' k'.
Proof.
  intros Hrow Hk. unfold constants_at.
  pose proof (lookup_lt_Some _ _ _ Hrow) as Hc.
  destruct (decide (c' = c)) as [->|Hne].
  - rewrite list_lookup_insert_eq by lia. cbn [mbind option_bind].
    rewrite Hrow. cbn [mbind option_bind].
    destruct (decide (k' = k)) as [->|Hnk].
    + rewrite list_lookup_insert_eq by lia.
      rewrite decide_True by (split; reflexivity). reflexivity.
    + rewrite list_lookup_insert_ne by congruence.
      rewrite decide_False by (intros [_ ?]; contradiction). reflexivity.
  - rewrite list_lookup_insert_ne by congruence.
    rewrite decide_False by (intros [? _]; contradiction). reflexivity.
Qed.

(** What [DoRaytracing] returns. *)
Lemma DoRaytracing_scene ptw eyePos sc s sc' s' :
  DoRaytracing ptw eyePos sc s = Ok (sc', s') ->
  exists row cb cb' mrow,
    let c := Z.to_nat (DrawContext_index (ActiveContext s)) in
    let k := Z.to_nat (SwapChainFrameIndex s) in
    m_sceneCB sc !! c = Some row
    /\ row !! k = Some cb
    /\ fill_sceneCB sc cb ptw eyePos = Ok cb'
    /\ m_mappedConstantData sc !! c = Some mrow
    /\ (k < length mrow)%nat
    /\ sc' = with_constants sc (<[c := <[k := cb']> row]> (m_sceneCB sc))
               (<[c := <[k := cb']> mrow]> (m_mappedConstantData sc)).
Proof.
  unfold DoRaytracing. intros H.
  apply dx_bind_Ok_inv in H as (g & s1 & G & H).
  apply Ok_inj in G. injection G as -> ->. cbv zeta in H.
  apply dx_bind_Ok_inv in H as (fr & s2 & _ & H).
  apply dx_bind_Ok_inv in H as (u1 & s3 & _ & H).
  apply dx_bind_Ok_inv in H as (row & s4 & L1 & H). apply lift_Ok_inv in L1 as [L1 _].
  apply dx_bind_Ok_inv in H as (cb & s5 & L2 & H). apply lift_Ok_inv in L2 as [L2 _].
  apply dx_bind_Ok_inv in H as (cb' & s6 & L3 & H). apply lift_Ok_inv in L3 as [L3 _].
  apply dx_bind_Ok_inv in H as (row' & s7 & L4 & H). apply lift_Ok_inv in L4 as [L4 _].
  apply dx_bind_Ok_inv in H as (sceneCB' & s8 & L5 & H).
  apply lift_Ok_inv in L5 as [L5 _].
  apply dx_bind_Ok_inv in H as (mrow & s9 & L6 & H). apply lift_Ok_inv in L6 as [L6 _].
  apply dx_bind_Ok_inv in H as (mrow' & s10 & L7 & H).
  apply lift_Ok_inv in L7 as [L7 _].
  apply dx_bind_Ok_inv in H as (mapped' & s11 & L8 & H).
  apply lift_Ok_inv in L8 as [L8 _].
  repeat (apply dx_bind_Ok_inv in H as (? & ? & _ & H)).
  apply Ok_inj in H. injection H as <- _.
  apply vec_at_Ok in L1 as [_ L1]. apply vec_at_Ok in L2 as [_ L2].
  apply vec_set_Ok in L4 as [_ ->]. apply vec_set_Ok in L5 as [_ ->].
  apply vec_at_Ok in L6 as [_ L6]. apply vec_set_Ok in L7 as [[K0 K1] ->].
  apply vec_set_Ok in L8 as [_ ->].
  exists row, cb, cb', mrow. cbv zeta.
  repeat split; try assumption; try reflexivity. lia.
Qed.

(** X17.  [DoRaytracing] writes one constant buffer: the one of the
    active context and the current frame slot, in the staging table and,
    with the same contents, in the mapped memory; the buffers of every
    other context and slot keep their contents.  The buffer written
    carries the matrix and the eye position passed in and the scene's own
    texture table: the 256 by 256 stored for texture 0 just before is
    overwritten by the copy of the table. *)
Theorem X17_DoRaytracing_writes_one_constant_buffer :
  forall (projectionToWorld : XMMATRIX) (eyePos : XMFLOAT4)
         (sc sc' : Scene) (s s' : DirectX12),
    DoRaytracing projectionToWorld eyePos sc s = Ok (sc', s') ->
    let c := Z.to_nat (DrawContext_index (ActiveContext s)) in
    let k := Z.to_nat (SwapChainFrameIndex s) in
    (forall c' k' : nat,
        ~ (c' = c /\ k' = k) ->
        constants_at (m_sceneCB sc') c' k' = constants_at (m_sceneCB sc) c' k'
        /\ constants_at (m_mappedConstantData sc') c' k'
           = constants_at (m_mappedConstantData sc) c' k')
    /\ exists cb cb',
         constants_at (m_sceneCB sc) c k = Some cb
         /\ constants_at (m_sceneCB sc') c k = Some cb'
         /\ constants_at (m_mappedConstantData sc') c k = Some cb'
         /\ cb_projectionToWorld cb' = projectionToWorld
         /\ cb_eyePosition cb' = eyePos
         /\ cb_textureResources cb'
            = take 60 (textureResources sc) ++ drop 60 (cb_textureResources cb).
Proof.
  intros ptw eyePos sc sc' s s' H. cbv zeta.
  apply DoRaytracing_scene in H as (row & cb & cb' & mrow & H). cbv zeta in H.
  destruct H as (Hrow & Hcb & Hfill & Hmrow & Hk & ->).
  cbn [m_sceneCB m_mappedConstantData with_constants].
  pose proof (lookup_lt_Some _ _ _ Hcb) as Hk'.
  split.
  - intros c' k' Hne.
    rewrite (constants_at_insert _ _ _ _ _ _ _ Hrow Hk').
    rewrite (constants_at_insert _ _ _ _ _ _ _ Hmrow Hk).
    rewrite !decide_False by exact Hne. split; reflexivity.
  - exists cb, cb'.
    rewrite (constants_at_insert _ _ _ _ _ _ _ Hrow Hk').
    rewrite (constants_at_insert _ _ _ _ _ _ _ Hmrow Hk).
    rewrite !decide_True by (split; reflexivity).
    apply fill_sceneCB_inv in Hfill as (F1 & F2 & _ & _ & _ & F6).
    split; [unfold constants_at; rewrite Hrow; exact Hcb|].
    repeat split; assumption.
Qed.

Lemma X17_witness :
  exists sc' s',
    DoRaytracing (projectionToWorld (example_eye 0xA00 0xA10))
      (eyePos (example_eye 0xA00 0xA10)) example_scene
      (at_slot example_objects [] (example_slot 0x900)
         [example_slot 0x901; example_slot 0x902; example_slot 0x903]
         DrawContext_EyeRenderRight 1 0 [])
    = Ok (sc', s')
    /\ constants_at (m_sceneCB sc') 0 0 = constants_at (m_sceneCB example_scene) 0 0
    /\ constants_at (m_mappedConstantData sc') 1 3
       = constants_at (m_mappedConstantData example_scene) 1 3.
Proof.
  pose (X := match DoRaytracing (projectionToWorld (example_eye 0xA00 0xA10))
                     (eyePos (example_eye 0xA00 0xA10)) example_scene
                     (at_slot example_objects [] (example_slot 0x900)
                        [example_slot 0x901; example_slot 0x902; example_slot 0x903]
                        DrawContext_EyeRenderRight 1 0 []) with
             | Ok x => x
             | _ => (example_scene, example_directx)
             end).
  assert (E : DoRaytracing (projectionToWorld (example_eye 0xA00 0xA10))
                (eyePos (example_eye 0xA00 0xA10)) example_scene
                (at_slot example_objects [] (example_slot 0x900)
                   [example_slot 0x901; example_slot 0x902; example_slot 0x903]
                   DrawContext_EyeRenderRight 1 0 [])
              = Ok (fst X, snd X)) by (vm_compute; reflexivity).
  exists (fst X), (snd X). split; [exact E|].
  pose proof (proj1 (X17_DoRaytracing_writes_one_constant_buffer _ _ _ _ _ _ E)) as K.
  cbv zeta in K. split.
  - apply (K 0%nat 0%nat). intros [Hc _]. vm_compute in Hc. discriminate Hc.
  - apply (K 1%nat 3%nat). intros [_ Hk]. vm_compute in Hk. discriminate Hk.
Defined.
(** ** More of the bottom-level build and of the buffer views *)

(** X18.  In an iteration of the bottom-level build, a buffer that the
    device cannot create ends the process with [exit(1)]: the scratch
    buffer, or, when that one was created, the buffer of the acceleration
    structure itself. *)
Theorem X18_blas_buffer_failure_is_fatal :
  forall (dev : Device) (i : Z) (vb : VertexBuffer)
         (desc : D3D12_RAYTRACING_GEOMETRY_DESC) o pre fr post active eye n t,
    blas_geometryDesc vb i = Ok desc ->
    0 < ResultDataMaxSizeInBytes
          (GetRaytracingAccelerationStructurePrebuildInfo dev (BOTTOM_LEVEL 1 [desc])) ->
    i = Z.of_nat (length (m_globalBottomLevelAccelerationStructures vb)) ->
    CreateCommittedResource dev (S n)
      (ScratchDataSizeInBytes
         (GetRaytracingAccelerationStructurePrebuildInfo dev (BOTTOM_LEVEL 1 [desc])))
    = None
    \/ CreateCommittedResource dev (S (S n))
         (ResultDataMaxSizeInBytes
            (GetRaytracingAccelerationStructurePrebuildInfo dev (BOTTOM_LEVEL 1 [desc])))
       = None ->
    blas_iteration dev i vb (at_slot o pre fr post active eye n t) = Exit 1.
Proof.
  intros dev i vb desc o pre fr post active eye n t Hd Hpos Hi Hfail.
  unfold blas_iteration. unfold dx_bind at 1. rewrite CommandList_Reset_call_at.
  apply Z.ltb_lt in Hpos.
  assert (Hat : vec_at (m_globalBottomLevelAccelerationStructures vb ++ [NoResource]) i
                = Ok NoResource).
  { subst i. apply vec_at_snoc. }
  destruct (hr_ok dev n CommandList_Reset);
    unfold dx_bind at 1; rewrite Hd, lift_at; cbv zeta; unfold dx_bind at 1;
    rewrite Hpos; unfold ThrowIfFalse; rewrite lift_at;
    unfold dx_bind at 1; rewrite AllocateUAVBuffer_at;
    (destruct (CreateCommittedResource dev (S n) _) as [h|] eqn:E1; [|reflexivity]);
    (destruct Hfail as [Hf|Hf]; [congruence|]);
    unfold dx_bind at 1; rewrite Hat, lift_at;
    unfold dx_bind at 1; rewrite AllocateUAVBuffer_at, Hf; reflexivity.
Qed.

(** The first sub-range of [example_store] on a device that cannot
    create the first scratch buffer. *)
Lemma X18_witness :
  InitGlobalBottomLevelAccelerationObject example_device_no_scratch example_store
    example_directx = Exit 1
  /\ exists desc,
       blas_geometryDesc example_store 0 = Ok desc
       /\ blas_iteration example_device_no_scratch 0 example_store example_directx
          = Exit 1.
Proof.
  split; [vm_compute; reflexivity|].
  eexists. split; [vm_compute; reflexivity|].
  eapply (X18_blas_buffer_failure_is_fatal example_device_no_scratch 0 example_store
            _ example_objects [] (example_slot 0x900)
            [example_slot 0x901; example_slot 0x902; example_slot 0x903]
            DrawContext_Final 0 0%nat []).
  - vm_compute. reflexivity.
  - vm_compute. reflexivity.
  - reflexivity.
  - left. reflexivity.
Defined.

(** X19.  With an empty free list and room for two handles the two
    [CreateBufferSRV] calls of [InitGlobalVertexBuffers] get descriptor
    indices that follow each other, so the check passes whatever the
    uninitialised locals held: the index view, a raw view of the indices,
    lies at the watermark, the vertex view, a structured view with a
    stride of [sizeof(Vertex)], one [Offset(IncrementSize)] further, the
    GPU handle of each buffer is [GpuHandleFromCpuHandle] of its CPU
    handle, and the handle count grows by two.  With handles on the free
    list the views take them, the last freed first, [AllocCpuHandle] does
    not write [descriptorIndex], and the check compares what the
    uninitialised locals held: with two freed handles it passes exactly
    when the two indeterminate values follow each other, with one freed
    handle exactly when the handle count is the indeterminate index plus
    one; otherwise [ThrowIfFalse] ends the run. *)
Theorem X19_buffer_views_are_adjacent_without_free_handles :
  forall (heap : DescriptorHeap) (vb : VertexBuffer)
         (p : DescHandle.DescHandleProvider) (uIB uVB : Z),
    let indexView (h : Z) :=
      (resource (indexBuffer vb),
       mkBufferSRV SRV.DXGI_FORMAT_R32_TYPELESS
         (UINT_of_size (length (globalIndices vb))) D3D12_BUFFER_SRV_FLAG_RAW 0,
       h) in
    let vertexView (h : Z) :=
      (resource (vertexBuffer vb),
       mkBufferSRV SRV.DXGI_FORMAT_UNKNOWN
         (UINT_of_size (length (globalVertices vb))) D3D12_BUFFER_SRV_FLAG_NONE
         sizeof_Vertex,
       h) in
    let viewed (hIB hVB : Z) :=
      with_buffers vb
        {| resource := resource (indexBuffer vb);
           cpuDescriptorHandle := hIB;
           gpuDescriptorHandle := GpuHandleFromCpuHandle heap hIB |}
        {| resource := resource (vertexBuffer vb);
           cpuDescriptorHandle := hVB;
           gpuDescriptorHandle := GpuHandleFromCpuHandle heap hVB |} in
    (DescHandle.FreeHandles p = [] ->
     provider_ok p ->
     DescHandle.CurrentHandleCount p + 2 <= DescHandle.MaxHandleCount p ->
     exists p',
       InitGlobalVertexBuffers_views heap vb uIB uVB p
       = Ok (viewed (DescHandle.NextAvailableCpuHandle p)
               (DescHandle.Offset (DescHandle.NextAvailableCpuHandle p)
                  (DescHandle.IncrementSize p)),
             [ indexView (DescHandle.NextAvailableCpuHandle p);
               vertexView (DescHandle.Offset (DescHandle.NextAvailableCpuHandle p)
                             (DescHandle.IncrementSize p)) ],
             p')
       /\ DescHandle.CurrentHandleCount p' = DescHandle.CurrentHandleCount p + 2
       /\ DescHandle.FreeHandles p' = [])
    /\ (forall l hVB hIB,
           DescHandle.FreeHandles p = l ++ [hVB; hIB] ->
           InitGlobalVertexBuffers_views heap vb uIB uVB p
           = if uVB =? wrap32 (uIB + 1)
             then Ok (viewed hIB hVB, [indexView hIB; vertexView hVB],
                      DescHandle.with_free p l)
             else Exit 1)
    /\ (forall hIB,
           DescHandle.FreeHandles p = [hIB] ->
           DescHandle.CurrentHandleCount p < DescHandle.MaxHandleCount p ->
           InitGlobalVertexBuffers_views heap vb uIB uVB p
           = if DescHandle.CurrentHandleCount p =? wrap32 (uIB + 1)
             then Ok (viewed hIB (DescHandle.NextAvailableCpuHandle p),
                      [ indexView hIB;
                        vertexView (DescHandle.NextAvailableCpuHandle p) ],
                      DescHandle.bumped (DescHandle.with_free p []))
             else Exit 1).
Proof.
  intros heap vb p uIB uVB indexView vertexView viewed.
  split; [|split].
  - intros Ef (Hc & Hm & Hn) Hroom.
    unfold InitGlobalVertexBuffers_views, CreateBufferSRV. cbv zeta.
    rewrite (alloc_empty_bump true p Ef) by lia. cbn [bind].
    cbn [DescHandle.written DescHandle.newHandle DescHandle.after srv_provider
         descriptorIndex srv_buffer srv_created].
    assert (Hc1 : DescHandle.CurrentHandleCount (DescHandle.bumped p)
                  = DescHandle.CurrentHandleCount p + 1).
    { cbn [DescHandle.bumped DescHandle.CurrentHandleCount].
      apply wrap32_small. lia. }
    rewrite (alloc_empty_bump true (DescHandle.bumped p)) by (try exact Ef; rewrite Hc1;
      cbn [DescHandle.bumped DescHandle.MaxHandleCount]; lia).
    cbn [bind DescHandle.written DescHandle.newHandle DescHandle.after srv_provider
         descriptorIndex srv_buffer srv_created].
    rewrite Hc1. rewrite wrap32_small by lia. rewrite Z.eqb_refl.
    cbn [ThrowIfFalse bind].
    change (sizeof_Vertex =? 0) with false. change (0 =? 0) with true. cbv iota.
    eexists. split; [reflexivity|]. split.
    + cbn [DescHandle.bumped DescHandle.CurrentHandleCount].
      rewrite (wrap32_small (DescHandle.CurrentHandleCount p + 1)) by lia.
      rewrite wrap32_small by lia. lia.
    + exact Ef.
  - intros l hVB hIB Ef.
    unfold InitGlobalVertexBuffers_views, CreateBufferSRV. cbv zeta.
    rewrite (alloc_from_free_list true p (l ++ [hVB]) hIB)
      by (rewrite Ef, <- app_assoc; reflexivity).
    cbn [bind DescHandle.written DescHandle.newHandle DescHandle.after srv_provider
         descriptorIndex srv_buffer srv_created].
    rewrite (alloc_from_free_list true (DescHandle.with_free p (l ++ [hVB])) l hVB)
      by reflexivity.
    cbn [bind DescHandle.written DescHandle.newHandle DescHandle.after srv_provider
         descriptorIndex srv_buffer srv_created].
    change (sizeof_Vertex =? 0) with false. change (0 =? 0) with true. cbv iota.
    destruct (uVB =? wrap32 (uIB + 1)); reflexivity.
  - intros hIB Ef Hlt.
    unfold InitGlobalVertexBuffers_views, CreateBufferSRV. cbv zeta.
    rewrite (alloc_from_free_list true p [] hIB) by exact Ef.
    cbn [bind DescHandle.written DescHandle.newHandle DescHandle.after srv_provider
         descriptorIndex srv_buffer srv_created].
    rewrite (alloc_empty_bump true (DescHandle.with_free p [])) by (reflexivity || exact Hlt).
    cbn [bind DescHandle.written DescHandle.newHandle DescHandle.after srv_provider
         descriptorIndex srv_buffer srv_created].
    change (sizeof_Vertex =? 0) with false. change (0 =? 0) with true. cbv iota.
    cbn [DescHandle.with_free DescHandle.CurrentHandleCount
         DescHandle.NextAvailableCpuHandle].
    destruct (DescHandle.CurrentHandleCount p =? wrap32 (uIB + 1)); reflexivity.
Qed.

(** A fresh provider of ten handles over [example_store]: the two views
    lie at 0x1000 and 0x1020 whatever the locals held.  After two frees
    the views take the freed handles, and the run ends in the check when
    the locals held 7 and 7, and passes when they held 7 and 8. *)
Lemma X19_witness :
  (exists vb' p',
      InitGlobalVertexBuffers_views (mkHeap 0x1000 0x80000000) example_store 7 7
        (DescHandle.init 0x1000 32 10)
      = Ok (vb',
            [ (Res 0x20000,
               mkBufferSRV SRV.DXGI_FORMAT_R32_TYPELESS 45 D3D12_BUFFER_SRV_FLAG_RAW 0,
               0x1000);
              (Res 0x30000,
               mkBufferSRV SRV.DXGI_FORMAT_UNKNOWN 31 D3D12_BUFFER_SRV_FLAG_NONE 32,
               0x1020) ],
            p')
      /\ DescHandle.CurrentHandleCount p' = 2)
  /\ InitGlobalVertexBuffers_views (mkHeap 0x1000 0x80000000) example_store 7 7
       (DescHandle.FreeCpuHandle 0x1060
          (DescHandle.FreeCpuHandle 0x1040 (DescHandle.init 0x1000 32 10)))
     = Exit 1
  /\ exists vb',
       InitGlobalVertexBuffers_views (mkHeap 0x1000 0x80000000) example_store 7 8
         (DescHandle.FreeCpuHandle 0x1060
            (DescHandle.FreeCpuHandle 0x1040 (DescHandle.init 0x1000 32 10)))
       = Ok (vb',
             [ (Res 0x20000,
                mkBufferSRV SRV.DXGI_FORMAT_R32_TYPELESS 45 D3D12_BUFFER_SRV_FLAG_RAW 0,
                0x1060);
               (Res 0x30000,
                mkBufferSRV SRV.DXGI_FORMAT_UNKNOWN 31 D3D12_BUFFER_SRV_FLAG_NONE 32,
                0x1040) ],
             DescHandle.init 0x1000 32 10).
Proof.
  split; [|split].
  - destruct (proj1 (X19_buffer_views_are_adjacent_without_free_handles
                       (mkHeap 0x1000 0x80000000) example_store
                       (DescHandle.init 0x1000 32 10) 7 7))
      as (p' & E & C & _);
      try (unfold provider_ok; cbn; lia); try reflexivity.
    eexists. exists p'. split; [exact E|exact C].
  - exact (proj1 (proj2 (X19_buffer_views_are_adjacent_without_free_handles
                           (mkHeap 0x1000 0x80000000) example_store
                           (DescHandle.FreeCpuHandle 0x1060
                              (DescHandle.FreeCpuHandle 0x1040
                                 (DescHandle.init 0x1000 32 10))) 7 7))
             [] 0x1040 0x1060 eq_refl).
  - eexists.
    exact (proj1 (proj2 (X19_buffer_views_are_adjacent_without_free_handles
                           (mkHeap 0x1000 0x80000000) example_store
                           (DescHandle.FreeCpuHandle 0x1060
                              (DescHandle.FreeCpuHandle 0x1040
                                 (DescHandle.init 0x1000 32 10))) 7 8))
             [] 0x1040 0x1060 eq_refl).
Defined.
(** ** Order of the events of a frame *)

Lemma Trace_ext s s' :
  Trace s' = Trace s -> SwapChainFrameIndex s' = SwapChainFrameIndex s ->
  Trace s' = Trace s.
Proof. intros H _. exact H. Qed.

Lemma keeps_Trace_set_index i : keeps Trace (set_SwapChainFrameIndex i).
Proof. intros s x s' H. apply Ok_inj in H. injection H as _ <-. reflexivity. Qed.

Ltac keeps_Trace :=
  repeat first
    [ apply keeps_bind
    | match goal with |- forall _ : _, keeps _ _ => intro end
    | apply keeps_if
    | apply keeps_ret
    | apply keeps_lift
    | apply keeps_get
    | apply keeps_CurrentFrameResources
    | apply (keeps_record Trace Trace_ext)
    | apply (keeps_set_CurrentFrameResources Trace Trace_ext)
    | apply (keeps_SetActiveContext Trace Trace_ext)
    | apply (keeps_SetActiveEye Trace Trace_ext)
    | apply (keeps_native Trace Trace_ext)
    | apply (keeps_SwapChain_GetCurrentBackBufferIndex Trace Trace_ext)
    | apply keeps_Trace_set_index
    | progress cbv zeta ].

Section FrameOrder.

Variable dev : Device.

Lemma keeps_Trace_CommandList_Reset_call c : keeps Trace (CommandList_Reset_call dev c).
Proof. unfold CommandList_Reset_call. keeps_Trace. Qed.

Lemma keeps_Trace_InitCommandList c : keeps Trace (InitCommandList dev c).
Proof.
  unfold InitCommandList.
  apply keeps_bind; [apply keeps_CurrentFrameResources|]. intros fr.
  apply keeps_if; [|apply keeps_ret].
  apply keeps_bind; [apply (keeps_native Trace Trace_ext)|]. intros hr.
  apply keeps_bind; [apply keeps_lift|]. intros _.
  apply keeps_bind; [apply keeps_Trace_CommandList_Reset_call|]. keeps_Trace.
Qed.

Lemma keeps_Trace_InitFrame b : keeps Trace (InitFrame dev b).
Proof.
  unfold InitFrame.
  apply keeps_bind; [apply keeps_Trace_InitCommandList|]. intros _.
  apply keeps_bind; [apply keeps_Trace_InitCommandList|]. intros _.
  apply keeps_bind;
    [apply keeps_if; [apply keeps_Trace_InitCommandList|apply keeps_ret]|].
  keeps_Trace.
Qed.

(** What [WaitForPreviousFrame] adds to the trace: the signal of the
    current slot, then at most the wait for the next slot. *)
Lemma WaitForPreviousFrame_trace o pre fr post active eye n t u s' :
  WaitForPreviousFrame dev (at_slot o pre fr post active eye n t) = Ok (u, s') ->
  exists waits,
    Trace s' = t ++ EvSignal (Z.of_nat (length pre)) (PresentFenceValue fr) :: waits
    /\ (waits = [] \/ waits = [EvWaitForSingleObject (SwapChainFrameIndex s')]).
Proof.
  unfold WaitForPreviousFrame. intros H.
  unfold dx_bind at 1 in H. rewrite signal_fence_at in H.
  destruct (hr_ok dev n CommandQueue_Signal); [|discriminate H].
  cbv beta iota in H.
  apply dx_bind_Ok_inv in H as (g1 & s2 & G1 & H).
  apply Ok_inj in G1. injection G1 as <- <-.
  apply dx_bind_Ok_inv in H as (u1 & s3 & G2 & H).
  apply Ok_inj in G2. injection G2 as _ <-.
  apply dx_bind_Ok_inv in H as (fr2 & s4 & G3 & H).
  unfold CurrentFrameResources in G3. apply bind_Ok_inv in G3 as (fr' & _ & G3).
  apply Ok_inj in G3. injection G3 as _ <-.
  apply dx_bind_Ok_inv in H as (g2 & s6 & G4 & H).
  apply Ok_inj in G4. injection G4 as <- <-.
  apply dx_bind_Ok_inv in H as (u2 & s7 & G5 & H).
  apply dx_bind_Ok_inv in H as (g3 & s9 & G6 & H).
  apply Ok_inj in G6. injection G6 as -> ->.
  apply dx_bind_Ok_inv in H as (bb & s10 & G7 & H).
  apply Ok_inj in G7. injection G7 as <- <-.
  apply lift_Ok_inv in H as [_ ->]. cbn [Trace SwapChainFrameIndex].
  destruct (negb (PresentFenceWaitValue fr2 =? wrap64 (-1))).
  - apply Ok_inj in G5. injection G5 as _ <-.
    cbn [Trace SwapChainFrameIndex at_slot].
    eexists. split; [rewrite <- app_assoc; reflexivity|]. right. reflexivity.
  - apply Ok_inj in G5. injection G5 as _ <-. cbn [Trace at_slot].
    exists []. split; [reflexivity|]. left. reflexivity.
Qed.

Lemma SubmitCommandListAndPresent_trace o pre fr post active eye n t u s' :
  SubmitCommandListAndPresent dev true (at_slot o pre fr post active eye n t)
  = Ok (u, s') ->
  active = DrawContext_Final
  /\ exists waits,
       Trace s'
       = t ++ [ EvExecuteCommandLists (Z.of_nat (length pre)) DrawContext_Final
                  (ctx_get (CommandLists fr) DrawContext_Final
                   ++ [ResourceBarrier [Transition (SwapChainBuffer fr)
                                          D3D12_RESOURCE_STATE_COPY_DEST
                                          D3D12_RESOURCE_STATE_PRESENT]]);
                EvPresent;
                EvSignal (Z.of_nat (length pre)) (PresentFenceValue fr) ]
           ++ waits
       /\ (waits = [] \/ waits = [EvWaitForSingleObject (SwapChainFrameIndex s')]).
Proof.
  unfold SubmitCommandListAndPresent. intros H.
  apply dx_bind_Ok_inv in H as (u1 & s1 & H & HI).
  pose proof (keeps_Trace_InitFrame _ _ _ _ HI) as ET.
  pose proof (keeps_index_InitFrame _ _ _ _ _ HI) as EI. rewrite ET, EI. clear HI ET EI.
  dx_fwd H.
  match goal with
  | E : VALIDATE (DrawContext_eqb active DrawContext_Final) = Ok _ |- _ =>
      assert (Ha : active = DrawContext_Final)
        by (destruct active; try reflexivity; discriminate E);
      clear E
  end.
  subst active. split; [reflexivity|].
  rewrite SubmitCommandList_at in H.
  destruct (hr_ok dev n CommandList_Close); [|discriminate H].
  cbv beta iota in H. rewrite native_at in H.
  destruct (hr_ok dev (S n) SwapChain_Present); [|discriminate H].
  unfold VALIDATE in H. rewrite lift_at, emit_at in H.
  apply WaitForPreviousFrame_trace in H as (waits & Et & Hw).
  exists waits. split; [|exact Hw].
  rewrite Et, ctx_get_recorded. cbn [PresentFenceValue submitted recorded
    with_CommandListSubmitted with_CommandLists].
  rewrite <- !app_assoc. reflexivity.
Qed.

End FrameOrder.

(** X20.  [SubmitCommandListAndPresent(true)] returns only when the
    active context is [DrawContext_Final], and then the order of its
    events is fixed: the final list of the current slot is given to the
    queue, its last command being the transition of the back buffer to
    PRESENT; then the swap chain is presented; then the fence of the slot
    is signalled with the slot's fence value; and the only thing that can
    follow is one wait, for the slot that the ring moves to. *)
Theorem X20_present_follows_the_final_list :
  forall (dev : Device) (s : DirectX12) (fr : SwapChainFrameResources) (u : unit)
         (s' : DirectX12),
    vec_at (PerFrameResources s) (SwapChainFrameIndex s) = Ok fr ->
    SubmitCommandListAndPresent dev true s = Ok (u, s') ->
    ActiveContext s = DrawContext_Final
    /\ exists waits,
         Trace s'
         = Trace s
           ++ [ EvExecuteCommandLists (SwapChainFrameIndex s) DrawContext_Final
                  (ctx_get (CommandLists fr) DrawContext_Final
                   ++ [ResourceBarrier [Transition (SwapChainBuffer fr)
                                          D3D12_RESOURCE_STATE_COPY_DEST
                                          D3D12_RESOURCE_STATE_PRESENT]]);
                EvPresent;
                EvSignal (SwapChainFrameIndex s) (PresentFenceValue fr) ]
           ++ waits
         /\ (waits = [] \/ waits = [EvWaitForSingleObject (SwapChainFrameIndex s')]).
Proof.
  intros dev s fr u s' Hfr H.
  apply at_slot_intro in Hfr as (pre & post & Es).
  pose proof (f_equal SwapChainFrameIndex Es) as Ei.
  rewrite SwapChainFrameIndex_at in Ei. rewrite Ei.
  pose proof (f_equal ActiveContext Es) as Ea. rewrite ActiveContext_at in Ea.
  rewrite Es in H. apply SubmitCommandListAndPresent_trace in H. exact H.
Qed.

(** The first present on [example_device]: slot 1 was never signalled,
    so nothing is waited for. *)
Lemma X20_witness :
  exists s',
    SubmitCommandListAndPresent example_device true example_ready = Ok (tt, s')
    /\ Trace s'
       = Trace example_ready
         ++ [ EvExecuteCommandLists 0 DrawContext_Final
                (ctx_get (CommandLists example_ready_slot) DrawContext_Final
                 ++ [ResourceBarrier [Transition (Res 0x900)
                                        D3D12_RESOURCE_STATE_COPY_DEST
                                        D3D12_RESOURCE_STATE_PRESENT]]);
              EvPresent;
              EvSignal 0 0 ].
Proof.
  pose (X := match SubmitCommandListAndPresent example_device true example_ready with
             | Ok x => snd x
             | _ => example_ready
             end).
  assert (E : SubmitCommandListAndPresent example_device true example_ready
              = Ok (tt, X)) by (vm_compute; reflexivity).
  assert (F : vec_at (PerFrameResources example_ready)
                     (SwapChainFrameIndex example_ready)
              = Ok example_ready_slot) by (vm_compute; reflexivity).
  exists X. split; [exact E|].
  destruct (X20_present_follows_the_final_list example_device example_ready
              example_ready_slot tt X F E) as (_ & waits & Et & _).
  vm_compute. reflexivity.
Defined.

(** X21.  An eye pass gives exactly one command list to the queue, the
    list of the eye's own context in the current slot, and commits the
    swap chains of the eye texture only after that: the colour chain
    first, then the depth chain if the eye texture has one
    ([OculusEyeTexture::Commit()]).  The pass leaves the eye's context
    active and the frame slot as it was. *)
Theorem X21_eye_is_committed_after_its_list_is_queued :
  forall (dev : Device) (eye : Z) (inp : EyeInput) (sc sc' : Scene)
         (s s' : DirectX12) (fr : SwapChainFrameResources),
    vec_at (PerFrameResources s) (SwapChainFrameIndex s) = Ok fr ->
    render_eye dev eye inp sc s = Ok (sc', s') ->
    exists cmds,
      Trace s'
      = Trace s
        ++ [ EvExecuteCommandLists (SwapChainFrameIndex s) (eye_context eye)
               (ctx_get (CommandLists fr) (eye_context eye) ++ cmds);
             EvOvr (ovr_CommitTextureSwapChain (TextureChain eye)) ]
        ++ (if has_DepthTextureChain inp
            then [EvOvr (ovr_CommitTextureSwapChain (DepthTextureChain eye))]
            else [])
      /\ existsb is_DispatchRays cmds = true
      /\ ActiveContext s' = eye_context eye
      /\ SwapChainFrameIndex s' = SwapChainFrameIndex s.
Proof.
  intros dev eye inp sc sc' s s' fr Hfr H.
  apply at_slot_intro in Hfr as (pre & post & Es).
  pose proof (f_equal SwapChainFrameIndex Es) as Ei.
  rewrite SwapChainFrameIndex_at in Ei. rewrite Ei.
  rewrite Es in H. apply render_eye_inv in H as (cmds & -> & Hd & _).
  exists cmds. split; [reflexivity|]. split; [exact Hd|]. split; reflexivity.
Qed.

(** The right eye of the example frame, whose eye texture has a depth
    chain: two commits follow the submission. *)
Lemma X21_witness :
  exists sc' s' cmds,
    render_eye example_device 1 (example_eye 0xA01 0xA11) example_scene example_ready
    = Ok (sc', s')
    /\ Trace s'
       = Trace example_ready
         ++ [ EvExecuteCommandLists (SwapChainFrameIndex example_ready)
                (eye_context 1)
                (ctx_get (CommandLists example_ready_slot) (eye_context 1) ++ cmds);
              EvOvr (ovr_CommitTextureSwapChain (TextureChain 1));
              EvOvr (ovr_CommitTextureSwapChain (DepthTextureChain 1)) ].
Proof.
  pose (X := match render_eye example_device 1 (example_eye 0xA01 0xA11) example_scene
                     example_ready with
             | Ok x => x
             | _ => (example_scene, example_ready)
             end).
  assert (E : render_eye example_device 1 (example_eye 0xA01 0xA11) example_scene
                example_ready = Ok (fst X, snd X)) by (vm_compute; reflexivity).
  assert (F : vec_at (PerFrameResources example_ready)
                     (SwapChainFrameIndex example_ready)
              = Ok example_ready_slot) by (vm_compute; reflexivity).
  destruct (X21_eye_is_committed_after_its_list_is_queued example_device 1
              (example_eye 0xA01 0xA11) example_scene (fst X) example_ready (snd X)
              example_ready_slot F E) as (cmds & Et & _).
  exists (fst X), (snd X), cmds. split; [exact E|exact Et].
Defined.

(** X22.  [numVertexBuffers] counts the meshes: after any run of append
    calls on the empty store it equals the number of calls, which is also
    the number of recorded index sub-ranges and of recorded vertex
    sub-ranges, so that every [i] below it names a sub-range. *)
Theorem X22_numVertexBuffers_counts_the_subranges :
  forall (calls : list AppendCall) (rets : list (Z * Z)) (vb : VertexBuffer),
    run_calls calls VertexBuffer_empty = Ok (rets, vb) ->
    Z.of_nat (length calls) < 2 ^ 32 ->
    numVertexBuffers vb = Z.of_nat (length calls)
    /\ length (globalStartIBIndices vb) = length calls
    /\ length (globalStartVBIndices vb) = length calls
    /\ length rets = length calls.
Proof.
  intros calls rets vb H Hsmall.
  assert (G : forall cs vb0 rets' vb',
             run_calls cs vb0 = Ok (rets', vb') ->
             numVertexBuffers vb0 = Z.of_nat (length (globalStartIBIndices vb0)) ->
             length (globalStartVBIndices vb0) = length (globalStartIBIndices vb0) ->
             Z.of_nat (length (globalStartIBIndices vb0) + length cs) < 2 ^ 32 ->
             numVertexBuffers vb'
             = Z.of_nat (length (globalStartIBIndices vb0) + length cs)
             /\ length (globalStartIBIndices vb')
                = (length (globalStartIBIndices vb0) + length cs)%nat
             /\ length (globalStartVBIndices vb')
                = (length (globalStartIBIndices vb0) + length cs)%nat
             /\ length rets' = length cs).
  { induction cs as [|c cs IH]; intros vb0 rets' vb' Hr Hn Hl Hb.
    - apply Ok_inj in Hr. injection Hr as <- <-. cbn [length].
      rewrite Nat.add_0_r. repeat split; assumption.
    - cbn [run_calls] in Hr. apply bind_Ok_inv in Hr as ([r vb1] & Hc & Hr).
      apply bind_Ok_inv in Hr as ([rs vb2] & Hrest & Hr).
      apply Ok_inj in Hr. injection Hr as <- <-. cbn [fst snd] in *.
      apply run_call_is_append in Hc as (vs & is_ & Ea).
      pose proof (f_equal snd Ea) as Evb. cbn [snd] in Evb. subst vb1.
      pose proof (append_IB_length vs is_ vb0) as L1.
      pose proof (append_VB_length vs is_ vb0) as L2.
      cbn [length] in Hb.
      destruct (IH _ _ _ Hrest) as (K1 & K2 & K3 & K4).
      + rewrite L1. unfold append_to_global. cbn [snd numVertexBuffers].
        rewrite Hn. rewrite wrap32_small by lia. lia.
      + rewrite L1, L2, Hl. reflexivity.
      + rewrite L1. lia.
      + rewrite L1 in K1, K2, K3. cbn [length].
        repeat split; lia. }
  destruct (G calls VertexBuffer_empty rets vb H) as (K1 & K2 & K3 & K4);
    try reflexivity; [cbn [VertexBuffer_empty globalStartIBIndices length]; lia|].
  cbn [VertexBuffer_empty globalStartIBIndices length Nat.add] in K1, K2, K3.
  repeat split; assumption.
Qed.

Lemma X22_witness :
  numVertexBuffers (snd example_run) = 3
  /\ length (globalStartIBIndices (snd example_run)) = 3%nat
  /\ length (globalStartVBIndices (snd example_run)) = 3%nat
  /\ length (fst example_run) = 3%nat.
Proof.
  assert (E : run_calls example_calls VertexBuffer_empty
              = Ok (fst example_run, snd example_run)) by (vm_compute; reflexivity).
  apply (X22_numVertexBuffers_counts_the_subranges example_calls _ _ E).
  vm_compute. reflexivity.
Defined.
